(** * rayopt/raytrace.py: paraxial and full ray traces

    A shallow embedding of [Trace], [ParaxialTrace] and [FullTrace] from
    [rayopt/raytrace.py], and the properties of their bookkeeping: which
    rows of the state arrays are written, in which order, with which
    values, and what each call returns or raises.

    Conventions.
    - A Python call either returns a value or raises; [result] records
      which, with the exception named by its class.
    - numpy arrays are lists; an index is a Python integer ([Z]) with
      numpy's wrap-around of negative indices and an [IndexError] out of
      range.
    - The trace engines are written over an abstract arithmetic [Arith F],
      so that what is proved about them holds for binary64 as well as for
      exact rationals; the pupil sampler [get_rays] is written over
      binary64 itself, since the number of points it returns is decided by
      roundings. *)

From Stdlib Require Import ZArith List String Ascii Bool Lia.
From Stdlib Require Import QArith Qcanon Field.
From Stdlib Require Import DecimalString.
From Stdlib Require Import Floats.PrimFloat Floats.FloatOps Floats.SpecFloat.
From Stdlib Require Import Floats.FloatAxioms.
From stdpp Require Import base list.
Import ListNotations.

Local Open Scope string_scope.
Local Open Scope list_scope.
Local Open Scope Z_scope.

(** ** The Python run time *)

(** The outcome of a call: a value, or an exception named by its class. *)
Inductive result (A : Type) : Type :=
| Returns (a : A)
| Raises (e : string).
Arguments Returns {A} a.
Arguments Raises {A} e.

Definition bind {A B : Type} (r : result A) (k : A -> result B) : result B :=
  match r with
  | Returns a => k a
  | Raises e => Raises e
  end.

Notation "x <- r ;; k" := (bind r (fun x => k))
  (at level 100, r at next level, right associativity).

(** A [for] loop whose body may raise: the state is threaded from one
    iteration to the next, and the first exception ends the loop. *)
Fixpoint for_each {A S : Type} (body : A -> S -> result S) (l : list A) (s : S)
  : result S :=
  match l with
  | [] => Returns s
  | a :: l' => s' <- body a s ;; for_each body l' s'
  end.

(** [range(a, b)] *)
Definition py_range (a b : Z) : list Z :=
  map (fun k : nat => a + Z.of_nat k) (seq 0 (Z.to_nat (b - a))).

(** [stop or length]: [None] and [0] are falsy. *)
Definition py_or (stop : option Z) (length : Z) : Z :=
  match stop with
  | None => length
  | Some s => if s =? 0 then length else s
  end.

(** The position an index denotes in a sequence of [len] items. *)
Definition py_index (len : nat) (i : Z) : option nat :=
  if (0 <=? i) && (i <? Z.of_nat len) then Some (Z.to_nat i)
  else if (- Z.of_nat len <=? i) && (i <? 0) then Some (Z.to_nat (Z.of_nat len + i))
  else None.

(** [l[i]] *)
Definition py_getitem {A : Type} (l : list A) (i : Z) : result A :=
  match py_index (length l) i with
  | Some k =>
      match l !! k with
      | Some a => Returns a
      | None => Raises "IndexError"
      end
  | None => Raises "IndexError"
  end.

(** [l[i] = a] *)
Definition py_setitem {A : Type} (l : list A) (i : Z) (a : A) : result (list A) :=
  match py_index (length l) i with
  | Some k => Returns (<[k:=a]> l)
  | None => Raises "IndexError"
  end.

(** [str(i)] of an integer. *)
Definition py_str_int (i : Z) : string := NilZero.string_of_int (Z.to_int i).

(** A string right-justified in a field of [w] characters, as the [%ws]
    conversion pads it. *)
Definition rjust (w : nat) (s : string) : string :=
  (String.concat "" (repeat " " (w - String.length s)%nat) ++ s)%string.

(** ** Arithmetic *)

(** The operations the trace engines use on array elements. *)
Class Arith (F : Type) : Type := {
  fzero : F;
  fadd : F -> F -> F;
  fsub : F -> F -> F;
  fmul : F -> F -> F;
  fdiv : F -> F -> F;
  of_int : Z -> F
}.

Declare Scope arith_scope.
Delimit Scope arith_scope with F.
Notation "x +. y" := (fadd x y) (at level 50, left associativity) : arith_scope.
Notation "x -. y" := (fsub x y) (at level 50, left associativity) : arith_scope.
Notation "x *. y" := (fmul x y) (at level 40, left associativity) : arith_scope.
Notation "x /. y" := (fdiv x y) (at level 40, left associativity) : arith_scope.
Local Open Scope arith_scope.

(** [float(z)]: the binary64 nearest to an integer. *)
Definition float_of_Z (z : Z) : float :=
  SF2Prim (binary_normalize prec emax z 0 false).

(** binary64, the element type of the arrays at run time: a division by
    zero gives an infinity or a NaN, it does not raise. *)
#[export] Instance float_arith : Arith float := {
  fzero := PrimFloat.zero;
  fadd := PrimFloat.add;
  fsub := PrimFloat.sub;
  fmul := PrimFloat.mul;
  fdiv := PrimFloat.div;
  of_int := float_of_Z
}.

(** Exact rational arithmetic. *)
#[export] Instance Qc_arith : Arith Qc := {
  fzero := 0%Qc;
  fadd := Qcplus;
  fsub := Qcminus;
  fmul := Qcmult;
  fdiv := Qcdiv;
  of_int := fun z => Q2Qc (inject_Z z)
}.

(** ** 2x2 arrays *)

(** A 2x2 array, row by row: [a[i, j]] is component [j] of row [i]. *)
Definition array22 (F : Type) : Type := ((F * F) * (F * F))%type.

Section Array22.
Context {F : Type}.

Definition at00 (a : array22 F) : F := fst (fst a).
Definition at01 (a : array22 F) : F := snd (fst a).
Definition at10 (a : array22 F) : F := fst (snd a).
Definition at11 (a : array22 F) : F := snd (snd a).

(** [a.T] *)
Definition transpose (a : array22 F) : array22 F :=
  ((at00 a, at10 a), (at01 a, at11 a)).

(** [a[::-1]]: the rows in reverse order. *)
Definition reversed (a : array22 F) : array22 F := (snd a, fst a).

(** [a[:, 0]] and [a[:, 1]] *)
Definition column0 (a : array22 F) : F * F := (at00 a, at10 a).
Definition column1 (a : array22 F) : F * F := (at01 a, at11 a).

(** [a[i, j]] for an (n, 2) array [a], kept as the list of its rows. *)
Definition get2 (a : list (F * F)) (i : Z) (j : Z) : result F :=
  row <- py_getitem a i ;;
  py_getitem [fst row; snd row] j.

(** [a[i, j] = x] for an (n, 2) array [a]. *)
Definition set2 (a : list (F * F)) (i : Z) (j : Z) (x : F) : result (list (F * F)) :=
  row <- py_getitem a i ;;
  cells <- py_setitem [fst row; snd row] j x ;;
  match cells with
  | [x0; x1] => py_setitem a i (x0, x1)
  | _ => Raises "IndexError"
  end.
End Array22.

(** ** The optical system, as the traces use it

    The classes of the surfaces and of the system are not part of
    [raytrace.py]; a surface is the record of the attributes and methods
    the traces call on it, each method a function of its arguments. [T] is
    the type of the aberration coefficients of one surface, an array of
    shape (2, 2, k, k, k). *)
Module System.
Section Defs.
Context {F T : Type}.

(** The positions or the directions of a bundle of rays at one surface:
    an (nrays, 3) array. *)
Definition rays : Type := list (F * F * F).

Record Element : Type := {
  typ : string;
  thickness : F;
  radius : F;
  (** [el.propagate_paraxial(yu0, n0, l)] *)
  propagate_paraxial : array22 F -> option F -> list F -> array22 F * F;
  (** [el.aberration(y, u0, n0, n, k)] *)
  aberration : F * F -> F * F -> option F -> F -> nat -> T;
  (** [el.dispersion(l)] *)
  dispersion : list F -> F;
  (** [el.transformed_yu(el.propagate, y, u, n, l, clip)] *)
  transformed_yu : rays -> rays -> option (list F) -> list F -> bool ->
                   rays * rays * list F * list F
}.

Record Object : Type := {
  wavelengths : list F;
  object_radius : F;
  finite : bool
}.

Record System : Type := {
  elements : list Element;
  object : Object;
  aperture_index : Z;
  (** [system.paraxial_matrix(l, stop=k)] *)
  paraxial_matrix : list F -> Z -> array22 F
}.
End Defs.
Arguments Element : clear implicits.
Arguments Object : clear implicits.
Arguments System : clear implicits.
End System.
Import System.

(** ** Trace *)
Module Trace.
Section Defs.
Context {F T : Type} `{Arith F}.

(** What the [%] operator needs from outside this file: the text of a
    number under the [g] conversion with the given flag and precision,
    before it is padded to the field width, and [str] of a number. *)
Variable format_g : bool -> option nat -> F -> string.
Variable str_float : F -> string.

(** An argument of the [%] operator. *)
Inductive arg : Type :=
| Int (i : Z)
| Str (s : string)
| Num (x : F).

Inductive conversion : Type := conv_s | conv_g.

(** A piece of a format string: literal text, or a conversion
    [%<flag><width>.<precision><type>]; [% 10.4g] is
    [Conv true 10 (Some 4) conv_g]. *)
Inductive directive : Type :=
| Lit (s : string)
| Conv (space : bool) (width : nat) (precision : option nat) (c : conversion).

Definition convert (space : bool) (width : nat) (precision : option nat)
    (c : conversion) (a : arg) : result string :=
  match c, a with
  | conv_s, Int i => Returns (rjust width (py_str_int i))
  | conv_s, Str s => Returns (rjust width s)
  | conv_s, Num x => Returns (rjust width (str_float x))
  | conv_g, Int i => Returns (rjust width (format_g space precision (of_int i)))
  | conv_g, Num x => Returns (rjust width (format_g space precision x))
  | conv_g, Str _ => Raises "TypeError"
  end.

(** [fmt % args]: each conversion takes the next argument; too few or
    too many arguments raise [TypeError]. *)
Fixpoint py_format (fmt : list directive) (args : list arg) : result string :=
  match fmt with
  | [] =>
      match args with
      | [] => Returns ""
      | _ :: _ => Raises "TypeError"
      end
  | Lit s :: fmt' =>
      rest <- py_format fmt' args ;;
      Returns (s ++ rest)%string
  | Conv space width precision c :: fmt' =>
      match args with
      | [] => Raises "TypeError"
      | a :: args' =>
          field <- convert space width precision c a ;;
          rest <- py_format fmt' args' ;;
          Returns (field ++ rest)%string
      end
  end.

(** A two-dimensional array of numbers: its rows, and the number of
    columns, which a [(0, k)] array has too. *)
Record ndarray : Type := {
  columns : nat;
  rows : list (list F)
}.

(** [coeff.sum(0)]: the sums of the columns, the rows added one after
    the other onto the first. *)
Definition sum0 (coeff : ndarray) : list F :=
  match rows coeff with
  | [] => repeat fzero (columns coeff)
  | row :: rest => fold_left (zip_with fadd) rest row
  end.

(** The lines a generator yielded, and the exception that ended it if
    one did. *)
Definition generated : Type := (list string * option string)%type.

(** [yield line], where computing [line] may raise, followed by [rest]. *)
Definition yield (line : result string) (rest : generated) : generated :=
  match line with
  | Returns s => (s :: fst rest, snd rest)
  | Raises e => ([], Some e)
  end.

Definition stop_iteration : generated := ([], None).

(** [self.length], set by [__init__] to [len(system)]. *)
Definition trace_length (system : System F T) : Z :=
  Z.of_nat (length (elements system)).

(** ["%2s %1s"] *)
Definition fmt_head : list directive :=
  [Conv false 2 None conv_s; Lit " "; Conv false 1 None conv_s].

(** The [for i, a in enumerate(coeff)] loop of [print_coeffs], from row
    [i] on. *)
Fixpoint print_rows (system : System F T) (fmt : list directive) (i : Z)
    (coeff : list (list F)) (rest : generated) : generated :=
  match coeff with
  | [] => rest
  | a :: coeff' =>
      yield (el <- py_getitem (elements system) i ;;
             py_format fmt ([Int i; Str (typ el)] ++ map Num a))
            (print_rows system fmt (i + 1) coeff' rest)
  end.

Definition print_coeffs (system : System F T) (coeff : ndarray)
    (labels : list string) (sum : bool) : generated :=
  yield (py_format (fmt_head ++ repeat (Conv true 10 None conv_s) (length labels))
                   ([Str "#"; Str "T"] ++ map Str labels))
    (let fmt := fmt_head ++ repeat (Conv true 10 (Some 4%nat) conv_g) (length labels) in
     print_rows system fmt 0 (rows coeff)
       (if sum
        then yield (py_format fmt ([Str " ∑"; Str ""] ++ map Num (sum0 coeff)))
                   stop_iteration
        else stop_iteration)).
End Defs.
End Trace.

(** ** ParaxialTrace *)
Module ParaxialTrace.
Section Defs.
Context {F T : Type} `{Arith F}.

(** [np.linalg.inv] on a 2x2 array; it raises [LinAlgError] on a
    singular one. *)
Variable linalg_inv : array22 F -> result (array22 F).

(** The arrays [allocate] creates. Each has one row per surface; a row
    of [y] and [u] holds the marginal ray first, the chief ray second.
    [order] is [self.c.shape[-1]]. *)
Record state : Type := {
  self_l : list F;
  self_y : list (F * F);
  self_u : list (F * F);
  self_z : list F;
  self_v : list F;
  self_n : list F;
  self_c : list T;
  self_d : list T;
  order : nat
}.

Definition with_yu (self : state) (y u : list (F * F)) : state :=
  {| self_l := self_l self; self_y := y; self_u := u; self_z := self_z self;
     self_v := self_v self; self_n := self_n self; self_c := self_c self;
     self_d := self_d self; order := order self |}.

Definition with_row (self : state) (y u : list (F * F)) (n z : list F)
    (c : list T) (v : list F) : state :=
  {| self_l := self_l self; self_y := y; self_u := u; self_z := z;
     self_v := v; self_n := n; self_c := c;
     self_d := self_d self; order := order self |}.

(** The local variables of [propagate] that live across iterations. *)
Record locals : Type := {
  yu0 : array22 F;
  n0 : option F;
  z : F
}.

(** The body of the loop of [propagate], for surface [i]. *)
Definition propagate_body (system : System F T) (i : Z)
    (s : state * locals) : result (state * locals) :=
  let (self, loc) := s in
  el <- py_getitem (elements system) i ;;
  let z1 := if 0 <? i then z loc +. thickness el else z loc in
  let (yu, n) := propagate_paraxial el (yu0 loc) (n0 loc) (self_l self) in
  y' <- py_setitem (self_y self) i (fst (transpose yu)) ;;
  u' <- py_setitem (self_u self) i (snd (transpose yu)) ;;
  n' <- py_setitem (self_n self) i n ;;
  z' <- py_setitem (self_z self) i z1 ;;
  c' <- py_setitem (self_c self) i
          (aberration el (column0 yu) (column1 (yu0 loc)) (n0 loc) n (order self)) ;;
  v' <- py_setitem (self_v self) i (dispersion el (self_l self)) ;;
  Returns (with_row self y' u' n' z' c' v',
           {| yu0 := yu; n0 := Some n; z := z1 |}).

(** The surfaces [propagate(start, stop)] visits, in order. *)
Definition visited (system : System F T) (start : Z) (stop : option Z) : list Z :=
  py_range start (py_or stop (Trace.trace_length system)).

Definition propagate (system : System F T) (self : state)
    (start : Z) (stop : option Z) : result state :=
  y0 <- py_getitem (self_y self) 0 ;;
  u0 <- py_getitem (self_u self) 0 ;;
  s <- for_each (propagate_body system) (visited system start stop)
         (self, {| yu0 := transpose (y0, u0); n0 := None; z := fzero |}) ;;
  Returns (fst s).

Definition find_rays (system : System F T) (self : state) : result state :=
  let l := wavelengths (object system) in
  let ai := aperture_index system in
  let m := paraxial_matrix system l (ai + 1) in
  mi <- linalg_inv m ;;
  el <- py_getitem (elements system) ai ;;
  let r := radius el in
  let c := object_radius (object system) in
  let swap := finite (object system) in
  (* y, u, m = u, y, mi[::-1] *)
  let y := if swap then self_u self else self_y self in
  let u := if swap then self_y self else self_u self in
  let m := if swap then reversed mi else m in
  y <- set2 y 0 0 (r *. at00 mi -. r *. at01 mi *. at10 mi /. at11 mi) ;;
  u <- set2 u 0 0 fzero ;;
  y <- set2 y 0 1 (c *. at01 mi /. at11 mi) ;;
  u <- set2 u 0 1 c ;;
  Returns (if swap then with_yu self u y else with_yu self y u).

Definition lagrange (self : state) : result F :=
  n_0 <- py_getitem (self_n self) 0 ;;
  u00 <- get2 (self_u self) 0 0 ;;
  y01 <- get2 (self_y self) 0 1 ;;
  u01 <- get2 (self_u self) 0 1 ;;
  y00 <- get2 (self_y self) 0 0 ;;
  Returns (n_0 *. (u00 *. y01 -. u01 *. y00)).

(** The quantity of [lagrange] taken at row [i] of the arrays. *)
Definition lagrange_at (self : state) (i : Z) : result F :=
  n_i <- py_getitem (self_n self) i ;;
  ui0 <- get2 (self_u self) i 0 ;;
  yi1 <- get2 (self_y self) i 1 ;;
  ui1 <- get2 (self_u self) i 1 ;;
  yi0 <- get2 (self_y self) i 0 ;;
  Returns (n_i *. (ui0 *. yi1 -. ui1 *. yi0)).

Definition magnification (self : state) : result (F * F) :=
  n_0 <- py_getitem (self_n self) 0 ;;
  u00 <- get2 (self_u self) 0 0 ;;
  n_2 <- py_getitem (self_n self) (-2) ;;
  u_20 <- get2 (self_u self) (-2) 0 ;;
  n_2' <- py_getitem (self_n self) (-2) ;;
  u_21 <- get2 (self_u self) (-2) 1 ;;
  n_1 <- py_getitem (self_n self) 1 ;;
  u01 <- get2 (self_u self) 0 1 ;;
  Returns ((n_0 *. u00) /. (n_2 *. u_20), (n_2' *. u_21) /. (n_1 *. u01)).
End Defs.
Arguments state : clear implicits.
End ParaxialTrace.

(** ** numpy on binary64 *)
Module np.
(** [np.pi] *)
Definition pi : float := 0x1.921fb54442d18p+1%float.

(** [float(z)] of a Python integer: [OverflowError] when [z] is beyond
    the range of binary64. *)
Definition py_float (z : Z) : result float :=
  let x := float_of_Z z in
  if is_infinity x then Raises "OverflowError" else Returns x.

(** The integer [m * 2^e] rounded toward zero, and rounded up. *)
Definition truncate (s : bool) (m : positive) (e : Z) : Z :=
  let v := if s then Z.neg m else Z.pos m in
  if 0 <=? e then v * 2 ^ e else Z.quot v (2 ^ (- e)).

Definition ceiling (s : bool) (m : positive) (e : Z) : Z :=
  let v := if s then Z.neg m else Z.pos m in
  if 0 <=? e then v * 2 ^ e else - ((- v) / 2 ^ (- e)).

(** [int(x)]: truncation, [ValueError] on a NaN and [OverflowError] on
    an infinity. *)
Definition py_int (x : float) : result Z :=
  match Prim2SF x with
  | S754_zero _ => Returns 0
  | S754_finite s m e => Returns (truncate s m e)
  | S754_infinity _ => Raises "OverflowError"
  | S754_nan => Raises "ValueError"
  end.

(** [np.around(x)]: the nearest integer, ties to even, as a float. Below
    [2^52] adding and subtracting [2^52] rounds to it; from [2^52] on
    every float is an integer. *)
Definition two52 : float := 0x1p+52%float.

Definition around (x : float) : float :=
  if PrimFloat.ltb (PrimFloat.abs x) two52 then
    if get_sign x
    then PrimFloat.opp (PrimFloat.sub (PrimFloat.add (PrimFloat.opp x) two52) two52)
    else PrimFloat.sub (PrimFloat.add x two52) two52
  else x.

(** [np.zeros((n,))] *)
Definition zeros (n : Z) : result (list float) :=
  if n <? 0 then Raises "ValueError"
  else Returns (repeat PrimFloat.zero (Z.to_nat n)).

(** The floats [0.0, 1.0, ..., n-1]. *)
Definition indices (n : Z) : list float :=
  map float_of_Z (py_range 0 n).

(** [np.linspace(start, stop, num)]: [num] points from [start] to [stop],
    the last one [stop] itself. *)
Definition linspace (start stop : float) (num : Z) : list float :=
  if num <=? 0 then []
  else if num =? 1 then [start]
  else
    let step := PrimFloat.div (PrimFloat.sub stop start) (float_of_Z (num - 1)) in
    map (fun k => PrimFloat.add (PrimFloat.mul k step) start) (indices (num - 1))
    ++ [stop].

(** [np.arange(start, stop, step)] with float arguments: its length is
    [ceil((stop - start)/step)]; its first two items are [start] and
    [start + step], the others [start + k*delta], where [delta] is the
    difference of the first two. *)
Definition arange (start stop step : float) : result (list float) :=
  match Prim2SF (PrimFloat.div (PrimFloat.sub stop start) step) with
  | S754_nan => Raises "ValueError"
  | S754_infinity _ => Raises "OverflowError"
  | S754_zero _ => Returns []
  | S754_finite s m e =>
      let next := PrimFloat.add start step in
      let delta := PrimFloat.sub next start in
      Returns (map (fun k : Z =>
                      if k =? 0 then start
                      else if k =? 1 then next
                      else PrimFloat.add start (PrimFloat.mul (float_of_Z k) delta))
                   (py_range 0 (ceiling s m e)))
  end.

(** One axis of [np.mgrid[start:stop:1j*r]]: [int(r)] points from
    [start] to [stop], both included. *)
Definition mgrid_axis (start stop : Z) (r : float) : result (list float) :=
  size <- py_int (PrimFloat.abs r) ;;
  let step :=
    if size =? 1 then 1%float
    else PrimFloat.div (float_of_Z (stop - start)) (float_of_Z (size - 1)) in
  Returns (map (fun k => PrimFloat.add (PrimFloat.mul k step) (float_of_Z start))
               (indices size)).

(** [x, y = np.mgrid[a, b]] followed by [x.ravel(), y.ravel()]: the
    points of the grid, the first coordinate varying slowest. *)
Definition ravel_grid (xs ys : list float) : list (float * float) :=
  flat_map (fun x => map (fun y => (x, y)) ys) xs.

(** [xy[:, (xy**2).sum(0) <= 1]]: the points inside the unit circle. *)
Definition in_unit_disk (p : float * float) : bool :=
  PrimFloat.leb (PrimFloat.add (PrimFloat.mul (fst p) (fst p))
                               (PrimFloat.mul (snd p) (snd p))) 1.

Definition clip (xy : list (float * float)) : list (float * float) :=
  filter (fun p => Is_true (in_unit_disk p)) xy.
End np.

(** ** FullTrace *)
Module FullTrace.
Section Defs.
Context {F T : Type} `{Arith F}.

(** The arrays [allocate] creates: one row per surface in [y], [u], [z],
    [n] and [t], one item per ray in a row of [y], [u], [n], [t] and in
    [l]. *)
Record state : Type := {
  nrays : Z;
  self_y : list (@rays F);
  self_u : list (@rays F);
  self_l : list F;
  self_z : list F;
  self_n : list (list F);
  self_t : list (list F)
}.

Definition with_row (self : state) (y u : list (@rays F)) (n t : list (list F))
    (z : list F) : state :=
  {| nrays := nrays self; self_y := y; self_u := u; self_l := self_l self;
     self_z := z; self_n := n; self_t := t |}.

(** The local variables of [propagate] that live across iterations. *)
Record locals : Type := {
  y : @rays F;
  u : @rays F;
  n : option (list F);
  z : F
}.

(** [enumerate(l)] *)
Definition enumerate {A : Type} (l : list A) : list (Z * A) :=
  zip (py_range 0 (Z.of_nat (length l))) l.

(** The body of the loop of [propagate], for surface [e] at index [i]. *)
Definition propagate_body (clip : bool) (l : list F) (ie : Z * Element F T)
    (s : state * locals) : result (state * locals) :=
  let (i, e) := ie in
  let (self, loc) := s in
  let '(y1, u1, n1, t1) := transformed_yu e (y loc) (u loc) (n loc) l clip in
  y' <- py_setitem (self_y self) i y1 ;;
  u' <- py_setitem (self_u self) i u1 ;;
  n' <- py_setitem (self_n self) i n1 ;;
  t' <- py_setitem (self_t self) i t1 ;;
  let z1 := z loc +. thickness e in
  z' <- py_setitem (self_z self) i z1 ;;
  Returns (with_row self y' u' n' t' z',
           {| y := y1; u := u1; n := Some n1; z := z1 |}).

Definition propagate (system : System F T) (self : state) (clip : bool)
    : result state :=
  y0 <- py_getitem (self_y self) 0 ;;
  u0 <- py_getitem (self_u self) 0 ;;
  s <- for_each (propagate_body clip (self_l self)) (enumerate (elements system))
         (self, {| y := y0; u := u0; n := None; z := fzero |}) ;;
  Returns (fst s).
End Defs.
Arguments state : clear implicits.

Section Sampling.
(** [np.sin] and [np.cos], and the two rows [np.random.rand(2, k)]
    draws. *)
Variables sin cos : float -> float.
Variable random_rand : Z -> list float * list float.

(** What [get_rays] returns: [None], or the abscissas and the ordinates
    of the points. *)
Inductive sample : Type :=
| None_
| Points (x y : list float).

Definition of_points (xy : list (float * float)) : sample :=
  Points (map fst xy) (map snd xy).

(** One ring of the hexapolar pattern: [[i*np.sin(a)/r, i*np.cos(a)/r]]. *)
Definition ring (r i : Z) (a : list float) : list (float * float) :=
  map (fun ak => (PrimFloat.div (PrimFloat.mul (float_of_Z i) (sin ak)) (float_of_Z r),
                  PrimFloat.div (PrimFloat.mul (float_of_Z i) (cos ak)) (float_of_Z r))) a.

(** The body of the loop of the hexapolar branch: ring [i] is appended
    to [l]. *)
Definition hexapolar_body (r : Z) (i : Z) (l : list (float * float))
    : result (list (float * float)) :=
  a <- np.arange 0 (PrimFloat.mul 2 np.pi)
         (PrimFloat.div (PrimFloat.mul 2 np.pi) (float_of_Z (6 * i))) ;;
  Returns (l ++ ring r i a).

Definition get_rays (distribution : string) (nrays : Z) : result sample :=
  let d := distribution in
  let n := nrays in
  if String.eqb d "random" then
    n4 <- np.py_float (n * 4) ;;
    k <- np.py_int (PrimFloat.div n4 np.pi) ;;
    if k <? 0 then Raises "ValueError"
    else
      let (xs, ys) := random_rand k in
      let scale := fun v => PrimFloat.sub (PrimFloat.mul 2 v) 1 in
      Returns (of_points (np.clip (zip (map scale xs) (map scale ys))))
  else if String.eqb d "meridional" then
    ys <- np.zeros n ;;
    Returns (Points (np.linspace (-1) 1 n) ys)
  else if String.eqb d "sagittal" then
    xs <- np.zeros n ;;
    Returns (Points xs (np.linspace (-1) 1 n))
  else if String.eqb d "square" then
    n4 <- np.py_float (n * 4) ;;
    let r := np.around (PrimFloat.sqrt (PrimFloat.div n4 np.pi)) in
    x <- np.mgrid_axis (-1) 1 r ;;
    y <- np.mgrid_axis (-1) 1 r ;;
    Returns (of_points (np.clip (np.ravel_grid x y)))
  else if String.eqb d "triangular" then
    n4 <- np.py_float (n * 4) ;;
    let r := np.around (PrimFloat.sqrt (PrimFloat.div n4 np.pi)) in
    x <- np.mgrid_axis (-1) 1 r ;;
    y <- np.mgrid_axis (-1) 1 r ;;
    Returns (of_points (np.clip (np.ravel_grid x y)))
  else if String.eqb d "hexapolar" then
    nf <- np.py_float n ;;
    r <- np.py_int (np.around
           (PrimFloat.sub
              (PrimFloat.sqrt (PrimFloat.sub (PrimFloat.div nf 3) (PrimFloat.div 1 12)))
              (PrimFloat.div 1 2))) ;;
    l <- for_each (hexapolar_body r) (py_range 1 (r + 1)) [(0%float, 0%float)] ;;
    Returns (of_points l)
  else if String.eqb d "cross" then
    y1 <- np.zeros (n / 2) ;;
    x2 <- np.zeros (n / 2) ;;
    Returns (Points (np.linspace (-1) 1 (n / 2) ++ x2)
                    (y1 ++ np.linspace (-1) 1 (n / 2)))
  else if String.eqb d "tee" then
    y1 <- np.zeros (2 * n / 3) ;;
    x2 <- np.zeros (n / 3) ;;
    Returns (Points (np.linspace (-1) 1 (2 * n / 3) ++ x2)
                    (y1 ++ np.linspace 0 1 (n / 3)))
  else Returns None_.
End Sampling.
End FullTrace.

(** ** The functions of the module, and more of numpy *)

(** The operations on numbers the rest of the module uses beyond the
    four of [Arith]: [-x], [abs(x)] and [np.fabs(x)], [np.sqrt(x)],
    [x**2], [x < y], and a float literal of the source as a number. *)
Class Elementary (F : Type) : Type := {
  fneg : F -> F;
  fabs : F -> F;
  fsqrt : F -> F;
  fsquare : F -> F;
  flt : F -> F -> bool;
  literal : float -> F
}.

(** binary64 in a numpy array: [a**2] multiplies each item by
    itself. *)
Definition array_elementary : Elementary float := {|
  fneg := PrimFloat.opp;
  fabs := PrimFloat.abs;
  fsqrt := PrimFloat.sqrt;
  fsquare := fun x => PrimFloat.mul x x;
  flt := PrimFloat.ltb;
  literal := fun x => x
|}.

(** binary64 in a numpy scalar, which an item read from an array is:
    [x**2] is the C library's [pow(x, 2)], whose last bit is the
    library's own; [pow2] stands for it. Out of range it gives an
    infinity and raises nothing. *)
Definition scalar_elementary (pow2 : float -> float) : Elementary float := {|
  fneg := PrimFloat.opp;
  fabs := PrimFloat.abs;
  fsqrt := PrimFloat.sqrt;
  fsquare := pow2;
  flt := PrimFloat.ltb;
  literal := fun x => x
|}.

(** [u**2] for a Python float [u]: Python answers for a NaN and for an
    infinity itself and asks the C library otherwise, and a result out
    of range is an [OverflowError]. *)
Definition py_square (pow2 : float -> float) (u : float) : result float :=
  if is_nan u || is_infinity u then Returns (PrimFloat.mul u u)
  else
    let s := pow2 u in
    if is_infinity s then Raises "OverflowError" else Returns s.

Section Functions.
Context {F : Type} `{Arith F} `{Elementary F}.

Definition tanarcsin (u : F) : F := u /. fsqrt (of_int 1 -. fsquare u).

Definition sinarctan (u : F) : F := u /. fsqrt (of_int 1 +. fsquare u).

(** [min(l)] and [max(l)]: the first item, unless a later one compares
    below it (above it); [ValueError] on an empty sequence. *)
Definition py_min (l : list F) : result F :=
  match l with
  | [] => Raises "ValueError"
  | x :: l' => Returns (fold_left (fun m y => if flt y m then y else m) l' x)
  end.

Definition py_max (l : list F) : result F :=
  match l with
  | [] => Raises "ValueError"
  | x :: l' => Returns (fold_left (fun m y => if flt m y then y else m) l' x)
  end.
End Functions.

(** [np.empty(n)]: [n] items, each whatever the memory held; [junk k] is
    what item [k] happens to be. *)
Definition np_empty {A : Type} (junk : nat -> A) (n : nat) : list A :=
  map junk (seq 0 n).

(** [a[:] = x] *)
Definition fill {A : Type} (a : list A) (x : A) : list A := map (fun _ => x) a.

(** Two arrays of one dimension taken item by item: [ValueError] when
    their lengths differ. *)
Definition zip_same {A B : Type} (a : list A) (b : list B) : result (list (A * B)) :=
  if (length a =? length b)%nat then Returns (zip a b) else Raises "ValueError".

(** An array of [k] items as the values for [n] places: itself when
    [k = n], its one item repeated when [k = 1], [ValueError] otherwise. *)
Definition broadcast {A : Type} (v : list A) (n : nat) : result (list A) :=
  if (length v =? n)%nat then Returns v
  else match v with
       | [x] => Returns (repeat x n)
       | _ => Raises "ValueError"
       end.

(** ** ParaxialTrace: construction, solves and derived properties *)
Module Paraxial.
Import ParaxialTrace.

Section Defs.
Context {F T : Type} `{Arith F} `{Elementary F}.
Variable linalg_inv : array22 F -> result (array22 F).

(** What the arrays of [allocate] hold before anything is written. *)
Record uninitialised : Type := {
  junk_y : nat -> F * F;
  junk_u : nat -> F * F;
  junk_z : nat -> F;
  junk_v : nat -> F;
  junk_n : nat -> F;
  junk_c : nat -> T;
  junk_d : nat -> T
}.

(** [allocate(k)]: a negative [k] is a negative dimension of [self.c]. *)
Definition allocate (mem : uninitialised) (system : System F T) (k : Z)
  : result (state F T) :=
  let l := wavelengths (object system) in
  let n := length (elements system) in
  l0 <- py_getitem l 0 ;;
  lmin <- py_min l ;;
  lmax <- py_max l ;;
  if k <? 0 then Raises "ValueError"
  else Returns {| self_l := [l0; lmin; lmax];
                  self_y := np_empty (junk_y mem) n;
                  self_u := np_empty (junk_u mem) n;
                  self_z := np_empty (junk_z mem) n;
                  self_v := np_empty (junk_v mem) n;
                  self_n := np_empty (junk_n mem) n;
                  self_c := np_empty (junk_c mem) n;
                  self_d := np_empty (junk_d mem) n;
                  order := Z.to_nat k |}.

(** [ParaxialTrace(system, aberration_orders)] *)
Definition init (mem : uninitialised) (system : System F T)
    (aberration_orders : Z) : result (state F T) :=
  self <- allocate mem system aberration_orders ;;
  find_rays linalg_inv system self.

(** [e.radius = r] *)
Definition set_radius (e : Element F T) (r : F) : Element F T :=
  {| typ := typ e; thickness := thickness e; radius := r;
     propagate_paraxial := propagate_paraxial e; aberration := aberration e;
     dispersion := dispersion e; transformed_yu := transformed_yu e |}.

Definition with_elements (system : System F T) (els : list (Element F T))
  : System F T :=
  {| elements := els; object := object system;
     aperture_index := aperture_index system;
     paraxial_matrix := paraxial_matrix system |}.

(** [size_elements()]: the surfaces after the first, each with its row
    of [y], as far as both go; the surfaces are those of the system after
    the call. [np.fabs(y).sum()] adds the second item to the first. *)
Definition size_elements (system : System F T) (self : state F T) : System F T :=
  let els := elements system in
  let ys := drop 1 (self_y self) in
  with_elements system
    (take 1 els
     ++ zip_with (fun e y => set_radius e (fabs (fst y) +. fabs (snd y)))
                 (drop 1 els) ys
     ++ drop (1 + length ys) els).

(** [self.system[i].curvature = c]; the curvature of a surface is not
    among what the traces read. *)
Variable set_curvature : System F T -> Z -> F -> result (System F T).

(** [self.n[(i-1, i), :]]: [self.n] has one dimension and the index has
    two items, which numpy refuses whatever the array holds. *)
Definition n_rows (n : list F) (i : Z) : result (F * F) :=
  Raises "IndexError".

Definition focal_length_solve (system : System F T) (self : state F T)
    (f : F) (i : option Z) : result (System F T) :=
  let i := match i with
           | None => Trace.trace_length system - 2
           | Some i => i
           end in
  y0 <- get2 (self_y self) (i - 1) 0 ;;
  y <- get2 (self_y self) i 0 ;;
  u0 <- get2 (self_u self) (i - 1) 0 ;;
  y00 <- get2 (self_y self) 0 0 ;;
  let u := fneg y00 /. f in
  n0n <- n_rows (self_n self) i ;;
  let (n0, n) := n0n : F * F in
  let c := (n0 *. u0 -. n *. u) /. (y *. (n -. n0)) in
  set_curvature system i c.

Definition track (self : state F T) : result F :=
  z_2 <- py_getitem (self_z self) (-2) ;;
  z1 <- py_getitem (self_z self) 1 ;;
  Returns (z_2 -. z1).

Definition focal_length (self : state F T) : result F :=
  L <- lagrange self ;;
  n_0 <- py_getitem (self_n self) 0 ;;
  u00 <- get2 (self_u self) 0 0 ;;
  u_21 <- get2 (self_u self) (-2) 1 ;;
  u01 <- get2 (self_u self) 0 1 ;;
  u_20 <- get2 (self_u self) (-2) 0 ;;
  Returns (fneg L /. n_0 /. (u00 *. u_21 -. u01 *. u_20)).

Definition height (self : state F T) : result (F * F) :=
  y01 <- get2 (self_y self) 0 1 ;;
  y_11 <- get2 (self_y self) (-1) 1 ;;
  Returns (y01, y_11).

Definition focal_distance (self : state F T) : result (F * F) :=
  y10 <- get2 (self_y self) 1 0 ;;
  u00 <- get2 (self_u self) 0 0 ;;
  y_20 <- get2 (self_y self) (-2) 0 ;;
  u_20 <- get2 (self_u self) (-2) 0 ;;
  Returns (fneg y10 /. u00, fneg y_20 /. u_20).

Definition numerical_aperture (self : state F T) : result (F * F) :=
  n_0 <- py_getitem (self_n self) 0 ;;
  u00 <- get2 (self_u self) 0 0 ;;
  n_2 <- py_getitem (self_n self) (-2) ;;
  u_20 <- get2 (self_u self) (-2) 0 ;;
  Returns (fabs (n_0 *. sinarctan u00), fabs (n_2 *. sinarctan u_20)).

Definition pupil_position (self : state F T) : result (F * F) :=
  y11 <- get2 (self_y self) 1 1 ;;
  u01 <- get2 (self_u self) 0 1 ;;
  y_21 <- get2 (self_y self) (-2) 1 ;;
  u_21 <- get2 (self_u self) (-2) 1 ;;
  Returns (fneg y11 /. u01, fneg y_21 /. u_21).

Definition pupil_height (self : state F T) : result (F * F) :=
  p <- pupil_position self ;;
  let (p0, p1) := p : F * F in
  y10 <- get2 (self_y self) 1 0 ;;
  u00 <- get2 (self_u self) 0 0 ;;
  y_20 <- get2 (self_y self) (-2) 0 ;;
  u_20 <- get2 (self_u self) (-2) 0 ;;
  Returns (y10 +. p0 *. u00, y_20 +. p1 *. u_20).

Definition f_number (self : state F T) : result (F * F) :=
  na <- numerical_aperture self ;;
  let (na0, na1) := na : F * F in
  Returns (of_int 1 /. (of_int 2 *. na0), of_int 1 /. (of_int 2 *. na1)).

(** The factor [1.22] of the radius of the Airy disk, as binary64 has it. *)
Definition airy : float := 0x1.3851eb851eb85p+0%float.

Definition airy_radius (self : state F T) : result (F * F) :=
  na <- numerical_aperture self ;;
  let (na0, na1) := na : F * F in
  l0 <- py_getitem (self_l self) 0 ;;
  l0' <- py_getitem (self_l self) 0 ;;
  Returns (literal airy *. l0 /. (of_int 2 *. na0),
           literal airy *. l0' /. (of_int 2 *. na1)).
End Defs.

Section Printing.
Context {F T : Type} `{Arith F} `{Elementary F}.
Variable format_g : bool -> option nat -> F -> string.
Variable str_float : F -> string.
Import Trace.

(** [%.5g] *)
Definition g5 : directive := Conv false 0 (Some 5%nat) conv_g.

(** ["<label>%.5g" % value] and ["<label>%.5g, %.5g" % value] *)
Definition one (label : string) (value : result F) : result string :=
  x <- value ;;
  py_format format_g str_float [Lit label; g5] [Num x].

Definition two (label : string) (value : result (F * F)) : result string :=
  p <- value ;;
  py_format format_g str_float [Lit label; g5; Lit ", "; g5]
    [Num (fst p); Num (snd p)].

Definition print_params (self : state F T) : generated :=
  yield (one "lagrange: " (lagrange self))
  (yield (one "track length: " (track self))
  (yield (one "focal length: " (focal_length self))
  (yield (two "object, image height: " (height self))
  (yield (two "front, back focal distance: " (focal_distance self))
  (yield (two "entry, exit pupil position: " (pupil_position self))
  (yield (two "entry, exit pupil height: " (pupil_height self))
  (yield (two "front, back numerical aperture: " (numerical_aperture self))
  (yield (two "front, back working f number: " (f_number self))
  (yield (two "front, back airy radius: " (airy_radius self))
  (yield (two "transverse, angular magnification: " (magnification self))
   stop_iteration)))))))))).

(** [np.c_[a, b, c, d]]: the four arrays as the columns of one;
    [ValueError] when their lengths differ. *)
Definition c_ (a b c d : list F) : result (list (list F)) :=
  ab <- zip_same a b ;;
  abc <- zip_same ab c ;;
  abcd <- zip_same abc d ;;
  Returns (map (fun r => [fst (fst (fst r)); snd (fst (fst r)); snd (fst r); snd r])
               abcd).

(** [print_trace()] builds the array when it is called and hands back
    the generator of [print_coeffs]. *)
Definition print_trace (system : System F T) (self : state F T)
  : result generated :=
  c <- c_ (map fst (self_y self)) (map fst (self_u self))
          (map snd (self_y self)) (map snd (self_u self)) ;;
  Returns (print_coeffs format_g str_float system
             {| columns := 4; rows := c |}
             ["marg y"; "marg u"; "chief y"; "chief u"] false).
End Printing.
End Paraxial.

(** ** FullTrace: construction and the rays a trace starts from *)
Module Full.
Import FullTrace.

Section Defs.
Context {F T : Type} `{Arith F} `{Elementary F}.

(** What the arrays of [allocate] hold before anything is written. *)
Record uninitialised : Type := {
  junk_y : nat -> nat -> F * F * F;
  junk_u : nat -> nat -> F * F * F;
  junk_l : nat -> F;
  junk_z : nat -> F;
  junk_n : nat -> nat -> F;
  junk_t : nat -> nat -> F
}.

(** [np.empty((n, m))] *)
Definition np_empty2 {A : Type} (junk : nat -> nat -> A) (n m : nat)
  : list (list A) :=
  map (fun i => np_empty (junk i) m) (seq 0 n).

(** [allocate(nrays)]: a negative [nrays] is a negative dimension. *)
Definition allocate (mem : uninitialised) (system : System F T) (nrays : Z)
  : result (state F) :=
  if nrays <? 0 then Raises "ValueError"
  else
    let len := length (elements system) in
    let k := Z.to_nat nrays in
    Returns {| FullTrace.nrays := nrays;
               self_y := np_empty2 (junk_y mem) len k;
               self_u := np_empty2 (junk_u mem) len k;
               self_l := np_empty (junk_l mem) k;
               self_z := np_empty (junk_z mem) len;
               self_n := np_empty2 (junk_n mem) len k;
               self_t := np_empty2 (junk_t mem) len k |}.

(** [FullTrace(system, nrays)] *)
Definition init (mem : uninitialised) (system : System F T) (nrays : Z)
  : result (state F) :=
  allocate mem system nrays.

(** [a[:, 0]], [a[:, 0] = v] and [a[:, 2] = v] for an (n, 3) array [a]. *)
Definition col0 (a : @rays F) : list F := map (fun r => fst (fst r)) a.

Definition set_col0 (a : @rays F) (v : list F) : result (@rays F) :=
  v' <- broadcast v (length a) ;;
  Returns (zip_with (fun x r => (x, snd (fst r), snd r)) v' a).

Definition set_col2 (a : @rays F) (v : list F) : result (@rays F) :=
  v' <- broadcast v (length a) ;;
  Returns (zip_with (fun x r => (fst r, x)) v' a).

Definition with_rays (self : state F) (y u : list (@rays F)) (l : list F)
    (n : list (list F)) : state F :=
  {| FullTrace.nrays := FullTrace.nrays self; self_y := y; self_u := u;
     self_l := l; self_z := self_z self; self_n := n; self_t := self_t self |}.

Definition rays_like_paraxial (system : System F T) (self : state F)
    (paraxial : ParaxialTrace.state F T) : result (state F) :=
  w0 <- py_getitem (wavelengths (object system)) 0 ;;
  let l := fill (self_l self) w0 in
  y0 <- py_getitem (self_y self) 0 ;;
  let y0 := fill y0 (of_int 0, of_int 0, of_int 0) in
  py <- py_getitem (ParaxialTrace.self_y paraxial) 0 ;;
  y0 <- set_col0 y0 [fst py; snd py] ;;
  u0 <- py_getitem (self_u self) 0 ;;
  let u0 := fill u0 (of_int 0, of_int 0, of_int 0) in
  pu <- py_getitem (ParaxialTrace.self_u paraxial) 0 ;;
  u0 <- set_col0 u0 [sinarctan (fst pu); sinarctan (snd pu)] ;;
  u0 <- set_col2 u0 (map (fun x => fsqrt (of_int 1 -. fsquare x)) (col0 u0)) ;;
  y' <- py_setitem (self_y self) 0 y0 ;;
  u' <- py_setitem (self_u self) 0 u0 ;;
  Returns (with_rays self y' u' l (self_n self)).

(** [FullTrace.like_paraxial(paraxial)], [system] being
    [paraxial.system]. *)
Definition like_paraxial (mem : uninitialised) (system : System F T)
    (paraxial : ParaxialTrace.state F T) : result (state F) :=
  obj <- init mem system 2 ;;
  rays_like_paraxial system obj paraxial.
End Defs.

Section Rays.
Context {T : Type}.
(** [np.sin], [np.cos] and [np.random.rand] for [get_rays]. *)
Variables sin cos : float -> float.
Variable random_rand : Z -> list float * list float.
(** [system.object.material.refractive_index(wavelength)] *)
Variable refractive_index : float -> float.
(** [system.object.infinity], [None] for an object that has no such
    attribute: the class of the object is outside this file, which
    reads [finite] everywhere else. *)
Variable infinity : Object float -> option bool.
(** The C library's [pow(x, 2)]. *)
Variable pow2 : float -> float.
(** Whether [object.radius] is a Python float rather than a numpy
    scalar, which the class of the object decides. *)
Variable python_radius : Object float -> bool.

(** [xp, yp = value]: [None] cannot be unpacked. *)
Definition unpack (s : sample) : result (list float * list float) :=
  match s with
  | None_ => Raises "TypeError"
  | Points x y => Returns (x, y)
  end.

(** [tanarcsin] and [sinarctan] of a numpy scalar, and of an array. *)
Definition scalar_tanarcsin : float -> float :=
  @tanarcsin float float_arith (scalar_elementary pow2).

Definition scalar_sinarctan : float -> float :=
  @sinarctan float float_arith (scalar_elementary pow2).

Definition array_tanarcsin (a : list float) : list float :=
  map (@tanarcsin float float_arith array_elementary) a.

Definition array_sinarctan (a : list float) : list float :=
  map (@sinarctan float float_arith array_elementary) a.

(** [sinarctan(r)] for [r = object.radius]: [r**2] raises when [r] is a
    Python float and the square is out of range. *)
Definition sinarctan_radius (o : Object float) : result float :=
  let r := object_radius o in
  if python_radius o then
    s <- py_square pow2 r ;;
    Returns (r /. PrimFloat.sqrt (of_int 1 +. s))
  else Returns (scalar_sinarctan r).

(** [paraxial.pupil_position[0], paraxial.pupil_height[0]] *)
Definition pupil (paraxial : ParaxialTrace.state float T) : result (float * float) :=
  pp <- @Paraxial.pupil_position float T float_arith (scalar_elementary pow2) paraxial ;;
  ph <- @Paraxial.pupil_height float T float_arith (scalar_elementary pow2) paraxial ;;
  Returns (fst pp, fst ph).

Definition rays_for_point (mem : uninitialised) (system : System float T)
    (paraxial : ParaxialTrace.state float T) (height : float * float)
    (wavelength : float) (nrays : Z) (distribution : string)
  : result (state float) :=
  s <- get_rays sin cos random_rand distribution nrays ;;
  xy <- unpack s ;;
  let (xp, yp) := xy : list float * list float in
  hr <- pupil paraxial ;;
  let (hp, rp) := hr : float * float in
  let r := object_radius (object system) in
  let k := length xp in
  (* the rows [np.array((a, b, np.zeros_like(a))).T] and
     [np.array((p, q, np.sqrt(1 - p**2 - q**2))).T], as [self.y[0]] and
     [self.u[0]] take them *)
  rows <-
    (if negb (finite (object system)) then
       r <- sinarctan_radius (object system) ;;
       let p := fst height *. r in
       let q := snd height *. r in
       let a := map (fun x => x *. rp -. hp *. scalar_tanarcsin p) xp in
       let b := map (fun y => y *. rp -. hp *. scalar_tanarcsin q) yp in
       Returns
         (ab <- zip_same a b ;;
          Returns (map (fun ab => (fst ab, snd ab, of_int 0)) ab),
          Returns (repeat (p, q, PrimFloat.sqrt (of_int 1 -. pow2 p -. pow2 q)) k))
     else
       let a := fst height *. r in
       let b := snd height *. r in
       let p := array_sinarctan (map (fun x => (x *. rp -. a) /. hp) xp) in
       let q := array_sinarctan (map (fun y => (y *. rp -. b) /. hp) yp) in
       Returns
         (Returns (repeat (a, b, of_int 0) k),
          pq <- zip_same p q ;;
          Returns (map (fun pq =>
                          (fst pq, snd pq,
                           PrimFloat.sqrt (of_int 1 -. fst pq *. fst pq
                                           -. snd pq *. snd pq)))
                       pq))) ;;
  let (rows_y, rows_u) := rows : result (@rays float) * result (@rays float) in
  self <- allocate mem system (Z.of_nat k) ;;
  let l := fill (self_l self) wavelength in
  n0 <- py_getitem (self_n self) 0 ;;
  n' <- py_setitem (self_n self) 0 (fill n0 (refractive_index wavelength)) ;;
  y0 <- rows_y ;;
  y' <- py_setitem (self_y self) 0 y0 ;;
  u0 <- rows_u ;;
  u' <- py_setitem (self_u self) 0 u0 ;;
  Returns (with_rays self y' u' l n').

(** [a[lo:hi] = x], for bounds that are not negative. *)
Definition set_slice (a : list float) (lo hi : Z) (x : float) : list float :=
  imap (fun i y => if (lo <=? Z.of_nat i) && (Z.of_nat i <? hi) then x else y) a.

(** [self.allocate()]: the call leaves out [nrays], which [allocate]
    has no default for. *)
Definition allocate_no_argument : result (state float) := Raises "TypeError".

(** [a[i, 0] = v] for an array [a] of three dimensions: [v] goes into
    the three components of ray 0 at surface [i]. *)
Definition set_ray0 (a : list (@rays float)) (i : Z) (v : list float)
  : result (list (@rays float)) :=
  row <- py_getitem a i ;;
  _ <- py_getitem row 0 ;;
  v' <- broadcast v 3 ;;
  match v' with
  | [x; y; z] => row' <- py_setitem row 0 (x, y, z) ;; py_setitem a i row'
  | _ => Raises "ValueError"
  end.

(** [self.system.object.infinity] *)
Definition get_infinity (o : Object float) : result bool :=
  match infinity o with
  | Some b => Returns b
  | None => Raises "AttributeError"
  end.

Definition rays_for_object (system : System float T) (self : state float)
    (paraxial : ParaxialTrace.state float T) (wavelength : float) (nrays : Z)
    (eps : float) : result (state float) :=
  hr <- pupil paraxial ;;
  let (hp, rp) := hr : float * float in
  let r := object_radius (object system) in
  at_infinity <- get_infinity (object system) ;;
  r <- (if at_infinity : bool then sinarctan_radius (object system) else Returns r) ;;
  let xs := np.linspace 0 r nrays in
  zs <- np.zeros nrays ;;
  (* np.tile([...], 3) *)
  let xi := xs ++ xs ++ xs in
  let yi := zs ++ zs ++ zs in
  let xp := fill xi (of_int 0) in
  let yp := fill yi (of_int 0) in
  let xp := set_slice xp nrays (2 * nrays) (eps *. rp) in
  let yp := set_slice yp (2 * nrays) (Z.of_nat (length yp)) (eps *. rp) in
  at_infinity <- get_infinity (object system) ;;
  let '(a, b, p, q) :=
    if at_infinity : bool then
      (map (fun xt => fst xt -. hp *. snd xt) (zip xp (array_tanarcsin xi)),
       map (fun yt => fst yt -. hp *. snd yt) (zip yp (array_tanarcsin yi)),
       xi, yi)
    else
      (xi, yi,
       array_sinarctan (map (fun xx => (fst xx -. snd xx) /. hp) (zip xp xi)),
       array_sinarctan (map (fun yy => (fst yy -. snd yy) /. hp) (zip yp yi))) in
  (* self.nrays = nrays*3, then self.allocate() *)
  self <- allocate_no_argument ;;
  let l := fill (self_l self) wavelength in
  n0 <- py_getitem (self_n self) 0 ;;
  n' <- py_setitem (self_n self) 0 (fill n0 (refractive_index wavelength)) ;;
  y' <- set_ray0 (self_y self) 0 a ;;
  y' <- set_ray0 y' 1 b ;;
  y' <- set_ray0 y' 2 [of_int 0] ;;
  u' <- set_ray0 (self_u self) 0 p ;;
  u' <- set_ray0 u' 1 q ;;
  u' <- set_ray0 u' 2
          (map (fun pq => PrimFloat.sqrt (of_int 1 -. fst pq *. fst pq
                                          -. snd pq *. snd pq))
               (zip p q)) ;;
  Returns (with_rays self y' u' l n').
End Rays.

Section Printing.
Context {F T : Type} `{Arith F} `{Elementary F}.
Variable format_g : bool -> option nat -> F -> string.
Variable str_float : F -> string.
Import Trace.

(** [for line in g: yield line], followed by [rest]: an exception that
    ends [g] ends the generator around it. *)
Definition yield_from (g rest : generated) : generated :=
  match snd g with
  | None => (fst g ++ fst rest, snd rest)
  | Some e => (fst g, Some e)
  end.

(** A statement between two [yield]s, which may raise. *)
Definition then_ {A : Type} (r : result A) (k : A -> generated) : generated :=
  match r with
  | Returns a => k a
  | Raises e => ([], Some e)
  end.

(** [a[:, i]] for an array [a] of two dimensions or more: item [i] of
    every row. *)
Fixpoint column {A : Type} (a : list (list A)) (i : Z) : result (list A) :=
  match a with
  | [] => Returns []
  | row :: a' =>
      x <- py_getitem row i ;;
      xs <- column a' i ;;
      Returns (x :: xs)
  end.

(** [np.cumsum(a, axis=0)] for a column [a]: each item added to the sum
    before it. *)
Fixpoint cumsum_from (acc : F) (a : list F) : list F :=
  match a with
  | [] => []
  | x :: a' => let s := acc +. x in s :: cumsum_from s a'
  end.

Definition cumsum (a : list F) : list F :=
  match a with
  | [] => []
  | x :: a' => x :: cumsum_from x a'
  end.

(** The array [c] of ray [i]: a row per surface with the index, the
    position, the path length so far, the three components of the
    position of the ray and the three of its direction; [ValueError]
    from [np.concatenate] when the columns differ in length. *)
Definition ray_table (self : state F) (i : Z) : result (list (list F)) :=
  n <- column (self_n self) i ;;
  t <- column (self_t self) i ;;
  y <- column (self_y self) i ;;
  u <- column (self_u self) i ;;
  nz <- zip_same n (self_z self) ;;
  nzt <- zip_same nz (cumsum t) ;;
  nzty <- zip_same nzt y ;;
  nztyu <- zip_same nzty u ;;
  Returns (map (fun r =>
                  let '(n, z, t, y, u) := r in
                  [n; z; t; fst (fst y); snd (fst y); snd y;
                   fst (fst u); snd (fst u); snd u])
               nztyu).

(** [1e-9], as binary64 has it. *)
Definition nano : float := 0x1.12e0be826d695p-30%float.

(** ["ray %i, %.3g nm"]; [%i] prints an index of [range] as [%s] does. *)
Definition ray_header : list directive :=
  [Lit "ray "; Conv false 0 None conv_s; Lit ", ";
   Conv false 0 (Some 3%nat) conv_g; Lit " nm"].

Definition ray_labels : list string :=
  ["n"; "track z"; "path len"; "height x"; "height y"; "height z";
   "angle x"; "angle y"; "angle z"].

(** One turn of the loop of [print_trace], for ray [i], followed by
    [rest]. *)
Definition print_ray (system : System F T) (self : state F) (i : Z)
    (rest : generated) : generated :=
  yield (li <- py_getitem (self_l self) i ;;
         py_format format_g str_float ray_header [Int i; Num (li /. literal nano)])
    (then_ (ray_table self i) (fun c =>
       yield_from (print_coeffs format_g str_float system
                     {| columns := 9; rows := c |} ray_labels false)
         (yield (Returns "") rest))).

Definition print_trace (system : System F T) (self : state F) : generated :=
  fold_right (print_ray system self) stop_iteration
    (py_range 0 (FullTrace.nrays self)).
End Printing.
End Full.

(** * The vocabulary of the properties *)

(** ** ParaxialTrace *)
Section ParaxialVocabulary.
Context {F T : Type} `{Arith F}.
Import ParaxialTrace.

(** The two values [find_rays] solves for, from the inverse [mi] of the
    paraxial matrix, the radius [r] of the stop and the radius [c] of
    the object: the marginal one first, the chief one second. *)
Definition solved (mi : array22 F) (r c : F) : F * F :=
  (r *. at00 mi -. r *. at01 mi *. at10 mi /. at11 mi,
   c *. at01 mi /. at11 mi).

(** The two values [find_rays] sets without solving. *)
Definition given (c : F) : F * F := (fzero, c).

(** Every array [propagate] writes has [len] rows. *)
Definition sized (len : nat) (self : state F T) : Prop :=
  length (self_y self) = len /\ length (self_u self) = len /\
  length (self_n self) = len /\ length (self_z self) = len /\
  length (self_c self) = len /\ length (self_v self) = len.

(** What one iteration leaves in the local variables and in row [k]. *)
Definition next_locals (el : Element F T) (k : nat) (self : state F T)
    (loc : locals) : locals :=
  let yun := propagate_paraxial el (yu0 loc) (n0 loc) (self_l self) in
  {| yu0 := fst yun; n0 := Some (snd yun);
     z := if 0 <? Z.of_nat k then z loc +. thickness el else z loc |}.

Definition next_state (el : Element F T) (k : nat) (self : state F T)
    (loc : locals) : state F T :=
  let loc' := next_locals el k self loc in
  let yu := yu0 loc' in
  let n := snd (propagate_paraxial el (yu0 loc) (n0 loc) (self_l self)) in
  with_row self
    (<[k := fst (transpose yu)]> (self_y self))
    (<[k := snd (transpose yu)]> (self_u self))
    (<[k := n]> (self_n self))
    (<[k := z loc']> (self_z self))
    (<[k := aberration el (column0 yu) (column1 (yu0 loc)) (n0 loc) n (order self)]>
       (self_c self))
    (<[k := dispersion el (self_l self)]> (self_v self)).

(** [n*(u_m*y_c - u_c*y_m)] for the index [n] and the rays [yu], whose
    row 0 is the marginal ray, row 1 the chief ray, each as (y, u). *)
Definition lagrange_of (n : F) (yu : array22 F) : F :=
  n *. (at01 yu *. at10 yu -. at11 yu *. at00 yu).

(** A surface without discontinuity: its paraxial propagation hands on
    the invariant of the rays it receives. *)
Definition conserves (el : Element F T) : Prop :=
  forall (yu0 : array22 F) (n0 : F) (l : list F),
    lagrange_of (snd (propagate_paraxial el yu0 (Some n0) l))
                (fst (propagate_paraxial el yu0 (Some n0) l))
    = lagrange_of n0 yu0.

(** Row [i] of the arrays holds rays and an index of invariant [L]. *)
Definition row_lagrange (self : state F T) (i : nat) (L : F) : Prop :=
  exists (n : F) (yu : array22 F),
    self_n self !! i = Some n /\
    self_y self !! i = Some (fst (transpose yu)) /\
    self_u self !! i = Some (snd (transpose yu)) /\
    lagrange_of n yu = L.

(** What the loop keeps true once surface 0 has set the invariant [L]:
    the locals carry rays of invariant [L], and so does every row
    written so far. Before surface 0 the locals are the initial ones. *)
Definition carried (init : locals) (l : list F) (L : F)
    (k : nat) (self : state F T) (loc : locals) : Prop :=
  self_l self = l /\
  match k with
  | O => loc = init
  | S _ =>
      (exists n, n0 loc = Some n /\ lagrange_of n (yu0 loc) = L) /\
      forall i, (i < k)%nat -> row_lagrange self i L
  end.
End ParaxialVocabulary.

(** ** FullTrace *)
Section FullVocabulary.
Context {F T : Type} `{Arith F}.
Import FullTrace.

(** Every array [propagate] writes has [len] rows. *)
Definition full_sized (len : nat) (self : state F) : Prop :=
  length (self_y self) = len /\ length (self_u self) = len /\
  length (self_n self) = len /\ length (self_t self) = len /\
  length (self_z self) = len.

(** What one iteration leaves in the local variables and in row [k]. *)
Definition full_next_locals (clip : bool) (l : list F) (e : Element F T)
    (loc : locals) : locals :=
  let r := transformed_yu e (y loc) (u loc) (n loc) l clip in
  {| y := fst (fst (fst r)); u := snd (fst (fst r)); n := Some (snd (fst r));
     z := z loc +. thickness e |}.

Definition full_next_state (clip : bool) (l : list F) (e : Element F T) (k : nat)
    (self : state F) (loc : locals) : state F :=
  let r := transformed_yu e (y loc) (u loc) (n loc) l clip in
  with_row self
    (<[k := fst (fst (fst r))]> (self_y self))
    (<[k := snd (fst (fst r))]> (self_u self))
    (<[k := snd (fst r)]> (self_n self))
    (<[k := snd r]> (self_t self))
    (<[k := z loc +. thickness e]> (self_z self)).
End FullVocabulary.

(** ** The axial positions *)
Section TrackVocabulary.
Context {F T : Type} `{Arith F}.

(** The thicknesses of [els] added up from 0, first to last. *)
Definition track (els : list (Element F T)) : F :=
  fold_left fadd (map thickness els) fzero.

(** [FullTrace.propagate]: [z] is the sum over the surfaces met so far. *)
Definition full_track (els : list (Element F T)) (k : nat)
    (self : FullTrace.state F) (loc : FullTrace.locals) : Prop :=
  FullTrace.z loc = track (take k els) /\
  forall i, (i < k)%nat -> FullTrace.self_z self !! i = Some (track (take (S i) els)).

(** [ParaxialTrace.propagate]: [z] is the sum over the surfaces met so
    far but the first. *)
Definition paraxial_track (els : list (Element F T)) (k : nat)
    (self : ParaxialTrace.state F T) (loc : ParaxialTrace.locals) : Prop :=
  ParaxialTrace.z loc = track (drop 1 (take k els)) /\
  forall i, (i < k)%nat ->
    ParaxialTrace.self_z self !! i = Some (track (drop 1 (take (S i) els))).
End TrackVocabulary.

(** ** The lines of a table *)
Section TableVocabulary.
Context {F T : Type} `{Arith F}.
Variable format_g : bool -> option nat -> F -> string.

(** Strings one after the other. *)
Definition join (l : list string) : string := fold_right String.append "" l.

(** A number under [% 10.4g]: four significant digits, in a field of 10. *)
Definition field_g (x : F) : string := rjust 10 (format_g true (Some 4%nat) x).

(** A label under [% 10s]. *)
Definition field_s (s : string) : string := rjust 10 s.

(** A line of the table: the two leading fields of ["%2s %1s"], then the
    fields of the columns. *)
Definition line (a b : string) (fields : list string) : string :=
  (rjust 2 a ++ " " ++ rjust 1 b ++ join fields)%string.

(** The lines of the rows [a], [a'], ... of the array, for the surfaces
    [i], [i+1], ... *)
Fixpoint data_lines (els : list (Element F T)) (i : nat) (coeff : list (list F))
  : list string :=
  match coeff with
  | [] => []
  | a :: coeff' =>
      line (py_str_int (Z.of_nat i))
           (match els !! i with Some el => typ el | None => "" end)
           (map field_g a)
      :: data_lines els (S i) coeff'
  end.
End TableVocabulary.

(** ** binary64 and the pupil sampler *)

(** Neither a NaN nor an infinity. *)
Definition SF_finite (f : spec_float) : bool :=
  match f with
  | S754_nan | S754_infinity _ => false
  | S754_zero _ | S754_finite _ _ _ => true
  end.

(** The names [get_rays] tests for. *)
Definition distributions : list string :=
  ["random"; "meridional"; "sagittal"; "square"; "triangular"; "hexapolar";
   "cross"; "tee"].

(** The length of [np.arange(start, stop, step)]. *)
Definition arange_length (start stop step : float) : result nat :=
  match Prim2SF (PrimFloat.div (PrimFloat.sub stop start) step) with
  | S754_nan => Raises "ValueError"
  | S754_infinity _ => Raises "OverflowError"
  | S754_zero _ => Returns 0%nat
  | S754_finite s m e => Returns (Z.to_nat (np.ceiling s m e))
  end.

(** The number of points of ring [i]. *)
Definition ring_points (i : Z) : result nat :=
  arange_length 0 (PrimFloat.mul 2 np.pi)
    (PrimFloat.div (PrimFloat.mul 2 np.pi) (float_of_Z (6 * i))).

(** The loop of the hexapolar branch, counting the points only. *)
Definition count_body (i : Z) (k : Z) : result Z :=
  m <- ring_points i ;; Returns (k + Z.of_nat m).

(** The number of rings: [int(np.around(np.sqrt(n/3. - 1/12.) - 1/2.))]. *)
Definition ring_count (n : Z) : result Z :=
  nf <- np.py_float n ;;
  np.py_int (np.around
    (PrimFloat.sub
       (PrimFloat.sqrt (PrimFloat.sub (PrimFloat.div nf 3) (PrimFloat.div 1 12)))
       (PrimFloat.div 1 2))).

(** * Sample systems *)
Section Samples.
Context {F : Type} `{Arith F}.

(** A refracting surface for the examples: the rays cross its thickness
    [t], then refract from the index before it into its index [n] at
    curvature [cv], as [n0*u0 - n*u = y*cv*(n - n0)] has it. The object,
    which has no index before it, refracts nothing. *)
Definition refract (t cv n : F) (n0 : option F) (yu0 : F * F) : F * F :=
  let y := fst yu0 +. t *. snd yu0 in
  let n0 := match n0 with Some n0 => n0 | None => n end in
  (y, (n0 *. snd yu0 -. cv *. y *. (n -. n0)) /. n).

Definition surface (ty : string) (t cv n r : F) : Element F unit := {|
  typ := ty;
  thickness := t;
  radius := r;
  propagate_paraxial := fun yu0 n0 _ =>
    ((refract t cv n n0 (fst yu0), refract t cv n n0 (snd yu0)), n);
  aberration := fun _ _ _ _ _ => tt;
  dispersion := fun _ => fzero;
  transformed_yu := fun y u _ _ _ => (y, u, [], [])
|}.

(** The inverse of a 2x2 matrix by its adjugate, for the examples;
    [LinAlgError] when the determinant is zero. *)
Definition inv22 (is_zero : F -> bool) (m : array22 F) : result (array22 F) :=
  let det := at00 m *. at11 m -. at01 m *. at10 m in
  if is_zero det then Raises "LinAlgError"
  else Returns ((at11 m /. det, (fzero -. at01 m) /. det),
                ((fzero -. at10 m) /. det, at00 m /. det)).

(** The arrays [allocate] leaves for a system of [len] surfaces and
    order [k], every cell holding [x] and every tensor [tt]. *)
Definition allocated (len k : nat) (x : F) : ParaxialTrace.state F unit := {|
  ParaxialTrace.self_l := [x; x; x];
  ParaxialTrace.self_y := repeat (x, x) len;
  ParaxialTrace.self_u := repeat (x, x) len;
  ParaxialTrace.self_z := repeat x len;
  ParaxialTrace.self_v := repeat x len;
  ParaxialTrace.self_n := repeat x len;
  ParaxialTrace.self_c := repeat tt len;
  ParaxialTrace.self_d := repeat tt len;
  ParaxialTrace.order := k
|}.
End Samples.

(** An object, a stop at distance 1 and an image in air, in binary64; the
    matrix from the object to behind the stop is [[1, 1], [0, 1]], its
    inverse [[1, -1], [0, 1]]; the radius of the stop is 2, that of the
    object 3. *)
Definition sample_system (fin : bool) : System float unit := {|
  elements := [surface "O" 0%float 0%float 1%float 3%float;
               surface "A" 1%float 0%float 1%float 2%float;
               surface "I" 1%float 0%float 1%float 5%float];
  object := {| wavelengths := [0.5%float]; object_radius := 3%float; finite := fin |};
  aperture_index := 1;
  paraxial_matrix := fun _ _ => ((1%float, 1%float), (0%float, 1%float))
|}.

(** An object and a stop in binary64 with the matrix [[0, 1], [-1, 1]]
    of a stop in the focal plane of a lens; its inverse [[1, -1], [1, 0]]
    has a zero at [1, 1]. *)
Definition degenerate_system : System float unit := {|
  elements := [surface "O" 0%float 0%float 1%float 1%float;
               surface "A" 1%float 0%float 1%float 1%float];
  object := {| wavelengths := [0.5%float]; object_radius := 1%float; finite := false |};
  aperture_index := 1;
  paraxial_matrix := fun _ _ => ((0%float, 1%float), ((-1)%float, 1%float))
|}.

(** The arrays of a trace through an object in air, the two faces of a
    lens of index 1.5 and an image. *)
Definition sample_trace : ParaxialTrace.state float unit := {|
  ParaxialTrace.self_l := [0.5; 0.25; 0.75]%float;
  ParaxialTrace.self_y := [(0, 4); (2, 0); (2, 0.5); (0, -4)]%float;
  ParaxialTrace.self_u := [(0.5, -1); (0.25, -0.5); (-0.5, -1.5); (-0.5, -1.5)]%float;
  ParaxialTrace.self_z := [0; 4; 5; 9]%float;
  ParaxialTrace.self_v := [0; 0; 0; 0]%float;
  ParaxialTrace.self_n := [1; 1.5; 1; 1]%float;
  ParaxialTrace.self_c := [tt; tt; tt; tt];
  ParaxialTrace.self_d := [tt; tt; tt; tt];
  ParaxialTrace.order := 4
|}.

(** The rational [a/b]. *)
Definition q (a : Z) (b : positive) : Qc := Q2Qc (a # b).

(** An object in air, of thickness 2, the two faces of a lens of index
    3/2 and an image. *)
Definition rational_system : System Qc unit := {|
  elements := [surface "O" (q 2 1) (q 0 1) (q 1 1) (q 3 1);
               surface "S" (q 4 1) (q 1 10) (q 3 2) (q 2 1);
               surface "S" (q 1 1) (q (-1) 10) (q 1 1) (q 2 1);
               surface "I" (q 9 1) (q 0 1) (q 1 1) (q 5 1)];
  object := {| wavelengths := [q 1 2]; object_radius := q 3 1; finite := true |};
  aperture_index := 1;
  paraxial_matrix := fun _ _ => ((q 1 1, q 4 1), (q (-1) 30, q 8 15))
|}.

(** Its arrays, with the rays of row 0 set: the marginal ray leaves the
    axis at slope 1/2, the chief ray leaves the height 3 at slope -3/4. *)
Definition rational_start : ParaxialTrace.state Qc unit := {|
  ParaxialTrace.self_l := [q 1 2; q 1 2; q 1 2];
  ParaxialTrace.self_y := (q 0 1, q 3 1) :: repeat (q 0 1, q 0 1) 3;
  ParaxialTrace.self_u := (q 1 2, q (-3) 4) :: repeat (q 0 1, q 0 1) 3;
  ParaxialTrace.self_z := repeat (q 0 1) 4;
  ParaxialTrace.self_v := repeat (q 0 1) 4;
  ParaxialTrace.self_n := repeat (q 0 1) 4;
  ParaxialTrace.self_c := repeat tt 4;
  ParaxialTrace.self_d := repeat tt 4;
  ParaxialTrace.order := 4
|}.

(** The arrays of a full trace of two rays through [rational_system]. *)
Definition rational_rays : FullTrace.state Qc := {|
  FullTrace.nrays := 2;
  FullTrace.self_y := repeat [(q 0 1, q 0 1, q 0 1); (q 0 1, q 3 1, q 0 1)] 4;
  FullTrace.self_u := repeat [(q 0 1, q 0 1, q 1 1); (q 0 1, q 0 1, q 1 1)] 4;
  FullTrace.self_l := [q 1 2; q 1 2];
  FullTrace.self_z := repeat (q 0 1) 4;
  FullTrace.self_n := repeat [q 1 1; q 1 1] 4;
  FullTrace.self_t := repeat [q 0 1; q 0 1] 4
|}.

(** The text of a whole number below 10000 under the [g] conversion, which
    prints such a number without a point or an exponent; the space flag
    puts a space before a number that has no sign. *)
Definition format_whole (space : bool) (precision : option nat) (x : float) : string :=
  match np.py_int x with
  | Returns i =>
      let sign := if space && (0 <=? i) then " " else "" in
      (sign ++ py_str_int i)%string
  | Raises _ => "nan"
  end.

(** Five surfaces, and an array of five rows of three whole numbers. *)
Definition five_surfaces : System float unit := {|
  elements := [surface "O" 0%float 0%float 1%float 3%float;
               surface "S" 4%float 0.125%float 1.5%float 2%float;
               surface "A" 1%float 0%float 1.5%float 1%float;
               surface "S" 1%float (-0.125)%float 1%float 2%float;
               surface "I" 9%float 0%float 1%float 5%float];
  object := {| wavelengths := [0.5%float]; object_radius := 3%float; finite := true |};
  aperture_index := 2;
  paraxial_matrix := fun _ _ => ((1%float, 5%float), (0%float, 1%float))
|}.

Definition sample_coeffs : Trace.ndarray := {|
  Trace.columns := 3;
  Trace.rows := [[0; 0; 0]; [12; -3; 4]; [0; 0; 0]; [-10; 5; 1]; [0; 0; 0]]%float
|}.

(** Polynomials in place of [np.sin] and [np.cos] and fixed draws in place
    of [np.random.rand], to evaluate [get_rays] on examples whose outcome
    does not depend on them. *)
Definition poly_sin (x : float) : float := (x - x * x * x / 6)%float.
Definition poly_cos (x : float) : float := (1 - x * x / 2)%float.
Definition fixed_draws (k : Z) : list float * list float :=
  (repeat 0.5%float (Z.to_nat k), repeat 0.25%float (Z.to_nat k)).

(** ** A part of the surfaces *)
Section RangeVocabulary.
Context {F T : Type} `{Arith F}.
Import ParaxialTrace.

(** Row [i] of every array [propagate] writes is in [self'] what it is
    in [self]. *)
Definition same_row (self self' : state F T) (i : nat) : Prop :=
  self_y self' !! i = self_y self !! i /\ self_u self' !! i = self_u self !! i /\
  self_n self' !! i = self_n self !! i /\ self_z self' !! i = self_z self !! i /\
  self_c self' !! i = self_c self !! i /\ self_v self' !! i = self_v self !! i.

(** While [propagate(start, stop)] runs: the rows before [start] and from
    the current surface [k] on are those of the start, and so are the
    arrays [l] and [d]. *)
Definition untouched (self : state F T) (start : nat)
    (k : nat) (self' : state F T) (loc : @locals F) : Prop :=
  self_l self' = self_l self /\ self_d self' = self_d self /\
  order self' = order self /\
  forall i, (i < start \/ k <= i)%nat -> same_row self self' i.

(** While [propagate(start, stop)] runs: [z] is the sum of the
    thicknesses from surface [start] on. *)
Definition restarted_track (els : list (Element F T)) (start : nat)
    (k : nat) (self' : state F T) (loc : locals) : Prop :=
  z loc = track (drop start (take k els)) /\
  forall i, (start <= i < k)%nat ->
    self_z self' !! i = Some (track (drop start (take (S i) els))).
End RangeVocabulary.

(** ** The paraxial matrix in exact arithmetic *)

(** [mi] is the inverse of [m]: [m] times [mi] is the identity. *)
Definition is_inverse (m mi : array22 Qc) : Prop :=
  (at00 m * at00 mi + at01 m * at10 mi = 1 /\
   at00 m * at01 mi + at01 m * at11 mi = 0 /\
   at10 m * at00 mi + at11 m * at10 mi = 0 /\
   at10 m * at01 mi + at11 m * at11 mi = 1)%Qc.

(** The height at which the ray of height [y] and slope [u] leaves the
    system of matrix [m]. *)
Definition height_after (m : array22 Qc) (y u : Qc) : Qc :=
  (at00 m * y + at01 m * u)%Qc.

(** Zero as a rational. *)
Definition Qc_is_zero (x : Qc) : bool := Qeq_bool x 0.

(** An object at infinity and a stop of radius 2 at distance 4, in air;
    the matrix from the object to behind the stop is [[1, 4], [0, 1]]. *)
Definition collimated_system : System Qc unit := {|
  elements := [surface "O" (q 0 1) (q 0 1) (q 1 1) (q 3 1);
               surface "A" (q 4 1) (q 0 1) (q 1 1) (q 2 1)];
  object := {| wavelengths := [q 1 2]; object_radius := q 3 1; finite := false |};
  aperture_index := 1;
  paraxial_matrix := fun _ _ => ((q 1 1, q 4 1), (q 0 1, q 1 1))
|}.

(** The arrays of a trace that has a single row. *)
Definition one_row_trace : ParaxialTrace.state float unit := {|
  ParaxialTrace.self_l := [0.5; 0.25; 0.75]%float;
  ParaxialTrace.self_y := [(0, 4)]%float;
  ParaxialTrace.self_u := [(0.5, -1)]%float;
  ParaxialTrace.self_z := [0%float];
  ParaxialTrace.self_v := [0%float];
  ParaxialTrace.self_n := [1%float];
  ParaxialTrace.self_c := [tt];
  ParaxialTrace.self_d := [tt];
  ParaxialTrace.order := 4
|}.

(** ** Fresh arrays *)

(** Memory in which every cell of the arrays of a paraxial trace holds
    a NaN. *)
Definition nan_memory : Paraxial.uninitialised (F := float) (T := unit) := {|
  Paraxial.junk_y := fun _ => (nan, nan);
  Paraxial.junk_u := fun _ => (nan, nan);
  Paraxial.junk_z := fun _ => nan;
  Paraxial.junk_v := fun _ => nan;
  Paraxial.junk_n := fun _ => nan;
  Paraxial.junk_c := fun _ => tt;
  Paraxial.junk_d := fun _ => tt
|}.

(** The same for the arrays of a full trace. *)
Definition nan_rays : Full.uninitialised (F := float) := {|
  Full.junk_y := fun _ _ => (nan, nan, nan);
  Full.junk_u := fun _ _ => (nan, nan, nan);
  Full.junk_l := fun _ => nan;
  Full.junk_z := fun _ => nan;
  Full.junk_n := fun _ _ => nan;
  Full.junk_t := fun _ _ => nan
|}.

(** [sample_system] without wavelengths. *)
Definition dark_system : System float unit := {|
  elements := elements (sample_system false);
  object := {| wavelengths := []; object_radius := 3%float; finite := false |};
  aperture_index := 1;
  paraxial_matrix := paraxial_matrix (sample_system false)
|}.

(** ** The rows the derived properties read *)
Section RowsVocabulary.
Context {F T : Type}.
Import ParaxialTrace.

(** Two rows or more in [y], [u], [n] and [z], and a wavelength. *)
Definition two_rows (self : state F T) : Prop :=
  (2 <= length (self_y self))%nat /\ (2 <= length (self_u self))%nat /\
  (2 <= length (self_n self))%nat /\ (2 <= length (self_z self))%nat /\
  (1 <= length (self_l self))%nat.

End RowsVocabulary.

(** The arrays of a full trace of three rays through three surfaces,
    as [allocate] leaves them. *)
Definition three_rays : FullTrace.state float := {|
  FullTrace.nrays := 3;
  FullTrace.self_y := repeat (repeat (nan, nan, nan) 3) 3;
  FullTrace.self_u := repeat (repeat (nan, nan, nan) 3) 3;
  FullTrace.self_l := repeat nan 3;
  FullTrace.self_z := repeat nan 3;
  FullTrace.self_n := repeat (repeat nan 3) 3;
  FullTrace.self_t := repeat (repeat nan 3) 3
|}.

(** ** The shape of the arrays of a full trace *)
Section ShapeVocabulary.
Context {F : Type}.
Import FullTrace.

(** Arrays of [len] surfaces and [k] rays, as [allocate] shapes them. *)
Definition rectangular (len k : nat) (self : state F) : Prop :=
  FullTrace.nrays self = Z.of_nat k /\
  length (self_l self) = k /\ length (self_z self) = len /\
  (length (self_n self) = len /\ Forall (fun r => length r = k) (self_n self)) /\
  (length (self_t self) = len /\ Forall (fun r => length r = k) (self_t self)) /\
  (length (self_y self) = len /\ Forall (fun r => length r = k) (self_y self)) /\
  (length (self_u self) = len /\ Forall (fun r => length r = k) (self_u self)).
End ShapeVocabulary.

(** ** The surfaces a call has gone through *)
Section VisitedVocabulary.
Context {F T : Type} `{Arith F}.
Import ParaxialTrace.

(** While [propagate] runs: the wavelengths are those of the start, and
    every row of [v] before the current surface [k] holds the dispersion
    of its surface, which the loop writes when it is at that surface. *)
Definition surfaces_visited (system : System F T) (l : list F)
    (k : nat) (self : state F T) (loc : @locals F) : Prop :=
  self_l self = l /\
  forall (i : nat) (el : Element F T),
    (i < k)%nat -> elements system !! i = Some el ->
    self_v self !! i = Some (dispersion el l).
End VisitedVocabulary.

(** [collimated_system] with its object at a finite distance. *)
Definition conjugate_system : System Qc unit := {|
  elements := elements collimated_system;
  object := {| wavelengths := [q 1 2]; object_radius := q 3 1; finite := true |};
  aperture_index := 1;
  paraxial_matrix := paraxial_matrix collimated_system
|}.

(** An object, a stop and an image in air whose thicknesses are the
    binary64 numbers nearest to 0.1, 0.2 and 0.3. *)
Definition decimal_system : System float unit := {|
  elements := [surface "O" 0x1.999999999999ap-4%float 0%float 1%float 3%float;
               surface "A" 0x1.999999999999ap-3%float 0%float 1%float 2%float;
               surface "I" 0x1.3333333333333p-2%float 0%float 1%float 5%float];
  object := {| wavelengths := [0.5%float]; object_radius := 3%float; finite := false |};
  aperture_index := 1;
  paraxial_matrix := fun _ _ => ((1%float, 0x1.999999999999ap-3%float), (0%float, 1%float))
|}.

(** [rational_system] and [rational_start] in binary64, the curvatures
    of the lens being the floats nearest to 0.1 and -0.1. *)
Definition binary64_lens : System float unit := {|
  elements := [surface "O" 2%float 0%float 1%float 3%float;
               surface "S" 4%float 0x1.999999999999ap-4%float 1.5%float 2%float;
               surface "S" 1%float (-0x1.999999999999ap-4)%float 1%float 2%float;
               surface "I" 9%float 0%float 1%float 5%float];
  object := {| wavelengths := [0.5%float]; object_radius := 3%float; finite := true |};
  aperture_index := 1;
  paraxial_matrix := fun _ _ => ((1%float, 4%float), (0%float, 1%float))
|}.

Definition binary64_start : ParaxialTrace.state float unit := {|
  ParaxialTrace.self_l := [0.5; 0.5; 0.5]%float;
  ParaxialTrace.self_y := (0, 3)%float :: repeat (0, 0)%float 3;
  ParaxialTrace.self_u := (0.5, -0.75)%float :: repeat (0, 0)%float 3;
  ParaxialTrace.self_z := repeat 0%float 4;
  ParaxialTrace.self_v := repeat 0%float 4;
  ParaxialTrace.self_n := repeat 0%float 4;
  ParaxialTrace.self_c := repeat tt 4;
  ParaxialTrace.self_d := repeat tt 4;
  ParaxialTrace.order := 4
|}.

(** ** binary64 for the examples *)

(** Each float multiplied by itself in place of the C library's
    [pow(x, 2)], to evaluate examples whose outcome does not depend on
    the last bit of a square. *)
Definition exact_square (x : float) : float := PrimFloat.mul x x.

#[export] Instance sample_elementary : Elementary float :=
  scalar_elementary exact_square.

(** [sample_system] with its object at infinity and a field of
    2^600. *)
Definition wide_system : System float unit := {|
  elements := elements (sample_system false);
  object := {| wavelengths := [0.5%float]; object_radius := 0x1p+600%float;
               finite := false |};
  aperture_index := 1;
  paraxial_matrix := paraxial_matrix (sample_system false)
|}.

(** * Properties *)

(** ** The run time *)
Section Runtime.
Context {A B : Type}.

Lemma py_index_nat (len k : nat) :
  (k < len)%nat -> py_index len (Z.of_nat k) = Some k.
Proof.
  intros Hk. unfold py_index.
  replace (0 <=? Z.of_nat k) with true by (symmetry; apply Z.leb_le; lia).
  replace (Z.of_nat k <? Z.of_nat len) with true by (symmetry; apply Z.ltb_lt; lia).
  simpl. now rewrite Nat2Z.id.
Qed.

Lemma py_index_back (len k : nat) :
  (0 < k <= len)%nat -> py_index len (- Z.of_nat k) = Some (len - k)%nat.
Proof.
  intros Hk. unfold py_index.
  replace (0 <=? - Z.of_nat k) with false by (symmetry; apply Z.leb_gt; lia).
  replace (- Z.of_nat len <=? - Z.of_nat k) with true by (symmetry; apply Z.leb_le; lia).
  replace (- Z.of_nat k <? 0) with true by (symmetry; apply Z.ltb_lt; lia).
  simpl. f_equal. lia.
Qed.

Lemma py_getitem_nat (l : list A) (k : nat) (a : A) :
  l !! k = Some a -> py_getitem l (Z.of_nat k) = Returns a.
Proof.
  intros Hk. unfold py_getitem.
  rewrite py_index_nat by (apply lookup_lt_is_Some; eauto).
  now rewrite Hk.
Qed.

Lemma py_getitem_back (l : list A) (k : nat) (a : A) :
  (0 < k <= length l)%nat -> l !! (length l - k)%nat = Some a ->
  py_getitem l (- Z.of_nat k) = Returns a.
Proof.
  intros Hk Hl. unfold py_getitem.
  rewrite py_index_back by lia.
  now rewrite Hl.
Qed.

Lemma py_setitem_nat (l : list A) (k : nat) (a : A) :
  (k < length l)%nat -> py_setitem l (Z.of_nat k) a = Returns (<[k:=a]> l).
Proof.
  intros Hk. unfold py_setitem. now rewrite py_index_nat.
Qed.
End Runtime.

(** Rewrite with a fact about the index [Z.of_nat k] or [- Z.of_nat k]
    where the goal has the numeral. *)
Ltac rewrite_index H :=
  let E := fresh "E" in
  pose proof H as E;
  cbv [Z.of_nat Pos.of_succ_nat Pos.succ Z.opp] in E;
  rewrite E; cbn [bind]; clear E.

Lemma py_range_0 (len : nat) :
  py_range 0 (Z.of_nat len) = map Z.of_nat (seq 0 len).
Proof.
  unfold py_range. rewrite Z.sub_0_r, Nat2Z.id.
  apply map_ext. intros k. lia.
Qed.

Lemma length_py_range (a b : Z) : length (py_range a b) = Z.to_nat (b - a).
Proof. unfold py_range. now rewrite length_map, length_seq. Qed.

Section Array22Facts.
Context {F : Type}.

Lemma get2_row (a : list (F * F)) (i : nat) (row : F * F) :
  a !! i = Some row ->
  get2 a (Z.of_nat i) 0 = Returns (fst row) /\
  get2 a (Z.of_nat i) 1 = Returns (snd row).
Proof.
  intros Hi. unfold get2. rewrite (py_getitem_nat _ _ _ Hi). split; reflexivity.
Qed.

Lemma get2_back (a : list (F * F)) (k : nat) (row : F * F) :
  (0 < k <= length a)%nat -> a !! (length a - k)%nat = Some row ->
  get2 a (- Z.of_nat k) 0 = Returns (fst row) /\
  get2 a (- Z.of_nat k) 1 = Returns (snd row).
Proof.
  intros Hk Hi. unfold get2. rewrite (py_getitem_back _ _ _ Hk Hi). split; reflexivity.
Qed.

Lemma set2_row0 (row : F * F) (a : list (F * F)) (x : F) :
  set2 (row :: a) 0 0 x = Returns ((x, snd row) :: a) /\
  set2 (row :: a) 0 1 x = Returns ((fst row, x) :: a).
Proof. split; reflexivity. Qed.
End Array22Facts.

(** ** ParaxialTrace: which surfaces a call visits *)
Section Visited.
Context {F T : Type} `{Arith F}.
Import ParaxialTrace.

Lemma visited_default (system : System F T) :
  visited system 0 None = map Z.of_nat (seq 0 (length (elements system))).
Proof. unfold visited, py_or, Trace.trace_length. apply py_range_0. Qed.

End Visited.

(** ** ParaxialTrace: the derived properties *)
Section Magnification.
Context {F T : Type} `{Arith F}.
Import ParaxialTrace.

(** C10: [magnification] is the pair of the transverse ratio
    [(n[0]*u[0,0]) / (n[-2]*u[-2,0])] and the angular ratio
    [(n[-2]*u[-2,1]) / (n[1]*u[0,1])]: on the object side the first
    takes the index of row 0, the second the index of row 1. *)
Theorem magnification_rows (self : state F T)
    (n_0 n_1 n_last : F) (u_0 u_last : F * F) :
  length (self_u self) = length (self_n self) ->
  self_n self !! 0%nat = Some n_0 ->
  self_n self !! 1%nat = Some n_1 ->
  self_n self !! (length (self_n self) - 2)%nat = Some n_last ->
  self_u self !! 0%nat = Some u_0 ->
  self_u self !! (length (self_u self) - 2)%nat = Some u_last ->
  magnification self =
    Returns ((n_0 *. fst u_0) /. (n_last *. fst u_last),
             (n_last *. snd u_last) /. (n_1 *. snd u_0)).
Proof.
  intros Hlen Hn0 Hn1 Hnl Hu0 Hul.
  assert (1 < length (self_n self))%nat as Hlong
    by (apply lookup_lt_is_Some; eauto).
  unfold magnification.
  rewrite_index (py_getitem_nat _ 0 _ Hn0).
  destruct (get2_row _ 0 _ Hu0) as [Hu00 Hu01].
  rewrite_index Hu00. rewrite_index Hu01.
  assert (0 < 2 <= length (self_n self))%nat as Hn2 by lia.
  assert (0 < 2 <= length (self_u self))%nat as Hu2 by lia.
  rewrite_index (py_getitem_back _ 2 _ Hn2 Hnl).
  destruct (get2_back _ 2 _ Hu2 Hul) as [Hul0 Hul1].
  rewrite_index Hul0. rewrite_index Hul1.
  rewrite_index (py_getitem_nat _ 1 _ Hn1).
  reflexivity.
Qed.
End Magnification.

(** ** ParaxialTrace: the rays [find_rays] starts from *)
Section FindRays.
Context {F T : Type} `{Arith F}.
Variable linalg_inv : array22 F -> result (array22 F).
Import ParaxialTrace.

(** What [find_rays] does once the inverse [mi] and the stop [el] are
    there and the arrays have a row 0: it returns, and row 0 of one of
    [y] and [u] holds the solved values, row 0 of the other the given
    ones; which is which depends on [object.finite] alone. *)
Lemma find_rays_returns (system : System F T) (self : state F T)
    (mi : array22 F) (el : Element F T) :
  linalg_inv (paraxial_matrix system (wavelengths (object system))
                (aperture_index system + 1)) = Returns mi ->
  py_getitem (elements system) (aperture_index system) = Returns el ->
  (0 < length (self_y self))%nat ->
  (0 < length (self_u self))%nat ->
  exists self',
    find_rays linalg_inv system self = Returns self' /\
    let s := solved mi (radius el) (object_radius (object system)) in
    let g := given (object_radius (object system)) in
    if finite (object system)
    then self_u self' !! 0%nat = Some s /\ self_y self' !! 0%nat = Some g
    else self_y self' !! 0%nat = Some s /\ self_u self' !! 0%nat = Some g.
Proof.
  intros Hinv Hel Hy Hu. unfold find_rays.
  rewrite Hinv. cbn [bind]. rewrite Hel. cbn [bind].
  destruct (self_y self) as [|y0 ys] eqn:Ey; [simpl in Hy; lia|].
  destruct (self_u self) as [|u0 us] eqn:Eu; [simpl in Hu; lia|].
  destruct (finite (object system));
    repeat (first [ rewrite (proj1 (set2_row0 _ _ _))
                  | rewrite (proj2 (set2_row0 _ _ _)) ]; cbn [bind fst snd]);
    eexists; (split; [reflexivity|]); split; reflexivity.
Qed.

(** C1, as amended: for an object at infinity [find_rays] writes into
    row 0 the heights it solves for,
    [r*mi[0,0] - r*mi[0,1]*mi[1,0]/mi[1,1]] for the marginal ray and
    [c*mi[0,1]/mi[1,1]] for the chief ray, with the slopes [0] and [c].
    Heights and slopes change places when the object is finite, not when
    it is at infinity: then [y[0]] holds the given values, the height
    [0] of the marginal ray and the height [c] of the chief ray, and the
    slopes are what is solved for. *)
Theorem find_rays_row0 (system : System F T) (self : state F T)
    (mi : array22 F) (el : Element F T) :
  linalg_inv (paraxial_matrix system (wavelengths (object system))
                (aperture_index system + 1)) = Returns mi ->
  py_getitem (elements system) (aperture_index system) = Returns el ->
  (0 < length (self_y self))%nat ->
  (0 < length (self_u self))%nat ->
  let r := radius el in
  let c := object_radius (object system) in
  exists self',
    find_rays linalg_inv system self = Returns self' /\
    (finite (object system) = false ->
       self_y self' !! 0%nat =
         Some (r *. at00 mi -. r *. at01 mi *. at10 mi /. at11 mi,
               c *. at01 mi /. at11 mi) /\
       self_u self' !! 0%nat = Some (fzero, c)) /\
    (finite (object system) = true ->
       self_y self' !! 0%nat = Some (fzero, c)).
Proof.
  intros Hinv Hel Hy Hu r c.
  destruct (find_rays_returns system self mi el Hinv Hel Hy Hu) as (self' & Hrun & Hrows).
  exists self'. split; [exact Hrun|].
  cbn zeta in Hrows. unfold solved, given in Hrows.
  destruct (finite (object system)); split; intros Hfin;
    first [discriminate Hfin | exact Hrows | exact (proj2 Hrows)].
Qed.
End FindRays.

(** Two binary64 numbers are different when [==] tells them apart. *)
Lemma float_discr (x y : float) :
  PrimFloat.eqb x x = true -> PrimFloat.eqb x y = false -> x <> y.
Proof. intros Hx Hxy E. rewrite <- E in Hxy. congruence. Qed.

Section FindRaysSamples.
Import ParaxialTrace.

(** C1 fails as stated: for a finite object the claim puts the solved
    height [r*mi[0,0] - r*mi[0,1]*mi[1,0]/mi[1,1] = 2] into [y[0,0]],
    where [find_rays] leaves the height 0 and puts the 2 into
    [u[0,0]]. *)
Lemma find_rays_finite_counterexample :
  let system := sample_system true in
  let mi := ((1, -1), (0, 1))%float in
  finite (object system) = true /\
  inv22 is_zero (paraxial_matrix system (wavelengths (object system))
                   (aperture_index system + 1)) = Returns mi /\
  exists self',
    find_rays (inv22 is_zero) system (allocated 3 4 nan) = Returns self' /\
    self_y self' !! 0%nat = Some (0, 3)%float /\
    self_u self' !! 0%nat = Some (2, -3)%float /\
    self_y self' !! 0%nat <> Some (solved mi 2 3)%float.
Proof.
  cbv zeta. split; [reflexivity|]. split; [reflexivity|].
  eexists. split; [vm_compute; reflexivity|].
  split; [reflexivity|]. split; [reflexivity|].
  vm_compute. intros E.
  apply (f_equal (fun o => match o with Some row => fst row | None => nan end)) in E.
  revert E. apply float_discr; reflexivity.
Qed.

(** On [sample_system] with a finite object: [y[0]] holds 0 and the
    radius of the object. *)
Lemma find_rays_row0_witness :
  exists self',
    find_rays (inv22 is_zero) (sample_system true) (allocated 3 4 nan) = Returns self' /\
    self_y self' !! 0%nat = Some (0, 3)%float.
Proof.
  destruct (find_rays_row0 (inv22 is_zero) (sample_system true) (allocated 3 4 nan)
              ((1, -1), (0, 1))%float (surface "A" 1 0 1 2)%float)
    as (self' & Hrun & _ & Hfinite).
  - reflexivity.
  - reflexivity.
  - simpl. lia.
  - simpl. lia.
  - exists self'. split; [exact Hrun|]. apply Hfinite. reflexivity.
Defined.

(** The slopes a finite object gets. On [conjugate_system], a stop of
    radius 2 at distance 4 from an object of radius 3, [find_rays]
    solves for the slopes 2 and -12: the marginal ray then meets the
    stop at the height 8, not at its edge, and the chief ray at -45, not
    on the axis. The reversed inverse [mi[::-1]], which line 101 builds
    and lines 102 and 103 do not read, gives the slopes 1/2 and -3/4,
    which meet the stop at 2 and at 0. *)
Example find_rays_finite_slopes :
  let m := paraxial_matrix conjugate_system (wavelengths (object conjugate_system)) 2 in
  exists (mi : array22 Qc) (self' : state Qc unit),
    inv22 Qc_is_zero m = Returns mi /\
    find_rays (inv22 Qc_is_zero) conjugate_system rational_start = Returns self' /\
    self_y self' !! 0%nat = Some (q 0 1, q 3 1) /\
    self_u self' !! 0%nat = Some (q 2 1, q (-12) 1) /\
    height_after m (q 0 1) (q 2 1) = q 8 1 /\
    height_after m (q 3 1) (q (-12) 1) = q (-45) 1 /\
    solved (reversed mi) (q 2 1) (q 3 1) = (q 1 2, q (-3) 4) /\
    height_after m (q 0 1) (q 1 2) = q 2 1 /\
    height_after m (q 3 1) (q (-3) 4) = q 0 1.
Proof.
  cbv zeta. eexists _, _.
  split; [vm_compute; reflexivity|].
  split; [vm_compute; reflexivity|].
  repeat split; apply Qc_is_canon; reflexivity.
Qed.
End FindRaysSamples.

(** ** binary64: dividing by zero *)
Section DivisionByZero.

Lemma is_finite_false (x : float) :
  SF_finite (Prim2SF x) = false -> is_finite x = false.
Proof.
  unfold is_finite, is_nan, is_infinity.
  rewrite !FloatAxioms.eqb_spec, FloatAxioms.abs_spec.
  destruct (Prim2SF x) as [s|s| |s m e]; try discriminate; intros _.
  - destruct s; reflexivity.
  - reflexivity.
Qed.

Lemma is_zero_SF (z : float) :
  is_zero z = true -> exists s, Prim2SF z = S754_zero s.
Proof.
  unfold is_zero. rewrite FloatAxioms.eqb_spec.
  destruct (Prim2SF z) as [s|s| |s m e]; try discriminate.
  - intros _. exists s. reflexivity.
  - destruct s; discriminate.
  - destruct s; discriminate.
Qed.

Lemma div_by_zero_SF (x z : float) :
  is_zero z = true -> SF_finite (Prim2SF (x / z)) = false.
Proof.
  intros Hz. destruct (is_zero_SF z Hz) as [s Hs].
  rewrite FloatAxioms.div_spec, Hs.
  destruct (Prim2SF x) as [sx|sx| |sx m e]; reflexivity.
Qed.

Lemma sub_not_finite_SF (x y : float) :
  SF_finite (Prim2SF y) = false -> SF_finite (Prim2SF (x - y)) = false.
Proof.
  rewrite FloatAxioms.sub_spec.
  destruct (Prim2SF y) as [sy|sy| |sy my ey]; try discriminate; intros _.
  - destruct (Prim2SF x) as [sx|sx| |sx m e]; try reflexivity.
    destruct sx, sy; reflexivity.
  - destruct (Prim2SF x) as [sx|sx| |sx m e]; reflexivity.
Qed.

(** A quotient by zero is an infinity or a NaN, and so is what it is
    subtracted from. *)
Lemma div_by_zero (x z : float) :
  is_zero z = true -> is_finite (x / z) = false.
Proof. intros Hz. apply is_finite_false, div_by_zero_SF, Hz. Qed.

Lemma sub_div_by_zero (a x z : float) :
  is_zero z = true -> is_finite (a - x / z) = false.
Proof.
  intros Hz. apply is_finite_false, sub_not_finite_SF, div_by_zero_SF, Hz.
Qed.
End DivisionByZero.

Section FindRaysZero.
Context {T : Type}.
Variable linalg_inv : array22 float -> result (array22 float).
Import ParaxialTrace.

(** C3, as the code has it: a zero at [mi[1,1]] raises nothing.
    [find_rays] divides by it in binary64 and returns, and the two
    solved values it has written into row 0 are infinities or NaNs. *)
Theorem find_rays_zero_entry (system : System float T) (self : state float T)
    (mi : array22 float) (el : Element float T) :
  linalg_inv (paraxial_matrix system (wavelengths (object system))
                (aperture_index system + 1)) = Returns mi ->
  py_getitem (elements system) (aperture_index system) = Returns el ->
  (0 < length (self_y self))%nat ->
  (0 < length (self_u self))%nat ->
  is_zero (at11 mi) = true ->
  exists (self' : state float T) (s : float * float),
    find_rays linalg_inv system self = Returns self' /\
    (if finite (object system) then self_u self' else self_y self') !! 0%nat = Some s /\
    is_finite (fst s) = false /\
    is_finite (snd s) = false.
Proof.
  intros Hinv Hel Hy Hu Hzero.
  destruct (find_rays_returns linalg_inv system self mi el Hinv Hel Hy Hu)
    as (self' & Hrun & Hrows).
  exists self', (solved mi (radius el) (object_radius (object system))).
  split; [exact Hrun|]. split.
  - cbn zeta in Hrows. destruct (finite (object system)); apply Hrows.
  - split.
    + apply (sub_div_by_zero _ _ _ Hzero).
    + apply (div_by_zero _ _ Hzero).
Qed.
End FindRaysZero.

Section FindRaysZeroSamples.
Import ParaxialTrace.

(** C3 fails as stated: the inverse of the matrix of
    [degenerate_system] has [mi[1,1] = 0], and [find_rays] returns, with
    the infinities of the two divisions in [y[0]]. *)
Lemma find_rays_zero_counterexample :
  let system := degenerate_system in
  let mi := ((1, -1), (1, 0))%float in
  inv22 is_zero (paraxial_matrix system (wavelengths (object system))
                   (aperture_index system + 1)) = Returns mi /\
  is_zero (at11 mi) = true /\
  exists self',
    find_rays (inv22 is_zero) system (allocated 2 4 nan) = Returns self' /\
    self_y self' !! 0%nat = Some (infinity, neg_infinity) /\
    self_u self' !! 0%nat = Some (0, 1)%float.
Proof.
  cbv zeta. split; [reflexivity|]. split; [reflexivity|].
  eexists. split; [vm_compute; reflexivity|].
  split; reflexivity.
Qed.

(** On [degenerate_system]: [find_rays] returns, and neither of the values
    in [y[0]] is finite. *)
Lemma find_rays_zero_entry_witness :
  exists (self' : state float unit) (s : float * float),
    find_rays (inv22 is_zero) degenerate_system (allocated 2 4 nan) = Returns self' /\
    self_y self' !! 0%nat = Some s /\
    is_finite (fst s) = false /\
    is_finite (snd s) = false.
Proof.
  apply (find_rays_zero_entry (inv22 is_zero) degenerate_system (allocated 2 4 nan)
           ((1, -1), (1, 0))%float (surface "A" 1 0 1 1)%float).
  - reflexivity.
  - reflexivity.
  - simpl. lia.
  - simpl. lia.
  - reflexivity.
Defined.
End FindRaysZeroSamples.

(** On [sample_trace], whose index is 1 in row 0 and 1.5 in row 1. *)
Lemma magnification_rows_witness :
  ParaxialTrace.magnification sample_trace =
    Returns ((1 * 0.5) / (1 * -0.5), (1 * -1.5) / (1.5 * -1))%float.
Proof.
  exact (magnification_rows sample_trace 1 1.5 1 (0.5, -1) (-0.5, -1.5)
           eq_refl eq_refl eq_refl eq_refl eq_refl eq_refl)%float.
Defined.

(** ** ParaxialTrace: the loop of [propagate] *)
Section PropagateLoop.
Context {F T : Type} `{Arith F}.
Import ParaxialTrace.

Lemma propagate_body_runs (system : System F T) (k : nat) (el : Element F T)
    (self : state F T) (loc : locals) :
  elements system !! k = Some el ->
  sized (length (elements system)) self ->
  propagate_body system (Z.of_nat k) (self, loc) =
    Returns (next_state el k self loc, next_locals el k self loc).
Proof.
  intros Hel (Hy & Hu & Hn & Hz & Hc & Hv).
  assert (k < length (elements system))%nat as Hk
    by (apply lookup_lt_is_Some; eauto).
  unfold propagate_body, next_state, next_locals.
  rewrite (py_getitem_nat _ _ _ Hel). cbn [bind].
  destruct (propagate_paraxial el (yu0 loc) (n0 loc) (self_l self)) as [yu n].
  rewrite !py_setitem_nat by lia. reflexivity.
Qed.

Lemma next_state_sized (len : nat) (el : Element F T) (k : nat)
    (self : state F T) (loc : locals) :
  sized len self -> sized len (next_state el k self loc).
Proof.
  unfold sized, next_state. cbn. rewrite !length_insert. tauto.
Qed.

(** The loop over the surfaces [k], [k+1], ... of [els], whatever the
    property [P] of the state and the locals each iteration preserves. *)
Lemma propagate_loop (system : System F T) (P : nat -> state F T -> locals -> Prop) :
  (forall k el self loc,
     elements system !! k = Some el ->
     sized (length (elements system)) self ->
     P k self loc ->
     P (S k) (next_state el k self loc) (next_locals el k self loc)) ->
  forall (m k : nat) (self : state F T) (loc : locals),
    (k + m = length (elements system))%nat ->
    sized (length (elements system)) self ->
    P k self loc ->
    exists self' loc',
      for_each (propagate_body system) (map Z.of_nat (seq k m)) (self, loc)
        = Returns (self', loc') /\
      sized (length (elements system)) self' /\
      P (length (elements system)) self' loc'.
Proof.
  intros Hstep m. induction m as [|m IH]; intros k self loc Hkm Hsized HP.
  - exists self, loc. replace (length (elements system)) with k by lia.
    split; [reflexivity|]. split; [|exact HP].
    replace k with (length (elements system)) by lia. exact Hsized.
  - destruct (lookup_lt_is_Some_2 (elements system) k) as [el Hel]; [lia|].
    cbn [seq map for_each].
    rewrite (propagate_body_runs system k el self loc Hel Hsized). cbn [bind].
    apply IH.
    + lia.
    + apply next_state_sized, Hsized.
    + apply (Hstep k el self loc Hel Hsized HP).
Qed.
End PropagateLoop.

(** ** ParaxialTrace: the Lagrange invariant *)
Section Lagrange.
Context {F T : Type} `{Arith F}.
Import ParaxialTrace.

Lemma lagrange_at_row (self : state F T) (i : nat) (L : F) :
  row_lagrange self i L -> lagrange_at self (Z.of_nat i) = Returns L.
Proof.
  intros (n & yu & Hn & Hy & Hu & HL). unfold lagrange_at.
  rewrite (py_getitem_nat _ _ _ Hn). cbn [bind].
  destruct (get2_row _ _ _ Hy) as [Hy0 Hy1].
  destruct (get2_row _ _ _ Hu) as [Hu0 Hu1].
  rewrite Hu0, Hy1, Hu1, Hy0. cbn [bind].
  rewrite <- HL. reflexivity.
Qed.

Lemma next_state_row (el : Element F T) (k : nat) (self : state F T) (loc : locals) :
  sized (length (self_y self)) self ->
  (k < length (self_y self))%nat ->
  row_lagrange (next_state el k self loc) k
    (lagrange_of (snd (propagate_paraxial el (yu0 loc) (n0 loc) (self_l self)))
                 (fst (propagate_paraxial el (yu0 loc) (n0 loc) (self_l self)))).
Proof.
  intros (_ & Hu & Hn & _) Hk.
  eexists _, _. unfold next_state, next_locals. cbn.
  rewrite !list_lookup_insert_eq by lia. repeat split; reflexivity.
Qed.

Lemma next_state_other (el : Element F T) (k i : nat) (self : state F T)
    (loc : locals) (L : F) :
  i <> k -> row_lagrange self i L -> row_lagrange (next_state el k self loc) i L.
Proof.
  intros Hik (n & yu & Hn & Hy & Hu & HL). exists n, yu.
  unfold next_state. cbn.
  rewrite !list_lookup_insert_ne by congruence. auto.
Qed.

Lemma carried_step (system : System F T) (el0 : Element F T) (init : locals)
    (l : list F) :
  elements system !! 0%nat = Some el0 ->
  n0 init = None ->
  Forall conserves (tail (elements system)) ->
  let first := propagate_paraxial el0 (yu0 init) None l in
  forall k el self loc,
    elements system !! k = Some el ->
    sized (length (elements system)) self ->
    carried init l (lagrange_of (snd first) (fst first)) k self loc ->
    carried init l (lagrange_of (snd first) (fst first)) (S k)
      (next_state el k self loc) (next_locals el k self loc).
Proof.
  intros Hel0 Hinit Hcons first k el self loc Hel Hsized [Hl Hk].
  assert (k < length (elements system))%nat as Hlt
    by (apply lookup_lt_is_Some; eauto).
  assert (length (self_y self) = length (elements system)) as Hlen
    by apply Hsized.
  pose proof (next_state_row el k self loc) as Hrow.
  rewrite Hlen in Hrow. specialize (Hrow Hsized Hlt).
  split; [exact Hl|]. destruct k as [|k].
  - subst loc. rewrite Hinit, Hl in Hrow.
    assert (el = el0) as -> by congruence.
    split.
    + eexists. cbn. rewrite Hinit, Hl. split; reflexivity.
    + intros i Hi. replace i with 0%nat by lia. exact Hrow.
  - destruct Hk as [(n & Hn & HL) Hrows].
    assert (conserves el) as Hel_cons.
    { rewrite Forall_lookup in Hcons. apply (Hcons k).
      rewrite lookup_tail. exact Hel. }
    rewrite Hn, Hel_cons, HL in Hrow.
    split.
    + eexists. cbn. rewrite Hn. split; [reflexivity|].
      rewrite Hel_cons. exact HL.
    + intros i Hi. destruct (decide (i = S k)) as [->|Hne].
      * exact Hrow.
      * apply next_state_other; [exact Hne|]. apply Hrows. lia.
Qed.

(** What the loop of [propagate] does for the invariant: it hands to
    each surface the rays and the index the surface before returned and
    stores what the surface returns. If every surface after the object
    returns rays of the invariant it received, with the equality of the
    arithmetic it computes in, then [n[i]*(u[i,0]*y[i,1] -
    u[i,1]*y[i,0])] at every surface [i] is the value the [lagrange]
    property reports for row 0. Exact arithmetic meets the condition;
    binary64 does not, see [lagrange_rounds]. *)
Theorem lagrange_conserved (system : System F T) (self : state F T) :
  (0 < length (elements system))%nat ->
  sized (length (elements system)) self ->
  Forall conserves (tail (elements system)) ->
  exists (self' : state F T) (L : F),
    propagate system self 0 None = Returns self' /\
    lagrange self' = Returns L /\
    forall i : Z, 0 <= i < Trace.trace_length system ->
      lagrange_at self' i = Returns L.
Proof.
  intros Hlen Hsized Hcons.
  destruct (lookup_lt_is_Some_2 (elements system) 0 Hlen) as [el0 Hel0].
  destruct (lookup_lt_is_Some_2 (self_y self) 0) as [y0 Hy0];
    [destruct Hsized as (-> & _); exact Hlen|].
  destruct (lookup_lt_is_Some_2 (self_u self) 0) as [u0 Hu0];
    [destruct Hsized as (_ & -> & _); exact Hlen|].
  set (init := {| yu0 := transpose (y0, u0); n0 := None; z := fzero |}).
  set (first := propagate_paraxial el0 (yu0 init) None (self_l self)).
  destruct (propagate_loop system
              (carried init (self_l self) (lagrange_of (snd first) (fst first)))
              (carried_step system el0 init (self_l self) Hel0 eq_refl Hcons)
              (length (elements system)) 0%nat self init)
    as (self' & loc' & Hrun & _ & _ & Hrows).
  { lia. } { exact Hsized. } { split; reflexivity. }
  destruct (length (elements system)) as [|len] eqn:Elen; [lia|].
  destruct Hrows as [_ Hrows].
  exists self', (lagrange_of (snd first) (fst first)).
  assert (forall i : Z, 0 <= i < Z.of_nat (S len) ->
            lagrange_at self' i = Returns (lagrange_of (snd first) (fst first)))
    as Hall.
  { intros i Hi. rewrite <- (Z2Nat.id i) by lia.
    apply lagrange_at_row, Hrows. lia. }
  split; [|split].
  - unfold propagate.
    rewrite_index (py_getitem_nat _ 0 _ Hy0).
    rewrite_index (py_getitem_nat _ 0 _ Hu0).
    rewrite visited_default, Elen.
    fold init. rewrite Hrun. reflexivity.
  - apply (Hall 0). lia.
  - unfold Trace.trace_length. rewrite Elen. exact Hall.
Qed.
End Lagrange.

(** ** A sample trace in exact arithmetic *)

Lemma q_nonzero (a : Z) (b : positive) : a <> 0 -> q a b <> 0%Qc.
Proof.
  intros Ha E. apply (f_equal this) in E. unfold q in E. cbn in E.
  assert (Qred (a # b) == 0)%Q as E' by (rewrite E; reflexivity).
  rewrite Qred_correct in E'. unfold Qeq in E'. cbn in E'. lia.
Qed.

(** A refracting surface of index other than zero hands the invariant
    on. *)
Lemma surface_conserves (ty : string) (t cv n r : Qc) :
  n <> 0%Qc -> conserves (surface ty t cv n r).
Proof.
  intros Hn [[ym um] [yc uc]] n0 l.
  unfold lagrange_of, surface, refract, at00, at01, at10, at11. cbn.
  field. exact Hn.
Qed.

(** The lens of [rational_system], traced in exact arithmetic. *)
Lemma lagrange_conserved_witness :
  exists (self' : ParaxialTrace.state Qc unit) (L : Qc),
    ParaxialTrace.propagate rational_system rational_start 0 None = Returns self' /\
    ParaxialTrace.lagrange self' = Returns L /\
    forall i : Z, 0 <= i < 4 -> ParaxialTrace.lagrange_at self' i = Returns L.
Proof.
  refine (lagrange_conserved rational_system rational_start _ _ _).
  - simpl. lia.
  - repeat split.
  - repeat constructor; apply surface_conserves, q_nonzero; lia.
Defined.

(** The same lens in binary64, with curvatures of 0.1 and -0.1: the
    invariant is 1.5 at the object and at the first face, and the next
    float above it at the second face. *)
Example lagrange_rounds :
  exists self' : ParaxialTrace.state float unit,
    ParaxialTrace.propagate binary64_lens binary64_start 0 None = Returns self' /\
    ParaxialTrace.lagrange self' = Returns 0x1.8p+0%float /\
    ParaxialTrace.lagrange_at self' 1 = Returns 0x1.8p+0%float /\
    ParaxialTrace.lagrange_at self' 2 = Returns 0x1.8000000000001p+0%float.
Proof.
  eexists. split; [vm_compute; reflexivity|].
  repeat split; vm_compute; reflexivity.
Qed.

(** ** FullTrace: the loop of [propagate] *)
Section FullLoop.
Context {F T : Type} `{Arith F}.
Import FullTrace.




End FullLoop.

(** ** The axial positions of the two traces *)
Section AxialPositions.
Context {F T : Type} `{Arith F}.

Lemma track_snoc (els : list (Element F T)) (el : Element F T) :
  track (els ++ [el]) = track els +. thickness el.
Proof. unfold track. now rewrite map_app, fold_left_app. Qed.


Lemma paraxial_track_step (system : System F T) (k : nat) (el : Element F T)
    (self : ParaxialTrace.state F T) (loc : ParaxialTrace.locals) :
  elements system !! k = Some el ->
  sized (length (elements system)) self ->
  paraxial_track (elements system) k self loc ->
  paraxial_track (elements system) (S k) (next_state el k self loc)
    (next_locals el k self loc).
Proof.
  intros Hel Hsized [Hz Hrows].
  assert (k < length (elements system))%nat as Hlt
    by (apply lookup_lt_is_Some; eauto).
  assert (k < length (ParaxialTrace.self_z self))%nat as Hk.
  { destruct Hsized as (_ & _ & _ & -> & _). exact Hlt. }
  assert (track (drop 1 (take (S k) (elements system)))
          = if 0 <? Z.of_nat k then ParaxialTrace.z loc +. thickness el
            else ParaxialTrace.z loc) as Hnew.
  { rewrite (take_S_r _ _ _ Hel). destruct k as [|k].
    - rewrite Hz. reflexivity.
    - rewrite drop_app_le by (rewrite length_take; lia).
      rewrite track_snoc, Hz. reflexivity. }
  split; [cbn; now rewrite Hnew|].
  intros i Hi. unfold next_state. cbn.
  destruct (decide (i = k)) as [->|Hne].
  - rewrite list_lookup_insert_eq by exact Hk. now rewrite Hnew.
  - rewrite list_lookup_insert_ne by congruence. apply Hrows. lia.
Qed.
End AxialPositions.

(** ** ParaxialTrace: [propagate] with [stop=0] *)
Section StopZero.
Context {F T : Type} `{Arith F}.
Import ParaxialTrace.

Lemma surfaces_visited_step (system : System F T) (l : list F) (k : nat)
    (el : Element F T) (self : state F T) (loc : locals) :
  elements system !! k = Some el ->
  sized (length (elements system)) self ->
  surfaces_visited system l k self loc ->
  surfaces_visited system l (S k) (next_state el k self loc)
    (next_locals el k self loc).
Proof.
  intros Hel Hsized [Hl Hrows].
  assert (k < length (self_v self))%nat as Hk.
  { destruct Hsized as (_ & _ & _ & _ & _ & ->). apply lookup_lt_is_Some; eauto. }
  split; [exact Hl|].
  intros i el' Hi Hel'. unfold next_state. cbn.
  destruct (decide (i = k)) as [->|Hne].
  - rewrite list_lookup_insert_eq by exact Hk.
    rewrite Hel in Hel'. injection Hel' as <-. now rewrite Hl.
  - rewrite list_lookup_insert_ne by congruence. apply Hrows; [lia | exact Hel'].
Qed.

(** C9: [propagate(stop=0)] goes through every surface of the system:
    the test [stop or self.length] takes 0 for an absent argument, so
    the call returns what [propagate()] returns, and in it every row
    has been written, row [i] of [v] with the dispersion of surface [i]
    and row [i] of [z] with the position of surface [i]; whatever
    [start] is, [propagate(start, 0)] is [propagate(start)]. The
    half-open range from 0 to 0 has no index at all. *)
Theorem propagate_stop_zero (system : System F T) (self : state F T) :
  (0 < length (elements system))%nat ->
  sized (length (elements system)) self ->
  exists self' : state F T,
    propagate system self 0 (Some 0) = Returns self' /\
    propagate system self 0 None = Returns self' /\
    (forall (i : nat) (el : Element F T),
       elements system !! i = Some el ->
       self_v self' !! i = Some (dispersion el (self_l self)) /\
       self_z self' !! i = Some (track (drop 1 (take (S i) (elements system))))) /\
    (forall start : Z,
       propagate system self start (Some 0) = propagate system self start None) /\
    visited system 0 (Some 0) = map Z.of_nat (seq 0 (length (elements system))) /\
    py_range 0 0 = [].
Proof.
  intros Hlen Hsized.
  destruct (lookup_lt_is_Some_2 (self_y self) 0) as [y0 Hy0];
    [destruct Hsized as (-> & _); exact Hlen|].
  destruct (lookup_lt_is_Some_2 (self_u self) 0) as [u0 Hu0];
    [destruct Hsized as (_ & -> & _); exact Hlen|].
  destruct (propagate_loop system
              (fun k s loc => paraxial_track (elements system) k s loc /\
                              surfaces_visited system (self_l self) k s loc)
              (fun k el s loc Hel Hs HP =>
                 conj (paraxial_track_step system k el s loc Hel Hs (proj1 HP))
                      (surfaces_visited_step system (self_l self) k el s loc
                         Hel Hs (proj2 HP)))
              (length (elements system)) 0%nat self
              {| yu0 := transpose (y0, u0); n0 := None; z := fzero |})
    as (self' & loc & Hrun & _ & (_ & Hz) & (_ & Hv)).
  { lia. } { exact Hsized. }
  { split; split; try reflexivity; intros; lia. }
  assert (propagate system self 0 (Some 0) = Returns self') as Hzero.
  { unfold propagate.
    rewrite_index (py_getitem_nat _ 0 _ Hy0).
    rewrite_index (py_getitem_nat _ 0 _ Hu0).
    change (visited system 0 (Some 0)) with (visited system 0 None).
    rewrite visited_default, Hrun. reflexivity. }
  exists self'. split; [exact Hzero|]. split; [exact Hzero|]. split.
  - intros i el Hel.
    assert (i < length (elements system))%nat as Hi
      by (apply lookup_lt_is_Some; eauto).
    split; [apply (Hv i el Hi Hel) | apply (Hz i Hi)].
  - split; [reflexivity|]. split; [exact (visited_default system) | reflexivity].
Qed.
End StopZero.

(** On [rational_system]: the four rows of [z] and [v] are written. *)
Lemma propagate_stop_zero_witness :
  exists self' : ParaxialTrace.state Qc unit,
    ParaxialTrace.propagate rational_system rational_start 0 (Some 0) = Returns self' /\
    ParaxialTrace.propagate rational_system rational_start 0 None = Returns self' /\
    (forall (i : nat) (el : Element Qc unit),
       elements rational_system !! i = Some el ->
       ParaxialTrace.self_v self' !! i
         = Some (dispersion el (ParaxialTrace.self_l rational_start)) /\
       ParaxialTrace.self_z self' !! i
         = Some (track (drop 1 (take (S i) (elements rational_system))))) /\
    (forall start : Z,
       ParaxialTrace.propagate rational_system rational_start start (Some 0)
       = ParaxialTrace.propagate rational_system rational_start start None) /\
    ParaxialTrace.visited rational_system 0 (Some 0) = map Z.of_nat (seq 0 4) /\
    py_range 0 0 = [].
Proof.
  refine (propagate_stop_zero rational_system rational_start _ _).
  - simpl. lia.
  - repeat split.
Defined.

Section AxialDifference.
Context {F T : Type} `{Arith F}.

(** Addition as exact arithmetic has it. *)
Hypothesis fadd_assoc : forall a b c : F, a +. (b +. c) = a +. b +. c.
Hypothesis fadd_0_l : forall a : F, fzero +. a = a.
Hypothesis fadd_0_r : forall a : F, a +. fzero = a.



End AxialDifference.

Section AxialPositionsBoth.
Context {F T : Type} `{Arith F}.

End AxialPositionsBoth.



(** ** Trace: the lines of [print_coeffs] *)
Section PrintCoeffs.
Context {F T : Type} `{Arith F}.
Variable format_g : bool -> option nat -> F -> string.
Variable str_float : F -> string.
Import Trace.

Abbreviation py_format := (py_format format_g str_float).
Abbreviation print_rows := (print_rows format_g str_float).
Abbreviation print_coeffs := (print_coeffs format_g str_float).
Abbreviation field_g := (field_g format_g).
Abbreviation data_lines := (data_lines format_g).

Lemma py_format_numbers (xs : list F) :
  py_format (repeat (Conv true 10 (Some 4%nat) conv_g) (length xs)) (map Num xs)
  = Returns (join (map field_g xs)).
Proof.
  induction xs as [|x xs IH]; [reflexivity|].
  cbn [length repeat map Trace.py_format convert bind].
  rewrite IH. reflexivity.
Qed.

Lemma py_format_labels (labels : list string) :
  py_format (repeat (Conv true 10 None conv_s) (length labels)) (map Str labels)
  = Returns (join (map field_s labels)).
Proof.
  induction labels as [|s labels IH]; [reflexivity|].
  cbn [length repeat map Trace.py_format convert bind].
  rewrite IH. reflexivity.
Qed.

Lemma py_format_head (fmt : list directive) (args : list arg) (a b : arg)
    (fa fb rest : string) :
  convert format_g str_float false 2 None conv_s a = Returns fa ->
  convert format_g str_float false 1 None conv_s b = Returns fb ->
  py_format fmt args = Returns rest ->
  py_format (fmt_head ++ fmt) ([a; b] ++ args)
  = Returns (fa ++ " " ++ fb ++ rest)%string.
Proof.
  intros Ha Hb Hrest.
  cbn [fmt_head app Trace.py_format]. rewrite Ha, Hb, Hrest. reflexivity.
Qed.

Lemma print_rows_lines (system : System F T) (k : nat) (coeff : list (list F))
    (i : nat) (rest : generated) :
  Forall (fun a => length a = k) coeff ->
  (i + length coeff <= length (elements system))%nat ->
  print_rows system (fmt_head ++ repeat (Conv true 10 (Some 4%nat) conv_g) k)
    (Z.of_nat i) coeff rest
  = (data_lines (elements system) i coeff ++ fst rest, snd rest).
Proof.
  revert i. induction coeff as [|a coeff IH]; intros i Hk Hlen.
  - cbn. now destruct rest.
  - inversion Hk as [|? ? Ha Hk']; subst.
    cbn [length] in Hlen.
    destruct (lookup_lt_is_Some_2 (elements system) i) as [el Hel]; [lia|].
    cbn [Trace.print_rows data_lines].
    rewrite (py_getitem_nat _ _ _ Hel), Hel. cbn [bind].
    rewrite (py_format_head _ _ (Int (Z.of_nat i)) (Str (typ el)) _ _ _
               eq_refl eq_refl (py_format_numbers a)).
    replace (Z.of_nat i + 1) with (Z.of_nat (S i)) by lia.
    rewrite IH by (assumption || lia). reflexivity.
Qed.

Lemma length_data_lines (els : list (Element F T)) (i : nat) (coeff : list (list F)) :
  length (data_lines els i coeff) = length coeff.
Proof.
  revert i. induction coeff as [|a coeff IH]; intros i; [reflexivity|].
  cbn. now rewrite IH.
Qed.

Lemma lookup_data_lines (els : list (Element F T)) (i j : nat)
    (coeff : list (list F)) (a : list F) (el : Element F T) :
  coeff !! j = Some a -> els !! (i + j)%nat = Some el ->
  data_lines els i coeff !! j
  = Some (line (py_str_int (Z.of_nat (i + j))) (typ el) (map field_g a)).
Proof.
  revert i j. induction coeff as [|a' coeff IH]; intros i j Ha Hel; [discriminate|].
  destruct j as [|j].
  - injection Ha as ->. rewrite Nat.add_0_r in Hel. rewrite Nat.add_0_r. cbn. now rewrite Hel.
  - cbn [data_lines]. rewrite lookup_cons_ne_0 by lia. cbn [Nat.pred].
    rewrite <- Nat.add_succ_comm in Hel |-. rewrite <- Nat.add_succ_comm.
    apply IH; [exact Ha | exact Hel].
Qed.

Lemma length_sum0 (coeff : ndarray) :
  Forall (fun a => length a = columns coeff) (rows coeff) ->
  length (sum0 coeff) = columns coeff.
Proof.
  unfold sum0. destruct (rows coeff) as [|row rest]; intros Hrows.
  - apply repeat_length.
  - inversion Hrows as [|? ? Hrow Hrest]; subst. clear Hrows.
    revert row Hrow. induction rest as [|a rest IH]; intros row Hrow; [exact Hrow|].
    inversion Hrest as [|? ? Ha Hrest']; subst.
    cbn [fold_left]. apply IH; [exact Hrest'|].
    rewrite length_zip_with. lia.
Qed.
End PrintCoeffs.

Section PrintCoeffsLines.
Context {F T : Type} `{Arith F}.
Variable format_g : bool -> option nat -> F -> string.
Variable str_float : F -> string.
Import Trace.

(** What [print_coeffs] yields for an array whose rows all have as many
    numbers as there are labels, in a system with a surface for every
    row: the header, a line per row and, if asked for, the line of the
    sums; no exception. *)
Lemma print_coeffs_yields (system : System F T) (coeff : ndarray)
    (labels : list string) (sum : bool) :
  columns coeff = length labels ->
  Forall (fun a => length a = columns coeff) (rows coeff) ->
  (length (rows coeff) <= length (elements system))%nat ->
  print_coeffs format_g str_float system coeff labels sum
  = (line "#" "T" (map field_s labels)
     :: data_lines format_g (elements system) 0 (rows coeff)
     ++ (if sum then [line " ∑" "" (map (field_g format_g) (sum0 coeff))] else []),
     None).
Proof.
  intros Hcols Hrows Hlen. unfold print_coeffs.
  rewrite (py_format_head format_g str_float _ _ (Str "#") (Str "T") _ _ _
             eq_refl eq_refl (py_format_labels format_g str_float labels)).
  cbn [yield]. rewrite <- Hcols.
  assert (py_format format_g str_float
            (fmt_head ++ repeat (Conv true 10 (Some 4%nat) conv_g) (columns coeff))
            ([Str " ∑"; Str ""] ++ map Num (sum0 coeff))
          = Returns (line " ∑" "" (map (field_g format_g) (sum0 coeff)))) as Hsum.
  { rewrite <- (length_sum0 coeff Hrows) at 1.
    apply (py_format_head format_g str_float _ _ (Str " ∑") (Str ""));
      [reflexivity | reflexivity | apply py_format_numbers]. }
  rewrite Hsum.
  change 0 with (Z.of_nat 0).
  rewrite (print_rows_lines format_g str_float system (columns coeff))
    by (assumption || lia).
  destruct sum; reflexivity.
Qed.

(** C7: for an array of 5 rows and 3 columns, with its 3 labels and a
    system that has the 5 surfaces, [print_coeffs] yields 7 lines with
    [sum=True], the header, a line per row and the line of the sums, and
    6 lines with [sum=False]. The line of row [i] begins with the index
    [i] and the type of surface [i], and each of its numbers is under
    [% 10.4g], four significant digits. *)
Theorem print_coeffs_lines (system : System F T) (coeff : ndarray)
    (labels : list string) (sum : bool) :
  length (rows coeff) = 5%nat ->
  columns coeff = 3%nat ->
  Forall (fun a => length a = 3%nat) (rows coeff) ->
  length labels = 3%nat ->
  (5 <= length (elements system))%nat ->
  exists lines : list string,
    print_coeffs format_g str_float system coeff labels sum = (lines, None) /\
    length lines = (if sum then 7 else 6)%nat /\
    lines !! 0%nat = Some (line "#" "T" (map field_s labels)) /\
    (forall (i : nat) (a : list F) (el : Element F T),
       rows coeff !! i = Some a -> elements system !! i = Some el ->
       lines !! S i
       = Some (rjust 2 (py_str_int (Z.of_nat i)) ++ " " ++ rjust 1 (typ el)
               ++ join (map (fun x => rjust 10 (format_g true (Some 4%nat) x)) a))%string) /\
    (sum = true ->
       lines !! 6%nat = Some (line " ∑" "" (map (field_g format_g) (sum0 coeff)))).
Proof.
  intros Hrows Hcols Hall Hlabels Hsys.
  eexists. split.
  { apply print_coeffs_yields.
    - congruence.
    - rewrite Hcols. exact Hall.
    - lia. }
  split; [|split; [|split]].
  - cbn [length]. rewrite length_app, length_data_lines, Hrows.
    destruct sum; reflexivity.
  - reflexivity.
  - intros i a el Ha Hel. rewrite lookup_cons.
    rewrite lookup_app_l
      by (rewrite length_data_lines; apply lookup_lt_is_Some; eauto).
    apply (lookup_data_lines format_g (elements system) 0 i (rows coeff) a el Ha Hel).
  - intros ->. rewrite lookup_cons.
    rewrite lookup_app_r by (rewrite length_data_lines; lia).
    rewrite length_data_lines, Hrows. reflexivity.
Qed.
End PrintCoeffsLines.

(** ** A sample table *)

(** The table of [sample_coeffs] for [five_surfaces], with the line of the
    sums. *)
Lemma print_coeffs_lines_witness :
  exists lines : list string,
    Trace.print_coeffs format_whole (format_whole false None) five_surfaces
      sample_coeffs ["SA3"; "CMA3"; "AST3"] true = (lines, None) /\
    length lines = 7%nat /\
    lines !! 0%nat = Some (line "#" "T" (map field_s ["SA3"; "CMA3"; "AST3"])) /\
    (forall (i : nat) (a : list float) (el : Element float unit),
       Trace.rows sample_coeffs !! i = Some a ->
       elements five_surfaces !! i = Some el ->
       lines !! S i
       = Some (rjust 2 (py_str_int (Z.of_nat i)) ++ " " ++ rjust 1 (typ el)
               ++ join (map (fun x => rjust 10 (format_whole true (Some 4%nat) x)) a))%string) /\
    (true = true ->
       lines !! 6%nat
       = Some (line " ∑" "" (map (field_g format_whole) (Trace.sum0 sample_coeffs)))).
Proof.
  refine (print_coeffs_lines format_whole (format_whole false None) five_surfaces
            sample_coeffs ["SA3"; "CMA3"; "AST3"] true eq_refl eq_refl _ eq_refl _).
  - repeat constructor.
  - simpl. lia.
Defined.

(** The seven lines of the sample table. *)
Example print_coeffs_sample :
  Trace.print_coeffs format_whole (format_whole false None) five_surfaces
    sample_coeffs ["SA3"; "CMA3"; "AST3"] true
  = ([" # T       SA3      CMA3      AST3";
      " 0 O         0         0         0";
      " 1 S        12        -3         4";
      " 2 A         0         0         0";
      " 3 S       -10         5         1";
      " 4 I         0         0         0";
      " ∑           2         2         5"], None).
Proof. vm_compute. reflexivity. Qed.

(** ** FullTrace: the pupil sampler *)
Section GetRays.
Variables sin cos : float -> float.
Variable random_rand : Z -> list float * list float.
Import FullTrace.

Abbreviation get_rays := (get_rays sin cos random_rand).

(** C4, as the code has it: a name that is none of the eight falls
    through every test, and [get_rays] returns [None]; nothing is
    raised. *)
Theorem get_rays_unknown (distribution : string) (nrays : Z) :
  ~ In distribution distributions ->
  get_rays distribution nrays = Returns None_.
Proof.
  intros Hd. unfold FullTrace.get_rays.
  repeat match goal with
  | |- context [String.eqb distribution ?name] =>
      destruct (String.eqb_spec distribution name) as [->|_];
        [exfalso; apply Hd; unfold distributions; simpl; tauto|]
  end.
  reflexivity.
Qed.

Lemma bind_twice {A B : Type} (r : result A) (k : A -> A -> result B) :
  (x <- r ;; y <- r ;; k x y) = (x <- r ;; k x x).
Proof. destruct r; reflexivity. Qed.

Lemma clip_in_unit_disk (xy : list (float * float)) (k : nat) (x y : float) :
  map fst (np.clip xy) !! k = Some x ->
  map snd (np.clip xy) !! k = Some y ->
  np.in_unit_disk (x, y) = true /\ In (x, y) xy.
Proof.
  intros Hx Hy. rewrite list_lookup_fmap in Hx, Hy.
  destruct (np.clip xy !! k) as [[x' y']|] eqn:Hk; [|discriminate].
  cbn in Hx, Hy. injection Hx as ->. injection Hy as ->.
  apply list_elem_of_lookup_2, list_elem_of_filter in Hk.
  destruct Hk as [Hdisk Hin]. split.
  - apply Is_true_true, Hdisk.
  - apply list_elem_of_In, Hin.
Qed.

(** C6: ["square"] and ["triangular"] give the same outcome for every
    [n]: the grid of [round(sqrt(4n/pi))] points a side over [-1, 1]^2,
    row after row, less the points outside the unit circle. *)
Theorem square_is_triangular (nrays : Z) :
  get_rays "square" nrays = get_rays "triangular" nrays /\
  get_rays "square" nrays =
    (n4 <- np.py_float (nrays * 4) ;;
     axis <- np.mgrid_axis (-1) 1
               (np.around (PrimFloat.sqrt (PrimFloat.div n4 np.pi))) ;;
     Returns (of_points (np.clip (np.ravel_grid axis axis)))) /\
  forall (xs ys : list float),
    get_rays "triangular" nrays = Returns (Points xs ys) ->
    length xs = length ys /\
    forall (k : nat) (x y : float),
      xs !! k = Some x -> ys !! k = Some y -> np.in_unit_disk (x, y) = true.
Proof.
  split; [reflexivity|]. split.
  - cbn. destruct (np.py_float (nrays * 4)) as [n4|e]; [|reflexivity].
    cbn [bind]. apply bind_twice.
  - intros xs ys. cbn.
    destruct (np.py_float (nrays * 4)) as [n4|e]; [|discriminate].
    cbn [bind]. rewrite bind_twice.
    destruct (np.mgrid_axis _ _ _) as [axis|e]; [|discriminate].
    cbn [bind]. unfold of_points. intros [= <- <-].
    split; [now rewrite !length_map|].
    intros k x y Hx Hy. apply (clip_in_unit_disk _ k x y Hx Hy).
Qed.
End GetRays.

(** ** The sampler on examples *)

(** C4 fails as stated: ["spiral"] is none of the eight names, and
    [get_rays("spiral", 100)] returns [None] where the claim has it raise
    a ConfigurationError. *)
Lemma get_rays_unknown_counterexample :
  ~ In "spiral" distributions /\
  FullTrace.get_rays poly_sin poly_cos fixed_draws "spiral" 100
    = Returns FullTrace.None_ /\
  FullTrace.get_rays poly_sin poly_cos fixed_draws "spiral" 100
    <> Raises "ConfigurationError".
Proof.
  split; [|split].
  - unfold distributions. simpl. intuition discriminate.
  - reflexivity.
  - discriminate.
Qed.

(** ["spiral"] is none of the eight names. *)
Lemma get_rays_unknown_witness :
  FullTrace.get_rays poly_sin poly_cos fixed_draws "spiral" 100
    = Returns FullTrace.None_.
Proof.
  apply (get_rays_unknown poly_sin poly_cos fixed_draws "spiral" 100).
  unfold distributions. simpl. intuition discriminate.
Defined.

(** With [n = 5] both are the 3 by 3 grid less its four corners. *)
Lemma square_is_triangular_witness :
  FullTrace.get_rays poly_sin poly_cos fixed_draws "square" 5
    = FullTrace.get_rays poly_sin poly_cos fixed_draws "triangular" 5 /\
  FullTrace.get_rays poly_sin poly_cos fixed_draws "triangular" 5
    = Returns (FullTrace.Points [-1; 0; 0; 0; 1] [0; -1; 0; 1; 0])%float.
Proof.
  split.
  - apply (square_is_triangular poly_sin poly_cos fixed_draws 5).
  - vm_compute. reflexivity.
Defined.

(** ** The hexapolar pattern: how many points *)
Section Hexapolar.
Variables sin cos : float -> float.
Variable random_rand : Z -> list float * list float.
Import FullTrace.

Lemma arange_length_spec (start stop step : float) :
  (a <- np.arange start stop step ;; Returns (length a))
  = arange_length start stop step.
Proof.
  unfold np.arange, arange_length.
  destruct (Prim2SF _) as [s|s| |s m e]; try reflexivity.
  cbn [bind].
  now rewrite length_map, length_py_range, Z.sub_0_r.
Qed.

Lemma hexapolar_count (r : Z) (rings : list Z) (l : list (float * float)) :
  (l' <- for_each (hexapolar_body sin cos r) rings l ;; Returns (Z.of_nat (length l')))
  = for_each count_body rings (Z.of_nat (length l)).
Proof.
  revert l. induction rings as [|i rings IH]; intros l; [reflexivity|].
  cbn [for_each]. unfold hexapolar_body at 1, count_body at 1, ring_points.
  rewrite <- arange_length_spec.
  destruct (np.arange _ _ _) as [a|e]; [|reflexivity].
  cbn [bind]. rewrite IH. unfold ring.
  now rewrite length_app, length_map, Nat2Z.inj_add.
Qed.

Lemma get_rays_hexapolar (n : Z) :
  get_rays sin cos random_rand "hexapolar" n
  = (r <- ring_count n ;;
     l <- for_each (hexapolar_body sin cos r) (py_range 1 (r + 1)) [(0%float, 0%float)] ;;
     Returns (of_points l)).
Proof.
  unfold ring_count. cbn.
  destruct (np.py_float n) as [nf|e]; reflexivity.
Qed.

(** Once the rings are counted, the points are returned, as many as
    counted. *)
Lemma get_rays_hexapolar_length (n r k : Z) :
  ring_count n = Returns r ->
  for_each count_body (py_range 1 (r + 1)) 1 = Returns k ->
  exists xs ys : list float,
    get_rays sin cos random_rand "hexapolar" n = Returns (Points xs ys) /\
    Z.of_nat (length xs) = k /\ Z.of_nat (length ys) = k.
Proof.
  intros Hr Hk. rewrite get_rays_hexapolar, Hr. cbn [bind].
  pose proof (hexapolar_count r (py_range 1 (r + 1)) [(0%float, 0%float)]) as Hcount.
  change (Z.of_nat (length [(0%float, 0%float)])) with 1 in Hcount.
  rewrite Hk in Hcount.
  destruct (for_each (hexapolar_body sin cos r) _ _) as [l|e]; [|discriminate].
  cbn [bind] in Hcount. cbn [bind]. injection Hcount as Hl.
  eexists _, _. split; [reflexivity|]. now rewrite !length_map.
Qed.

(** C5 at [n = 40021 = 3*115^2 + 3*115 + 1]: 115 rings are solved for,
    so that the claim has [1 + 6*(1 + ... + 115) = 40021] points; the
    code returns 40022. Ring 115 has 691 points, not 690: the step
    [2*pi/690] rounds down, [2*pi] divided by it rounds to the float
    above 690, and [np.arange] takes the ceiling of that for its
    length. *)
Theorem hexapolar_extra_point :
  ring_count 40021 = Returns 115 /\
  1 + 6 * fold_right Z.add 0 (py_range 1 116) = 40021 /\
  ring_points 115 = Returns 691%nat /\
  exists xs ys : list float,
    get_rays sin cos random_rand "hexapolar" 40021 = Returns (Points xs ys) /\
    Z.of_nat (length xs) = 40022 /\
    Z.of_nat (length ys) = 40022.
Proof.
  split; [vm_compute; reflexivity|].
  split; [vm_compute; reflexivity|].
  split; [vm_compute; reflexivity|].
  apply (get_rays_hexapolar_length 40021 115 40022).
  - vm_compute. reflexivity.
  - vm_compute. reflexivity.
Qed.
End Hexapolar.

(** ** The hexapolar pattern below 115 rings *)
Section HexapolarSmall.
Variables sin cos : float -> float.
Variable random_rand : Z -> list float * list float.

Lemma py_range_snoc (a b : Z) : a <= b -> py_range a (b + 1) = py_range a b ++ [b].
Proof.
  intros Hab. unfold py_range.
  replace (Z.to_nat (b + 1 - a)) with (Z.to_nat (b - a) + 1)%nat by lia.
  rewrite seq_app, map_app. cbn [seq map]. do 2 f_equal. lia.
Qed.

Lemma for_each_app {A S : Type} (body : A -> S -> result S) (l1 l2 : list A) (s : S) :
  for_each body (l1 ++ l2) s = (s' <- for_each body l1 s ;; for_each body l2 s').
Proof.
  revert s. induction l1 as [|a l1 IH]; intros s; [reflexivity|].
  cbn [app for_each]. destruct (body a s) as [s'|e]; [|reflexivity].
  cbn [bind]. apply IH.
Qed.

(** Every ring before the 115th has its [6*i] points. *)
Lemma rings_below_115 (i : Z) :
  1 <= i < 115 -> ring_points i = Returns (Z.to_nat (6 * i)).
Proof.
  intros Hi.
  assert (forallb (fun i => match ring_points i with
                            | Returns m => Nat.eqb m (Z.to_nat (6 * i))
                            | Raises _ => false
                            end) (py_range 1 115) = true) as Hall
    by (vm_compute; reflexivity).
  rewrite forallb_forall in Hall. specialize (Hall i).
  destruct (ring_points i) as [m|e].
  - f_equal. apply Nat.eqb_eq, Hall.
    unfold py_range. apply in_map_iff. exists (Z.to_nat (i - 1)).
    split; [lia|]. apply in_seq. lia.
  - discriminate Hall.
    unfold py_range. apply in_map_iff. exists (Z.to_nat (i - 1)).
    split; [lia|]. apply in_seq. lia.
Qed.

Lemma count_below_115 (r : nat) :
  (r < 115)%nat ->
  for_each count_body (py_range 1 (Z.of_nat r + 1)) 1
  = Returns (1 + 3 * Z.of_nat r * (Z.of_nat r + 1)).
Proof.
  induction r as [|r IH]; intros Hr; [reflexivity|].
  rewrite py_range_snoc by lia. rewrite for_each_app.
  replace (Z.of_nat (S r)) with (Z.of_nat r + 1) by lia.
  rewrite IH by lia. cbn [bind for_each]. unfold count_body.
  rewrite rings_below_115 by lia. cbn [bind]. f_equal. lia.
Qed.

(** With fewer than 115 rings the pattern has the number of points C5
    gives it, [1 + 6*(1 + ... + r) = 1 + 3*r*(r + 1)]. *)
Lemma hexapolar_points_below_115 (n r : Z) :
  ring_count n = Returns r ->
  0 <= r < 115 ->
  exists xs ys : list float,
    FullTrace.get_rays sin cos random_rand "hexapolar" n
      = Returns (FullTrace.Points xs ys) /\
    Z.of_nat (length xs) = 1 + 3 * r * (r + 1) /\
    Z.of_nat (length ys) = 1 + 3 * r * (r + 1).
Proof.
  intros Hcount Hr.
  apply (get_rays_hexapolar_length sin cos random_rand n r); [exact Hcount|].
  rewrite <- (Z2Nat.id r) by lia. apply count_below_115. lia.
Qed.
End HexapolarSmall.


(** * More properties *)


(** An index at or beyond the length is out of range. *)
Lemma py_index_out (len k : nat) : (len <= k)%nat -> py_index len (Z.of_nat k) = None.
Proof.
  intros Hk. unfold py_index.
  replace (Z.of_nat k <? Z.of_nat len) with false by (symmetry; apply Z.ltb_ge; lia).
  replace (Z.of_nat k <? 0) with false by (symmetry; apply Z.ltb_ge; lia).
  now rewrite !andb_false_r.
Qed.

(** ** Trace: [print_coeffs] on arrays of any shape, and when it fails *)
Section PrintCoeffsEdges.
Context {F T : Type} `{Arith F}.
Variable format_g : bool -> option nat -> F -> string.
Variable str_float : F -> string.
Import Trace.

Abbreviation header labels := (line "#" "T" (map field_s labels)).

(** Numbers that are more or fewer than the conversions of the format. *)
Lemma py_format_numbers_mismatch (k : nat) (xs : list F) :
  length xs <> k ->
  py_format format_g str_float (repeat (Conv true 10 (Some 4%nat) conv_g) k) (map Num xs)
  = Raises "TypeError".
Proof.
  revert xs. induction k as [|k IH]; intros [|x xs] Hlen; cbn in Hlen |-; try lia.
  - reflexivity.
  - reflexivity.
  - cbn [repeat map Trace.py_format convert bind].
    rewrite IH by (cbn in Hlen; lia). reflexivity.
Qed.

Lemma py_format_row_mismatch (k : nat) (a b : arg) (xs : list F) :
  length xs <> k ->
  py_format format_g str_float
    (fmt_head ++ repeat (Conv true 10 (Some 4%nat) conv_g) k) ([a; b] ++ map Num xs)
  = Raises "TypeError".
Proof.
  intros Hlen. cbn [fmt_head app Trace.py_format].
  rewrite (py_format_numbers_mismatch k xs Hlen).
  destruct a, b; reflexivity.
Qed.

(** The rows before a row of the wrong length are printed, and that row
    ends the loop with [TypeError]. *)
Lemma print_rows_mismatch (system : System F T) (k : nat)
    (good : list (list F)) (bad : list F) (rest : list (list F))
    (i : nat) (after : generated) :
  Forall (fun a => length a = k) good ->
  length bad <> k ->
  (i + length good < length (elements system))%nat ->
  print_rows format_g str_float system
    (fmt_head ++ repeat (Conv true 10 (Some 4%nat) conv_g) k)
    (Z.of_nat i) (good ++ bad :: rest) after
  = (data_lines format_g (elements system) i good, Some "TypeError").
Proof.
  revert i. induction good as [|a good IH]; intros i Hgood Hbad Hlen.
  - rewrite app_nil_l. cbn [Trace.print_rows data_lines].
    destruct (lookup_lt_is_Some_2 (elements system) i) as [el Hel];
      [cbn in Hlen; lia|].
    rewrite (py_getitem_nat _ _ _ Hel). cbn [bind].
    rewrite (py_format_row_mismatch k _ _ bad Hbad). reflexivity.
  - inversion Hgood as [|? ? Ha Hgood']; subst. cbn [length] in Hlen.
    destruct (lookup_lt_is_Some_2 (elements system) i) as [el Hel]; [lia|].
    rewrite <- app_comm_cons. cbn [Trace.print_rows data_lines].
    rewrite (py_getitem_nat _ _ _ Hel), Hel. cbn [bind].
    rewrite (py_format_head format_g str_float _ _ (Int (Z.of_nat i)) (Str (typ el))
               _ _ _ eq_refl eq_refl (py_format_numbers format_g str_float a)).
    replace (Z.of_nat i + 1) with (Z.of_nat (S i)) by lia.
    rewrite IH by (assumption || lia). reflexivity.
Qed.

(** The rows that have a surface are printed, and the first row without
    one ends the loop with [IndexError]. *)
Lemma print_rows_short_system (system : System F T) (k : nat)
    (coeff : list (list F)) (i : nat) (after : generated) :
  Forall (fun a => length a = k) coeff ->
  (i <= length (elements system) < i + length coeff)%nat ->
  print_rows format_g str_float system
    (fmt_head ++ repeat (Conv true 10 (Some 4%nat) conv_g) k)
    (Z.of_nat i) coeff after
  = (data_lines format_g (elements system) i
       (take (length (elements system) - i) coeff), Some "IndexError").
Proof.
  revert i. induction coeff as [|a coeff IH]; intros i Hk Hlen.
  - cbn in Hlen. lia.
  - inversion Hk as [|? ? Ha Hk']; subst. cbn [length] in Hlen.
    cbn [Trace.print_rows].
    destruct (decide (i = length (elements system))) as [->|Hne].
    + rewrite Nat.sub_diag. cbn [take data_lines].
      unfold py_getitem. rewrite py_index_out by lia. reflexivity.
    + destruct (lookup_lt_is_Some_2 (elements system) i) as [el Hel]; [lia|].
      rewrite (py_getitem_nat _ _ _ Hel). cbn [bind].
      rewrite (py_format_head format_g str_float _ _ (Int (Z.of_nat i)) (Str (typ el))
                 _ _ _ eq_refl eq_refl (py_format_numbers format_g str_float a)).
      replace (Z.of_nat i + 1) with (Z.of_nat (S i)) by lia.
      rewrite IH by (assumption || lia).
      replace (length (elements system) - i)%nat
        with (S (length (elements system) - S i)) by lia.
      cbn [take data_lines yield fst snd]. rewrite Hel. reflexivity.
Qed.
End PrintCoeffsEdges.


Section PrintCoeffsShapes.
Context {F T : Type} `{Arith F}.
Variable format_g : bool -> option nat -> F -> string.
Variable str_float : F -> string.
Import Trace.


(** X2: a row with more or fewer numbers than there are labels stops
    [print_coeffs] with [TypeError]: the header and the rows before it
    have been yielded, the other rows and the sums never are. *)
Theorem print_coeffs_wrong_row (system : System F T) (coeff : ndarray)
    (labels : list string) (sum : bool)
    (good : list (list F)) (bad : list F) (rest : list (list F)) :
  rows coeff = good ++ bad :: rest ->
  Forall (fun a => length a = length labels) good ->
  length bad <> length labels ->
  (length good < length (elements system))%nat ->
  print_coeffs format_g str_float system coeff labels sum
  = (line "#" "T" (map field_s labels)
     :: data_lines format_g (elements system) 0 good, Some "TypeError").
Proof.
  intros Hrows Hgood Hbad Hlen. unfold print_coeffs.
  rewrite (py_format_head format_g str_float _ _ (Str "#") (Str "T") _ _ _
             eq_refl eq_refl (py_format_labels format_g str_float labels)).
  cbn [yield]. rewrite Hrows. change 0 with (Z.of_nat 0).
  rewrite (print_rows_mismatch format_g str_float system (length labels))
    by (assumption || lia).
  reflexivity.
Qed.

(** X3: an array with more rows than the system has surfaces stops
    [print_coeffs] with [IndexError] once the surfaces are used up: the
    header and one line per surface have been yielded. *)
Theorem print_coeffs_missing_surface (system : System F T) (coeff : ndarray)
    (labels : list string) (sum : bool) :
  Forall (fun a => length a = length labels) (rows coeff) ->
  (length (elements system) < length (rows coeff))%nat ->
  exists lines : list string,
    print_coeffs format_g str_float system coeff labels sum
    = (lines, Some "IndexError") /\
    length lines = S (length (elements system)).
Proof.
  intros Hrows Hlen. unfold print_coeffs.
  rewrite (py_format_head format_g str_float _ _ (Str "#") (Str "T") _ _ _
             eq_refl eq_refl (py_format_labels format_g str_float labels)).
  cbn [yield]. change 0 with (Z.of_nat 0).
  rewrite (print_rows_short_system format_g str_float system (length labels))
    by (assumption || lia).
  eexists. split; [reflexivity|].
  cbn [length fst]. rewrite length_data_lines, length_take. lia.
Qed.
End PrintCoeffsShapes.


(** The rows of [sample_coeffs] have three numbers; with two labels the
    first row already fails. *)
Lemma print_coeffs_wrong_row_witness :
  Trace.print_coeffs format_whole (format_whole false None) five_surfaces
    sample_coeffs ["SA3"; "CMA3"] true
  = ([" # T       SA3      CMA3"], Some "TypeError").
Proof.
  refine (print_coeffs_wrong_row format_whole (format_whole false None) five_surfaces
            sample_coeffs ["SA3"; "CMA3"] true [] [0; 0; 0]%float
            [[12; -3; 4]; [0; 0; 0]; [-10; 5; 1]; [0; 0; 0]]%float
            eq_refl _ _ _).
  - constructor.
  - simpl. lia.
  - simpl. lia.
Defined.

(** The five rows of [sample_coeffs] against the three surfaces of
    [sample_system]. *)
Lemma print_coeffs_missing_surface_witness :
  exists lines : list string,
    Trace.print_coeffs format_whole (format_whole false None) (sample_system true)
      sample_coeffs ["SA3"; "CMA3"; "AST3"] true = (lines, Some "IndexError") /\
    length lines = 4%nat.
Proof.
  apply (print_coeffs_missing_surface format_whole (format_whole false None)
           (sample_system true) sample_coeffs ["SA3"; "CMA3"; "AST3"] true).
  - repeat constructor.
  - simpl. lia.
Defined.


(** ** ParaxialTrace: [propagate] over a part of the surfaces *)
Section PropagateRange.
Context {F T : Type} `{Arith F}.
Import ParaxialTrace.

(** The loop over the surfaces [k], ..., [k + m - 1], which all exist. *)
Lemma propagate_range (system : System F T) (P : nat -> state F T -> locals -> Prop) :
  (forall k el self loc,
     elements system !! k = Some el ->
     sized (length (elements system)) self ->
     P k self loc ->
     P (S k) (next_state el k self loc) (next_locals el k self loc)) ->
  forall (m k : nat) (self : state F T) (loc : locals),
    (k + m <= length (elements system))%nat ->
    sized (length (elements system)) self ->
    P k self loc ->
    exists self' loc',
      for_each (propagate_body system) (map Z.of_nat (seq k m)) (self, loc)
        = Returns (self', loc') /\
      sized (length (elements system)) self' /\
      P (k + m)%nat self' loc'.
Proof.
  intros Hstep m. induction m as [|m IH]; intros k self loc Hkm Hsized HP.
  - exists self, loc. rewrite Nat.add_0_r. auto.
  - destruct (lookup_lt_is_Some_2 (elements system) k) as [el Hel]; [lia|].
    cbn [seq map for_each].
    rewrite (propagate_body_runs system k el self loc Hel Hsized). cbn [bind].
    replace (k + S m)%nat with (S k + m)%nat by lia.
    apply IH.
    + lia.
    + apply next_state_sized, Hsized.
    + apply (Hstep k el self loc Hel Hsized HP).
Qed.

Lemma py_range_from (a n : nat) :
  py_range (Z.of_nat a) (Z.of_nat (a + n)) = map Z.of_nat (seq a n).
Proof.
  unfold py_range.
  replace (Z.to_nat (Z.of_nat (a + n) - Z.of_nat a)) with n by lia.
  revert a. induction n as [|n IH]; intros a; [reflexivity|].
  cbn [seq map]. f_equal; [lia|].
  rewrite <- IH, <- seq_shift, map_map.
  apply map_ext. intros k. lia.
Qed.

Lemma visited_range (system : System F T) (start stop : nat) :
  (0 < stop)%nat -> (start <= stop)%nat ->
  visited system (Z.of_nat start) (Some (Z.of_nat stop))
  = map Z.of_nat (seq start (stop - start)).
Proof.
  intros Hstop Hle. unfold visited, py_or.
  replace (Z.of_nat stop =? 0) with false by (symmetry; apply Z.eqb_neq; lia).
  rewrite <- py_range_from. do 2 f_equal. lia.
Qed.
End PropagateRange.


Section PropagatePart.
Context {F T : Type} `{Arith F}.
Import ParaxialTrace.


Lemma row0_of_sized (system : System F T) (self : state F T) :
  (0 < length (elements system))%nat ->
  sized (length (elements system)) self ->
  exists y0 u0,
    py_getitem (self_y self) 0 = Returns y0 /\
    py_getitem (self_u self) 0 = Returns u0.
Proof.
  intros Hlen (Hy & Hu & _).
  destruct (lookup_lt_is_Some_2 (self_y self) 0) as [y0 Hy0]; [lia|].
  destruct (lookup_lt_is_Some_2 (self_u self) 0) as [u0 Hu0]; [lia|].
  exists y0, u0. split.
  - apply (py_getitem_nat _ 0 _ Hy0).
  - apply (py_getitem_nat _ 0 _ Hu0).
Qed.


(** X5: [propagate(start, stop)] with [stop] beyond the last surface
    raises [IndexError], after the surfaces from [start] on have been
    gone through. *)
Theorem propagate_past_end (system : System F T) (self : state F T) (start stop : nat) :
  (0 < length (elements system))%nat ->
  (start <= length (elements system) < stop)%nat ->
  sized (length (elements system)) self ->
  propagate system self (Z.of_nat start) (Some (Z.of_nat stop)) = Raises "IndexError".
Proof.
  intros Hlen Hrange Hsized.
  destruct (row0_of_sized system self Hlen Hsized) as (y0 & u0 & Hy0 & Hu0).
  destruct (propagate_range system (fun _ _ _ => True) (fun _ _ _ _ _ _ _ => I)
              (length (elements system) - start) start self
              {| yu0 := transpose (y0, u0); n0 := None; z := fzero |})
    as (self' & loc' & Hrun & _ & _).
  { lia. } { exact Hsized. } { exact I. }
  unfold propagate. rewrite Hy0, Hu0. cbn [bind].
  rewrite visited_range by lia.
  replace (stop - start)%nat
    with ((length (elements system) - start)
          + S (stop - S (length (elements system))))%nat by lia.
  rewrite seq_app, map_app, for_each_app, Hrun. cbn [bind seq map for_each].
  replace (start + (length (elements system) - start))%nat
    with (length (elements system)) by lia.
  unfold propagate_body, py_getitem. rewrite py_index_out by lia. reflexivity.
Qed.

Lemma restarted_track_step (system : System F T) (start : nat)
    (k : nat) (el : Element F T) (self' : state F T) (loc : locals) :
  elements system !! k = Some el ->
  sized (length (elements system)) self' ->
  (0 < start <= k)%nat /\ restarted_track (elements system) start k self' loc ->
  (0 < start <= S k)%nat /\
  restarted_track (elements system) start (S k)
    (next_state el k self' loc) (next_locals el k self' loc).
Proof.
  intros Hel Hsized [Hk [Hz Hrows]]. split; [lia|].
  assert (k < length (elements system))%nat as Hlt
    by (apply lookup_lt_is_Some; eauto).
  assert (k < length (self_z self'))%nat as Hkz.
  { destruct Hsized as (_ & _ & _ & -> & _). exact Hlt. }
  assert (track (drop start (take (S k) (elements system)))
          = z loc +. thickness el) as Hnew.
  { rewrite (take_S_r _ _ _ Hel).
    rewrite drop_app_le by (rewrite length_take; lia).
    rewrite track_snoc, Hz. reflexivity. }
  assert ((0 <? Z.of_nat k) = true) as Hpos by (apply Z.ltb_lt; lia).
  split.
  - cbn. now rewrite Hpos, Hnew.
  - intros i Hi. unfold next_state. cbn. rewrite Hpos.
    destruct (decide (i = k)) as [->|Hne].
    + rewrite list_lookup_insert_eq by exact Hkz. now rewrite Hnew.
    + rewrite list_lookup_insert_ne by congruence. apply Hrows. lia.
Qed.

(** X6: [propagate(start)] from a surface after the object does not
    take up the axial position where row [start - 1] has it: [z] counts
    from 0 again, so that [z[i]] is the sum of the thicknesses of the
    surfaces [start] to [i], and [z[start]] the thickness of surface
    [start] alone. *)
Theorem propagate_restart (system : System F T) (self : state F T)
    (start : nat) (el : Element F T) :
  (0 < start)%nat ->
  elements system !! start = Some el ->
  sized (length (elements system)) self ->
  exists self' : state F T,
    propagate system self (Z.of_nat start) None = Returns self' /\
    self_z self' !! start = Some (fzero +. thickness el) /\
    forall i : nat, (start <= i < length (elements system))%nat ->
      self_z self' !! i
      = Some (track (drop start (take (S i) (elements system)))).
Proof.
  intros Hstart Hel Hsized.
  assert (start < length (elements system))%nat as Hlt
    by (apply lookup_lt_is_Some; eauto).
  destruct (row0_of_sized system self) as (y0 & u0 & Hy0 & Hu0); [lia | exact Hsized |].
  destruct (propagate_range system
              (fun k self' loc =>
                 (0 < start <= k)%nat /\
                 restarted_track (elements system) start k self' loc)
              (restarted_track_step system start)
              (length (elements system) - start) start self
              {| yu0 := transpose (y0, u0); n0 := None; z := fzero |})
    as (self' & loc' & Hrun & _ & _ & _ & Hrows).
  { lia. } { exact Hsized. }
  { split; [lia|]. split.
    - cbn. rewrite drop_ge by (rewrite length_take; lia). reflexivity.
    - intros i Hi. lia. }
  exists self'. unfold propagate. rewrite Hy0, Hu0. cbn [bind].
  unfold visited, py_or, Trace.trace_length.
  replace (Z.of_nat (length (elements system)))
    with (Z.of_nat (start + (length (elements system) - start))) by lia.
  rewrite py_range_from, Hrun. cbn [bind fst].
  split; [reflexivity|]. split.
  - rewrite Hrows by lia. rewrite (take_S_r _ _ _ Hel).
    rewrite drop_app_le by (rewrite length_take; lia).
    rewrite drop_ge by (rewrite length_take; lia). reflexivity.
  - intros i Hi. apply Hrows. lia.
Qed.
End PropagatePart.



(** [rational_system] has four surfaces. *)
Lemma propagate_past_end_witness :
  ParaxialTrace.propagate rational_system rational_start 0 (Some 5)
  = Raises "IndexError".
Proof.
  refine (propagate_past_end rational_system rational_start 0 5 _ _ _).
  - simpl. lia.
  - simpl. lia.
  - repeat split.
Defined.

(** From the second face of the lens of [rational_system] on. *)
Lemma propagate_restart_witness :
  exists self' : ParaxialTrace.state Qc unit,
    ParaxialTrace.propagate rational_system rational_start 2 None = Returns self' /\
    ParaxialTrace.self_z self' !! 2%nat = Some (0 + q 1 1)%Qc /\
    forall i : nat, (2 <= i < 4)%nat ->
      ParaxialTrace.self_z self' !! i
      = Some (track (drop 2 (take (S i) (elements rational_system)))).
Proof.
  refine (propagate_restart rational_system rational_start 2
            (surface "S" (q 1 1) (q (-1) 10) (q 1 1) (q 2 1)) _ _ _).
  - lia.
  - reflexivity.
  - repeat split.
Defined.


(** ** ParaxialTrace: [magnification] and [find_rays] at their edges *)
Section ParaxialEdges.
Context {F T : Type} `{Arith F}.
Variable linalg_inv : array22 F -> result (array22 F).
Import ParaxialTrace.

Lemma py_getitem_nil {A : Type} (i : Z) : py_getitem (@nil A) i = Raises "IndexError".
Proof.
  unfold py_getitem, py_index. cbn [length].
  change (Z.of_nat 0) with 0. change (- 0) with 0.
  destruct (Z.leb_spec 0 i), (Z.ltb_spec i 0); cbn; try reflexivity; lia.
Qed.

Lemma get2_nil (i j : Z) : get2 (@nil (F * F)) i j = Raises "IndexError".
Proof. unfold get2. now rewrite py_getitem_nil. Qed.

Lemma set2_nil (i j : Z) (x : F) : set2 (@nil (F * F)) i j x = Raises "IndexError".
Proof. unfold set2. now rewrite py_getitem_nil. Qed.

(** X7: with fewer than two rows in [n], [magnification] raises
    [IndexError]: there is no row [-2]. *)
Theorem magnification_too_short (self : state F T) :
  (length (self_n self) < 2)%nat ->
  magnification self = Raises "IndexError".
Proof.
  intros Hlen. unfold magnification.
  destruct (self_n self) as [|n_0 [|n_1 ns]]; [| |cbn in Hlen; lia].
  - reflexivity.
  - change (py_getitem [n_0] 0) with (Returns n_0). cbn [bind].
    destruct (self_u self) as [|u_0 us].
    + now rewrite get2_nil.
    + destruct (get2_row (u_0 :: us) 0 u_0 eq_refl) as [Hu _].
      rewrite_index Hu. reflexivity.
Qed.

(** X8: [find_rays] returns exactly when [np.linalg.inv] returns, the
    index of the stop is one of a surface and [y] and [u] have a row 0;
    an exception of [np.linalg.inv] is the one [find_rays] raises, and
    the other failures are [IndexError]. *)
Theorem find_rays_outcome (system : System F T) (self : state F T) :
  let m := paraxial_matrix system (wavelengths (object system))
             (aperture_index system + 1) in
  ((exists self', find_rays linalg_inv system self = Returns self') <->
   (exists mi, linalg_inv m = Returns mi) /\
   (exists el, py_getitem (elements system) (aperture_index system) = Returns el) /\
   (0 < length (self_y self))%nat /\ (0 < length (self_u self))%nat) /\
  (forall e, linalg_inv m = Raises e -> find_rays linalg_inv system self = Raises e) /\
  (forall mi e, linalg_inv m = Returns mi ->
     find_rays linalg_inv system self = Raises e -> e = "IndexError").
Proof.
  cbv zeta. split; [split|split].
  - intros [self' Hrun]. unfold find_rays in Hrun.
    destruct (linalg_inv _) as [mi|e]; [|discriminate].
    cbn [bind] in Hrun.
    destruct (py_getitem (elements system) _) as [el|e]; [|discriminate].
    cbn [bind] in Hrun.
    split; [eauto|]. split; [eauto|].
    destruct (self_y self) as [|y0 ys], (self_u self) as [|u0 us],
      (finite (object system));
      rewrite ?set2_nil in Hrun; cbn [bind] in Hrun;
      repeat (first [ rewrite (proj1 (set2_row0 _ _ _)) in Hrun
                    | rewrite (proj2 (set2_row0 _ _ _)) in Hrun
                    | rewrite set2_nil in Hrun ]; cbn [bind] in Hrun);
      try discriminate; cbn [length]; lia.
  - intros ([mi Hinv] & [el Hel] & Hy & Hu).
    destruct (find_rays_returns linalg_inv system self mi el Hinv Hel Hy Hu)
      as (self' & Hrun & _).
    eauto.
  - intros e He. unfold find_rays. now rewrite He.
  - intros mi e Hinv. unfold find_rays. rewrite Hinv. cbn [bind].
    destruct (py_getitem (elements system) _) as [el|e'] eqn:Hel.
    + cbn [bind].
      destruct (self_y self) as [|y0 ys], (self_u self) as [|u0 us],
        (finite (object system));
        repeat (first [ rewrite (proj1 (set2_row0 _ _ _))
                      | rewrite (proj2 (set2_row0 _ _ _))
                      | rewrite set2_nil ]; cbn [bind]);
        congruence.
    + cbn [bind]. intros [= <-]. revert Hel. unfold py_getitem.
      destruct (py_index _ _) as [k|]; [|congruence].
      destruct (elements system !! k); congruence.
Qed.

(** X9: [find_rays] writes row 0 of [y] and [u] only: the other rows of
    the two and every other array are as before. *)
Theorem find_rays_frame (system : System F T) (self self' : state F T) :
  find_rays linalg_inv system self = Returns self' ->
  tail (self_y self') = tail (self_y self) /\
  tail (self_u self') = tail (self_u self) /\
  length (self_y self') = length (self_y self) /\
  length (self_u self') = length (self_u self) /\
  self_z self' = self_z self /\ self_n self' = self_n self /\
  self_v self' = self_v self /\ self_c self' = self_c self /\
  self_d self' = self_d self /\ self_l self' = self_l self /\
  order self' = order self.
Proof.
  unfold find_rays.
  destruct (linalg_inv _) as [mi|e]; [|discriminate]. cbn [bind].
  destruct (py_getitem (elements system) _) as [el|e]; [|discriminate]. cbn [bind].
  destruct (self_y self) as [|y0 ys] eqn:Ey, (self_u self) as [|u0 us] eqn:Eu,
    (finite (object system));
    repeat (first [ rewrite (proj1 (set2_row0 _ _ _))
                  | rewrite (proj2 (set2_row0 _ _ _))
                  | rewrite set2_nil ]; cbn [bind]);
    try discriminate;
    intros [= <-]; cbn; rewrite ?Ey, ?Eu; repeat split; reflexivity.
Qed.
End ParaxialEdges.


(** [one_row_trace] has one row. *)
Lemma magnification_too_short_witness :
  ParaxialTrace.magnification one_row_trace = Raises "IndexError".
Proof.
  apply (magnification_too_short one_row_trace). simpl. lia.
Defined.

(** On [sample_system] with a finite object and arrays of three rows. *)
Lemma find_rays_frame_witness :
  exists self' : ParaxialTrace.state float unit,
    ParaxialTrace.find_rays (inv22 is_zero) (sample_system true) (allocated 3 4 nan)
      = Returns self' /\
    tail (ParaxialTrace.self_y self') = [(nan, nan); (nan, nan)] /\
    tail (ParaxialTrace.self_u self') = [(nan, nan); (nan, nan)] /\
    ParaxialTrace.self_z self' = [nan; nan; nan].
Proof.
  eexists. split; [vm_compute; reflexivity|].
  match goal with
  | |- tail (ParaxialTrace.self_y ?s) = _ /\ _ =>
      destruct (find_rays_frame (inv22 is_zero) (sample_system true)
                  (allocated 3 4 nan) s) as (Hy & Hu & _ & _ & Hz & _);
        [vm_compute; reflexivity|]
  end.
  split; [exact Hy|]. split; [exact Hu | exact Hz].
Defined.

(** ** ParaxialTrace: the rays of [find_rays] at the stop *)
Section FindRaysStop.
Context {T : Type}.
Variable linalg_inv : array22 Qc -> result (array22 Qc).
Import ParaxialTrace.

(** X10: for an object at infinity, in exact arithmetic and with the
    inverse of the paraxial matrix for [mi]: the marginal ray
    [find_rays] writes into row 0 leaves the system of that matrix, which
    ends behind the stop, at the radius of the stop, and the chief ray
    leaves it on the axis. *)
Theorem find_rays_reaches_stop (system : System Qc T) (self : state Qc T)
    (mi : array22 Qc) (el : Element Qc T) :
  let m := paraxial_matrix system (wavelengths (object system))
             (aperture_index system + 1) in
  linalg_inv m = Returns mi ->
  is_inverse m mi ->
  at11 mi <> 0%Qc ->
  py_getitem (elements system) (aperture_index system) = Returns el ->
  (0 < length (self_y self))%nat ->
  (0 < length (self_u self))%nat ->
  finite (object system) = false ->
  exists (self' : state Qc T) (y0 u0 : Qc * Qc),
    find_rays linalg_inv system self = Returns self' /\
    self_y self' !! 0%nat = Some y0 /\
    self_u self' !! 0%nat = Some u0 /\
    height_after m (fst y0) (fst u0) = radius el /\
    height_after m (snd y0) (snd u0) = 0%Qc.
Proof.
  intros m Hinv (H00 & H01 & _ & _) Hmi11 Hel Hy Hu Hfin.
  destruct (find_rays_returns linalg_inv system self mi el Hinv Hel Hy Hu)
    as (self' & Hrun & Hrows).
  rewrite Hfin in Hrows. cbn zeta in Hrows. destruct Hrows as [Hy0 Hu0].
  exists self', (solved mi (radius el) (object_radius (object system))),
    (given (object_radius (object system))).
  split; [exact Hrun|]. split; [exact Hy0|]. split; [exact Hu0|].
  fold m in H00, H01. unfold height_after, solved, given. cbn.
  set (r := radius el). set (c := object_radius (object system)).
  split.
  - transitivity (r * (at00 m * at00 mi + at01 m * at10 mi)
                  - r * at10 mi / at11 mi
                    * (at00 m * at01 mi + at01 m * at11 mi))%Qc.
    + field. exact Hmi11.
    + rewrite H00, H01. ring.
  - transitivity (c / at11 mi * (at00 m * at01 mi + at01 m * at11 mi))%Qc.
    + field. exact Hmi11.
    + rewrite H01. ring.
Qed.
End FindRaysStop.

(** On [collimated_system]: the inverse is [[1, -4], [0, 1]], the
    marginal ray starts at height 2, the chief ray at height -12 with
    slope 3. *)
Lemma find_rays_reaches_stop_witness :
  exists (self' : ParaxialTrace.state Qc unit) (y0 u0 : Qc * Qc),
    ParaxialTrace.find_rays (inv22 Qc_is_zero) collimated_system (allocated 2 4 (q 0 1))
      = Returns self' /\
    ParaxialTrace.self_y self' !! 0%nat = Some y0 /\
    ParaxialTrace.self_u self' !! 0%nat = Some u0 /\
    height_after ((q 1 1, q 4 1), (q 0 1, q 1 1)) (fst y0) (fst u0) = q 2 1 /\
    height_after ((q 1 1, q 4 1), (q 0 1, q 1 1)) (snd y0) (snd u0) = 0%Qc.
Proof.
  eapply (find_rays_reaches_stop (inv22 Qc_is_zero) collimated_system
            (allocated 2 4 (q 0 1)) _ (surface "A" (q 4 1) (q 0 1) (q 1 1) (q 2 1))).
  - reflexivity.
  - repeat split; apply Qc_is_canon; reflexivity.
  - intros E. apply (f_equal this) in E. vm_compute in E. discriminate E.
  - reflexivity.
  - simpl. lia.
  - simpl. lia.
  - reflexivity.
Defined.


(** ** FullTrace: how many points the sampler returns *)
Section GetRaysCounts.
Variables sin cos : float -> float.
Variable random_rand : Z -> list float * list float.
Import FullTrace.

Abbreviation get_rays := (get_rays sin cos random_rand).

Lemma length_linspace (start stop : float) (num : Z) :
  length (np.linspace start stop num) = Z.to_nat num.
Proof.
  unfold np.linspace.
  destruct (Z.leb_spec num 0); [cbn; lia|].
  destruct (Z.eqb_spec num 1); [subst; reflexivity|].
  unfold np.indices.
  rewrite length_app, !length_map, length_py_range. cbn. lia.
Qed.

Lemma zeros_returns (n : Z) :
  0 <= n -> np.zeros n = Returns (repeat 0%float (Z.to_nat n)).
Proof.
  intros Hn. unfold np.zeros.
  destruct (Z.ltb_spec n 0); [lia | reflexivity].
Qed.

Lemma zeros_raises (n : Z) : n < 0 -> np.zeros n = Raises "ValueError".
Proof.
  intros Hn. unfold np.zeros.
  destruct (Z.ltb_spec n 0); [reflexivity | lia].
Qed.

(** X11: for [n >= 0], ["meridional"] returns [n] points of ordinate 0
    and ["sagittal"] the same points with the coordinates exchanged. A
    single point is at -1, the edge of the pupil; with two or more the
    last is at 1. *)
Theorem get_rays_on_axis (n : Z) :
  0 <= n ->
  exists xs : list float,
    get_rays "meridional" n = Returns (Points xs (repeat 0%float (Z.to_nat n))) /\
    get_rays "sagittal" n = Returns (Points (repeat 0%float (Z.to_nat n)) xs) /\
    length xs = Z.to_nat n /\
    (n = 1 -> xs = [(-1)%float]) /\
    (2 <= n -> last xs = Some 1%float).
Proof.
  intros Hn. exists (np.linspace (-1) 1 n). cbn.
  rewrite (zeros_returns n Hn). cbn [bind].
  split; [reflexivity|]. split; [reflexivity|].
  split; [apply length_linspace|]. split.
  - intros ->. reflexivity.
  - intros Hn2. unfold np.linspace.
    destruct (Z.leb_spec n 0); [lia|].
    destruct (Z.eqb_spec n 1); [lia|].
    apply last_snoc.
Qed.

(** X12: a negative [n] makes ["meridional"], ["sagittal"], ["cross"]
    and ["tee"] raise [ValueError]. *)
Theorem get_rays_negative (n : Z) :
  n < 0 ->
  get_rays "meridional" n = Raises "ValueError" /\
  get_rays "sagittal" n = Raises "ValueError" /\
  get_rays "cross" n = Raises "ValueError" /\
  get_rays "tee" n = Raises "ValueError".
Proof.
  intros Hn. cbn.
  rewrite (zeros_raises n Hn).
  rewrite (zeros_raises (n / 2)) by (apply Z.div_lt_upper_bound; lia).
  rewrite (zeros_raises (2 * n / 3)) by (apply Z.div_lt_upper_bound; lia).
  repeat split; reflexivity.
Qed.

(** X13: for [n >= 0], ["cross"] returns [2*(n/2)] points, which is [n]
    less one when [n] is odd, and ["tee"] returns [2*n/3 + n/3] points,
    which is [n] less one when 3 does not divide [n]. *)
Theorem get_rays_cross_tee (n : Z) :
  0 <= n ->
  (exists xs ys : list float,
     get_rays "cross" n = Returns (Points xs ys) /\
     Z.of_nat (length xs) = n - n mod 2 /\ length ys = length xs) /\
  (exists xs ys : list float,
     get_rays "tee" n = Returns (Points xs ys) /\
     Z.of_nat (length xs) = n - (if n mod 3 =? 0 then 0 else 1) /\
     length ys = length xs).
Proof.
  intros Hn. cbn.
  assert (0 <= n / 2) as H2 by (apply Z.div_pos; lia).
  assert (0 <= n / 3) as H3 by (apply Z.div_pos; lia).
  assert (0 <= 2 * n / 3) as H23 by (apply Z.div_pos; lia).
  rewrite (zeros_returns _ H2), (zeros_returns _ H3), (zeros_returns _ H23).
  cbn [bind]. split.
  - eexists _, _. split; [reflexivity|].
    rewrite !length_app, !length_linspace, !repeat_length.
    split; [|lia].
    pose proof (Z.div_mod n 2). lia.
  - eexists _, _. split; [reflexivity|].
    rewrite !length_app, !length_linspace, !repeat_length.
    split; [|lia].
    pose proof (Z.div_mod n 3). pose proof (Z.mod_pos_bound n 3).
    pose proof (Z.div_mod (2 * n) 3). pose proof (Z.mod_pos_bound (2 * n) 3).
    destruct (Z.eqb_spec (n mod 3) 0); lia.
Qed.
End GetRaysCounts.


(** Three points on the axis. *)
Lemma get_rays_on_axis_witness :
  exists xs : list float,
    FullTrace.get_rays poly_sin poly_cos fixed_draws "meridional" 3
      = Returns (FullTrace.Points xs [0; 0; 0]%float) /\
    FullTrace.get_rays poly_sin poly_cos fixed_draws "sagittal" 3
      = Returns (FullTrace.Points [0; 0; 0]%float xs) /\
    length xs = 3%nat /\
    (3 = 1 -> xs = [(-1)%float]) /\
    (2 <= 3 -> last xs = Some 1%float).
Proof.
  apply (get_rays_on_axis poly_sin poly_cos fixed_draws 3). lia.
Defined.

Lemma get_rays_negative_witness :
  FullTrace.get_rays poly_sin poly_cos fixed_draws "meridional" (-1) = Raises "ValueError" /\
  FullTrace.get_rays poly_sin poly_cos fixed_draws "sagittal" (-1) = Raises "ValueError" /\
  FullTrace.get_rays poly_sin poly_cos fixed_draws "cross" (-1) = Raises "ValueError" /\
  FullTrace.get_rays poly_sin poly_cos fixed_draws "tee" (-1) = Raises "ValueError".
Proof.
  apply (get_rays_negative poly_sin poly_cos fixed_draws (-1)). lia.
Defined.

(** Seven points asked for, six returned. *)
Lemma get_rays_cross_tee_witness :
  (exists xs ys : list float,
     FullTrace.get_rays poly_sin poly_cos fixed_draws "cross" 7
       = Returns (FullTrace.Points xs ys) /\
     Z.of_nat (length xs) = 6 /\ length ys = length xs) /\
  (exists xs ys : list float,
     FullTrace.get_rays poly_sin poly_cos fixed_draws "tee" 7
       = Returns (FullTrace.Points xs ys) /\
     Z.of_nat (length xs) = 6 /\ length ys = length xs).
Proof.
  apply (get_rays_cross_tee poly_sin poly_cos fixed_draws 7). lia.
Defined.

(** ** The hexapolar pattern with its rings complete *)
Section HexapolarRings.
Variables sin cos : float -> float.
Variable random_rand : Z -> list float * list float.

Lemma sum_to (r : nat) :
  6 * fold_right Z.add 0 (py_range 1 (Z.of_nat r + 1)) = 3 * Z.of_nat r * (Z.of_nat r + 1).
Proof.
  induction r as [|r IH]; [reflexivity|].
  replace (Z.of_nat (S r)) with (Z.of_nat r + 1) by lia.
  rewrite py_range_snoc by lia.
  rewrite fold_right_app. cbn [fold_right].
  assert (forall (l : list Z) (a : Z),
            fold_right Z.add a l = fold_right Z.add 0 l + a) as Hshift.
  { induction l as [|x l IHl]; intros a; cbn [fold_right]; [lia|].
    rewrite IHl. lia. }
  rewrite Hshift. lia.
Qed.

(** X14: when fewer than 115 rings are solved for, ["hexapolar"]
    returns the centre and [6*i] points for each ring [i], that is
    [1 + 6*(1 + ... + r)] points for [r] rings. *)
Theorem hexapolar_rings_complete (n r : Z) :
  ring_count n = Returns r ->
  0 <= r < 115 ->
  exists xs ys : list float,
    FullTrace.get_rays sin cos random_rand "hexapolar" n
      = Returns (FullTrace.Points xs ys) /\
    Z.of_nat (length xs) = 1 + 6 * fold_right Z.add 0 (py_range 1 (r + 1)) /\
    length ys = length xs.
Proof.
  intros Hcount Hr.
  destruct (hexapolar_points_below_115 sin cos random_rand n r Hcount Hr)
    as (xs & ys & Hrun & Hxs & Hys).
  exists xs, ys. split; [exact Hrun|]. split; [|lia].
  rewrite Hxs, <- (Z2Nat.id r) by lia. rewrite sum_to. lia.
Qed.
End HexapolarRings.

(** Nineteen points: the centre and two rings. *)
Lemma hexapolar_rings_complete_witness :
  exists xs ys : list float,
    FullTrace.get_rays poly_sin poly_cos fixed_draws "hexapolar" 19
      = Returns (FullTrace.Points xs ys) /\
    Z.of_nat (length xs) = 1 + 6 * (1 + 2) /\
    length ys = length xs.
Proof.
  apply (hexapolar_rings_complete poly_sin poly_cos fixed_draws 19 2).
  - vm_compute. reflexivity.
  - lia.
Defined.


(** ** ParaxialTrace: construction *)
Section Construction.
Context {F T : Type} `{Arith F} `{Elementary F}.
Variable linalg_inv : array22 F -> result (array22 F).
Import ParaxialTrace.

Lemma length_np_empty {A : Type} (junk : nat -> A) (n : nat) :
  length (np_empty junk n) = n.
Proof. unfold np_empty. now rewrite length_map, length_seq. Qed.

Lemma py_getitem_head {A : Type} (a : A) (l : list A) :
  py_getitem (a :: l) 0 = Returns a.
Proof. exact (py_getitem_nat (a :: l) 0 a eq_refl). Qed.

Lemma allocate_returns (mem : Paraxial.uninitialised) (system : System F T)
    (k : Z) (w : F) (ws : list F) :
  wavelengths (object system) = w :: ws ->
  0 <= k ->
  exists self : state F T,
    Paraxial.allocate mem system k = Returns self /\
    sized (length (elements system)) self /\
    length (self_l self) = 3%nat /\
    self_l self !! 0%nat = Some w /\
    order self = Z.to_nat k.
Proof.
  intros Hw Hk. unfold Paraxial.allocate. rewrite Hw, py_getitem_head.
  cbn [bind py_min py_max].
  destruct (Z.ltb_spec k 0) as [Hneg|_]; [lia|].
  eexists. split; [reflexivity|].
  unfold sized. cbn. rewrite !length_np_empty. repeat split; reflexivity.
Qed.


Lemma find_rays_sized (system : System F T) (self self' : state F T) (len : nat) :
  find_rays linalg_inv system self = Returns self' ->
  sized len self -> sized len self'.
Proof.
  unfold find_rays, sized.
  destruct (linalg_inv _) as [mi|e]; [|discriminate]. cbn [bind].
  destruct (py_getitem (elements system) _) as [el|e]; [|discriminate]. cbn [bind].
  destruct (self_y self) as [|y0 ys] eqn:Ey, (self_u self) as [|u0 us] eqn:Eu,
    (finite (object system));
    repeat (first [ rewrite (proj1 (set2_row0 _ _ _))
                  | rewrite (proj2 (set2_row0 _ _ _))
                  | rewrite set2_nil ]; cbn [bind]);
    try discriminate;
    intros [= <-]; cbn; tauto.
Qed.

Lemma propagate_returns (system : System F T) (self : state F T) :
  (0 < length (elements system))%nat ->
  sized (length (elements system)) self ->
  exists self' : state F T,
    propagate system self 0 None = Returns self' /\
    sized (length (elements system)) self' /\
    forall i : nat, (i < length (elements system))%nat ->
      self_z self' !! i = Some (track (drop 1 (take (S i) (elements system)))).
Proof.
  intros Hlen Hp.
  destruct (lookup_lt_is_Some_2 (self_y self) 0) as [py0 Hpy0];
    [destruct Hp as (-> & _); exact Hlen|].
  destruct (lookup_lt_is_Some_2 (self_u self) 0) as [pu0 Hpu0];
    [destruct Hp as (_ & -> & _); exact Hlen|].
  destruct (propagate_loop system (paraxial_track (elements system))
              (paraxial_track_step system)
              (length (elements system)) 0%nat self
              {| yu0 := transpose (py0, pu0); n0 := None; z := fzero |})
    as (self' & loc & Hrun & Hsized & _ & Hrows).
  { lia. } { exact Hp. } { split; [reflexivity | intros i Hi; lia]. }
  exists self'. split; [|split; [exact Hsized | exact Hrows]].
  unfold propagate.
  rewrite_index (py_getitem_nat _ 0 _ Hpy0).
  rewrite_index (py_getitem_nat _ 0 _ Hpu0).
  rewrite visited_default, Hrun. reflexivity.
Qed.

(** X16: [ParaxialTrace(system, k)] followed by [propagate()]: when the
    object has a wavelength, [k] is not negative, the paraxial matrix up
    to the stop has an inverse and the aperture index names a surface,
    the constructor returns a trace with one row per surface, and
    [propagate()] on it returns too. *)
Theorem init_then_propagate (mem : Paraxial.uninitialised) (system : System F T)
    (k : Z) (mi : array22 F) (el : Element F T) :
  wavelengths (object system) <> [] ->
  0 <= k ->
  linalg_inv (paraxial_matrix system (wavelengths (object system))
                (aperture_index system + 1)) = Returns mi ->
  py_getitem (elements system) (aperture_index system) = Returns el ->
  exists self self' : state F T,
    Paraxial.init linalg_inv mem system k = Returns self /\
    sized (length (elements system)) self /\
    propagate system self 0 None = Returns self' /\
    sized (length (elements system)) self'.
Proof.
  intros Hw Hk Hinv Hel.
  destruct (wavelengths (object system)) as [|w ws] eqn:Ew; [congruence|].
  destruct (allocate_returns mem system k w ws Ew Hk)
    as (self0 & Hall & Hsized & _).
  assert (0 < length (elements system))%nat as Hlen.
  { destruct (elements system); [|simpl; lia].
    rewrite py_getitem_nil in Hel. discriminate. }
  rewrite <- Ew in Hinv.
  destruct (find_rays_returns linalg_inv system self0 mi el Hinv Hel)
    as (self & Hfind & _).
  { destruct Hsized as (-> & _). exact Hlen. }
  { destruct Hsized as (_ & -> & _). exact Hlen. }
  pose proof (find_rays_sized system self0 self _ Hfind Hsized) as Hsized'.
  destruct (propagate_returns system self Hlen Hsized') as (self' & Hrun & Hs & _).
  exists self, self'. split; [|auto].
  unfold Paraxial.init. rewrite Hall. exact Hfind.
Qed.
End Construction.

(** On [sample_system], whose stop is surface 1. *)
Lemma init_then_propagate_witness :
  exists self self' : ParaxialTrace.state float unit,
    Paraxial.init (inv22 is_zero) nan_memory (sample_system false) 4 = Returns self /\
    sized 3 self /\
    ParaxialTrace.propagate (sample_system false) self 0 None = Returns self' /\
    sized 3 self'.
Proof.
  refine (init_then_propagate (inv22 is_zero) nan_memory (sample_system false) 4
            ((1, -1), (0, 1))%float
            (surface "A" 1%float 0%float 1%float 2%float) _ _ _ _).
  - discriminate.
  - lia.
  - reflexivity.
  - reflexivity.
Defined.

(** Without a wavelength there is no trace. *)
Example allocate_dark :
  Paraxial.allocate nan_memory dark_system 4 = Raises "IndexError".
Proof. reflexivity. Qed.


(** ** ParaxialTrace: the solves *)
Section Solves.
Context {F T : Type} `{Arith F} `{Elementary F}.
Import ParaxialTrace.

(** X17: [size_elements()] keeps the surfaces in their places and
    changes the radius alone: surface 0, and a surface that has no row in
    [y], are left as they are; a surface [i >= 1] with a row gets the
    radius [|y[i, 0]| + |y[i, 1]|]. *)
Theorem size_elements_radii (system : System F T) (self : state F T)
    (i : nat) (e : Element F T) :
  elements system !! i = Some e ->
  length (elements (Paraxial.size_elements system self))
    = length (elements system) /\
  elements (Paraxial.size_elements system self) !! i =
    Some (match i, self_y self !! i with
          | S _, Some y => Paraxial.set_radius e (fabs (fst y) +. fabs (snd y))
          | _, _ => e
          end).
Proof.
  intros He. unfold Paraxial.size_elements. cbn [elements Paraxial.with_elements].
  destruct (elements system) as [|e0 els]; [discriminate He|].
  match goal with |- context [zip_with ?g _ _] => set (f := g) end.
  set (ys := drop 1 (self_y self)).
  assert (forall j, ys !! j = self_y self !! S j) as Hys
    by (intros j; unfold ys; now rewrite lookup_drop).
  change (take 1 (e0 :: els)) with (e0 :: take 0 els). rewrite take_0.
  change (drop 1 (e0 :: els)) with (drop 0 els). rewrite drop_0.
  change (drop (1 + length ys) (e0 :: els)) with (drop (length ys) els).
  split.
  - cbn [app length]. rewrite length_app, length_zip_with, length_drop. lia.
  - destruct i as [|j]; [exact He|].
    change (els !! j = Some e) in He.
    change (([e0] ++ zip_with f els ys ++ drop (length ys) els) !! S j)
      with ((zip_with f els ys ++ drop (length ys) els) !! j).
    rewrite <- Hys.
    pose proof (lookup_lt_Some _ _ _ He) as Hj.
    destruct (ys !! j) as [y|] eqn:Ey.
    + pose proof (lookup_lt_Some _ _ _ Ey) as Hjy.
      rewrite lookup_app_l by (rewrite length_zip_with; lia).
      rewrite lookup_zip_with, He. cbn. rewrite Ey. reflexivity.
    + apply lookup_ge_None in Ey.
      rewrite lookup_app_r by (rewrite length_zip_with; lia).
      rewrite length_zip_with, lookup_drop.
      replace (length ys + (j - length els `min` length ys))%nat with j by lia.
      exact He.
Qed.

Lemma py_getitem_outcome {A : Type} (l : list A) (i : Z) :
  py_getitem l i = Raises "IndexError" \/ exists a : A, py_getitem l i = Returns a.
Proof.
  unfold py_getitem. destruct (py_index _ _) as [k|]; [|now left].
  destruct (l !! k) as [a|]; [right; now exists a | now left].
Qed.

Lemma get2_outcome (a : list (F * F)) (i j : Z) :
  get2 a i j = Raises "IndexError" \/ exists x : F, get2 a i j = Returns x.
Proof.
  unfold get2. destruct (py_getitem_outcome a i) as [-> | [row ->]]; [now left|].
  cbn [bind]. apply py_getitem_outcome.
Qed.

(** X18: [focal_length_solve] sets no curvature: whatever the arrays,
    the focal length and the surface are, it raises [IndexError], from a
    row that [y] or [u] does not have or else from the two indices it
    gives to the one-dimensional [n]. *)
Theorem focal_length_solve_raises
    (set_curvature : System F T -> Z -> F -> result (System F T))
    (system : System F T) (self : state F T) (f : F) (i : option Z) :
  Paraxial.focal_length_solve set_curvature system self f i = Raises "IndexError".
Proof.
  unfold Paraxial.focal_length_solve.
  repeat match goal with
         | |- context [get2 ?a ?i ?j] =>
             destruct (get2_outcome a i j) as [-> | [? ->]];
             [reflexivity | cbn [bind]]
         end.
  reflexivity.
Qed.
End Solves.

(** The stop of [five_surfaces] gets the radius 2 + 0.5 from the rows
    of [sample_trace], which has no row for the image. *)
Lemma size_elements_radii_witness :
  length (elements (Paraxial.size_elements five_surfaces sample_trace)) = 5%nat /\
  radius <$> elements (Paraxial.size_elements five_surfaces sample_trace) !! 2%nat
    = Some 2.5%float /\
  radius <$> elements (Paraxial.size_elements five_surfaces sample_trace) !! 4%nat
    = Some 5%float.
Proof.
  split; [|split].
  - exact (proj1 (size_elements_radii five_surfaces sample_trace 2
                    (surface "A" 1%float 0%float 1.5%float 1%float) eq_refl)).
  - rewrite (proj2 (size_elements_radii five_surfaces sample_trace 2
                      (surface "A" 1%float 0%float 1.5%float 1%float) eq_refl)).
    reflexivity.
  - reflexivity.
Defined.

(** On the arrays of [sample_trace], for the last surface but one. *)
Example focal_length_solve_sample :
  Paraxial.focal_length_solve (fun system _ _ => Returns system)
    five_surfaces sample_trace 10%float None = Raises "IndexError".
Proof. vm_compute. reflexivity. Qed.


(** ** ParaxialTrace: the derived properties of a propagated trace *)
Section TrackLength.
Context {T : Type}.
Import ParaxialTrace.

Lemma track_app (a b : list (Element Qc T)) :
  track (a ++ b) = (track a + track b)%Qc.
Proof.
  induction b as [|e b IH] using rev_ind.
  - rewrite app_nil_r. unfold track at 3. cbn. ring.
  - rewrite app_assoc, !track_snoc, IH. cbn. ring.
Qed.

(** X19: [propagate()] followed by [track], in exact arithmetic: for
    three surfaces or more the track length is the sum of the
    thicknesses of the surfaces 2 to [length - 2], so that neither the
    distance of the object nor that of the image counts; for an object
    and an image alone it is minus the thickness of the image. *)
Theorem track_after_propagate (system : System Qc T) (self : state Qc T) :
  (2 <= length (elements system))%nat ->
  sized (length (elements system)) self ->
  exists self' : state Qc T,
    propagate system self 0 None = Returns self' /\
    ((3 <= length (elements system))%nat ->
       Paraxial.track self'
       = Returns (track (drop 2 (take (length (elements system) - 1)
                                      (elements system))))) /\
    (forall image : Element Qc T,
       length (elements system) = 2%nat ->
       elements system !! 1%nat = Some image ->
       Paraxial.track self' = Returns (- thickness image)%Qc).
Proof.
  intros Hlen Hsized.
  destruct (propagate_returns system self) as (self' & Hrun & Hsized' & Hz);
    [lia | exact Hsized |].
  exists self'. split; [exact Hrun|].
  assert (length (self_z self') = length (elements system)) as Hzlen
    by apply Hsized'.
  assert (Paraxial.track self'
          = Returns (track (drop 1 (take (length (elements system) - 1)
                                         (elements system)))
                     - track (drop 1 (take 2 (elements system))))%Qc) as Htrack.
  { unfold Paraxial.track.
    rewrite_index (py_getitem_back (self_z self') 2
                     (track (drop 1 (take (length (elements system) - 1)
                                          (elements system))))).
    - rewrite_index (py_getitem_nat (self_z self') 1 _ (Hz 1%nat ltac:(lia))).
      reflexivity.
    - lia.
    - rewrite Hzlen, Hz by lia.
      replace (S (length (elements system) - 2)) with (length (elements system) - 1)%nat
        by lia.
      reflexivity. }
  rewrite Htrack. split.
  - intros H3. f_equal.
    rewrite <- (take_drop 1 (drop 1 (take (length (elements system) - 1)
                                         (elements system)))).
    rewrite track_app, drop_drop, take_drop_commute, take_take.
    replace ((1 + 1) `min` (length (elements system) - 1))%nat with 2%nat by lia.
    cbn [Nat.add]. ring.
  - intros image H2 Himage. f_equal.
    rewrite H2. cbn [Nat.sub].
    destruct (elements system) as [|e0 [|e1 [|e2 els]]]; try discriminate H2.
    injection Himage as ->. unfold track. cbn. ring.
Qed.
End TrackLength.


(** The thickness of the second face of the lens of [rational_system]
    is its track length. *)
Lemma track_after_propagate_witness :
  exists self' : ParaxialTrace.state Qc unit,
    ParaxialTrace.propagate rational_system rational_start 0 None = Returns self' /\
    ((3 <= length (elements rational_system))%nat ->
       Paraxial.track self'
       = Returns (track (drop 2 (take (length (elements rational_system) - 1)
                                      (elements rational_system))))) /\
    (forall image : Element Qc unit,
       length (elements rational_system) = 2%nat ->
       elements rational_system !! 1%nat = Some image ->
       Paraxial.track self' = Returns (- thickness image)%Qc).
Proof.
  refine (track_after_propagate rational_system rational_start _ _).
  - simpl. lia.
  - repeat split.
Defined.

(** ** Items that are there, and items that are not *)
Section ItemsThere.
Context {F : Type}.

Lemma py_getitem_in {A : Type} (l : list A) (i : Z) :
  - Z.of_nat (length l) <= i < Z.of_nat (length l) ->
  exists a : A, py_getitem l i = Returns a.
Proof.
  intros Hi. unfold py_getitem, py_index.
  destruct (Z.leb_spec 0 i), (Z.ltb_spec i (Z.of_nat (length l))),
    (Z.leb_spec (- Z.of_nat (length l)) i), (Z.ltb_spec i 0);
    cbn [andb]; try lia.
  - destruct (lookup_lt_is_Some_2 l (Z.to_nat i)) as [a ->]; [lia|]. now exists a.
  - destruct (lookup_lt_is_Some_2 l (Z.to_nat (Z.of_nat (length l) + i))) as [a ->];
      [lia|]. now exists a.
Qed.

Lemma py_getitem_out {A : Type} (l : list A) (i : Z) :
  i < - Z.of_nat (length l) \/ Z.of_nat (length l) <= i ->
  py_getitem l i = Raises "IndexError".
Proof.
  intros Hi. unfold py_getitem, py_index.
  destruct (Z.leb_spec 0 i), (Z.ltb_spec i (Z.of_nat (length l))),
    (Z.leb_spec (- Z.of_nat (length l)) i), (Z.ltb_spec i 0);
    cbn [andb]; try lia; reflexivity.
Qed.

Lemma get2_in (a : list (F * F)) (i j : Z) :
  - Z.of_nat (length a) <= i < Z.of_nat (length a) ->
  j = 0 \/ j = 1 ->
  exists x : F, get2 a i j = Returns x.
Proof.
  intros Hi Hj. unfold get2.
  destruct (py_getitem_in a i Hi) as [row ->]. cbn [bind].
  destruct Hj as [-> | ->]; eexists; reflexivity.
Qed.
End ItemsThere.

(** Every item the derived properties read is there. *)
Ltac items_there :=
  repeat match goal with
         | |- context [get2 ?a ?i ?j] =>
             let x := fresh "x" in
             destruct (get2_in a i j) as [x ->];
             [lia | first [left; reflexivity | right; reflexivity] | cbn [bind]]
         | |- context [py_getitem ?l ?i] =>
             let x := fresh "x" in
             destruct (py_getitem_in l i) as [x ->]; [lia | cbn [bind]]
         end.

(** ** ParaxialTrace: the lines of [print_params] and [print_trace] *)
Section ParamLines.
Context {F T : Type} `{Arith F} `{Elementary F}.
Variable format_g : bool -> option nat -> F -> string.
Variable str_float : F -> string.
Import ParaxialTrace Trace.

Lemma one_returns (label : string) (x : F) :
  exists s : string, Paraxial.one format_g str_float label (Returns x) = Returns s.
Proof. eexists. reflexivity. Qed.

Lemma two_returns (label : string) (p : F * F) :
  exists s : string, Paraxial.two format_g str_float label (Returns p) = Returns s.
Proof. eexists. reflexivity. Qed.

(** X20: on a trace with two rows or more in [y], [u], [n] and [z] and
    a wavelength in [l], [print_params] yields its eleven lines and ends
    without an exception, whatever the numbers are. *)
Theorem print_params_lines (self : state F T) :
  two_rows self ->
  exists lines : list string,
    Paraxial.print_params format_g str_float self = (lines, None) /\
    length lines = 11%nat.
Proof.
  intros (Hy & Hu & Hn & Hz & Hl).
  unfold Paraxial.print_params.
  unfold lagrange, Paraxial.track, Paraxial.focal_length, Paraxial.height,
    Paraxial.focal_distance, Paraxial.pupil_height, Paraxial.pupil_position,
    Paraxial.f_number, Paraxial.airy_radius, Paraxial.numerical_aperture,
    magnification, lagrange.
  items_there.
  repeat match goal with
         | |- context [Paraxial.one _ _ ?l (Returns ?x)] =>
             let s := fresh "s" in destruct (one_returns l x) as [s ->]
         | |- context [Paraxial.two _ _ ?l (Returns ?p)] =>
             let s := fresh "s" in destruct (two_returns l p) as [s ->]
         end.
  eexists. split; reflexivity.
Qed.

(** X21: on a trace whose [z] has fewer than two rows [print_params]
    does not get past the Lagrange invariant: with a row 0 in [y], [u]
    and [n] it yields that one line and raises [IndexError] at the track
    length; without one it raises [IndexError] before any line. *)
Theorem print_params_short (self : state F T) :
  (length (self_z self) < 2)%nat ->
  ((1 <= length (self_y self))%nat -> (1 <= length (self_u self))%nat ->
   (1 <= length (self_n self))%nat ->
   exists line : string,
     Paraxial.print_params format_g str_float self = ([line], Some "IndexError")) /\
  (self_n self = [] ->
   Paraxial.print_params format_g str_float self = ([], Some "IndexError")).
Proof.
  intros Hz. split.
  - intros Hy Hu Hn. unfold Paraxial.print_params.
    unfold lagrange. items_there.
    match goal with
    | |- context [Paraxial.one _ _ ?l (Returns ?x)] =>
        destruct (one_returns l x) as [s ->]
    end.
    unfold Paraxial.track. rewrite (py_getitem_out (self_z self) (-2)) by lia.
    exists s. reflexivity.
  - intros Hn. unfold Paraxial.print_params, lagrange.
    rewrite Hn, py_getitem_nil. reflexivity.
Qed.

Lemma c_columns (y u : list (F * F)) :
  length y = length u ->
  Paraxial.c_ (map fst y) (map fst u) (map snd y) (map snd u)
  = Returns (zip_with (fun a b => [fst a; fst b; snd a; snd b]) y u).
Proof.
  intros Hlen. unfold Paraxial.c_, zip_same.
  rewrite !length_map, Hlen, Nat.eqb_refl. cbn [bind].
  rewrite length_zip, !length_map, Hlen, Nat.min_id, Nat.eqb_refl. cbn [bind].
  rewrite !length_zip, !length_map, Hlen, !Nat.min_id, Nat.eqb_refl. cbn [bind].
  f_equal. clear Hlen. revert u.
  induction y as [|a y IH]; intros [|b u]; try reflexivity.
  cbn. f_equal. apply IH.
Qed.

(** X22: on a trace with one row per surface [print_trace] gives a
    generator that yields the header and one line per surface, with the
    height and the slope of the marginal ray and then those of the chief
    ray, and ends without an exception; no line of sums follows. *)
Theorem print_trace_lines (system : System F T) (self : state F T) :
  length (self_y self) = length (elements system) ->
  length (self_u self) = length (elements system) ->
  exists lines : list string,
    Paraxial.print_trace format_g str_float system self = Returns (lines, None) /\
    length lines = S (length (elements system)) /\
    lines !! 0%nat
      = Some (line "#" "T" (map field_s ["marg y"; "marg u"; "chief y"; "chief u"])) /\
    forall (i : nat) (el : Element F T) (y u : F * F),
      elements system !! i = Some el ->
      self_y self !! i = Some y -> self_u self !! i = Some u ->
      lines !! S i
      = Some (line (py_str_int (Z.of_nat i)) (typ el)
                (map (field_g format_g) [fst y; fst u; snd y; snd u])).
Proof.
  intros Hy Hu. unfold Paraxial.print_trace.
  rewrite c_columns by congruence. cbn [bind].
  rewrite print_coeffs_yields.
  - eexists. split; [reflexivity|]. cbn [rows]. split; [|split].
    + cbn [length]. rewrite app_nil_r, length_data_lines, length_zip_with. lia.
    + reflexivity.
    + intros i el y u Hel Hyi Hui. rewrite app_nil_r.
      change ((?x :: ?l) !! S i) with (l !! i).
      apply (lookup_data_lines format_g (elements system) 0 i); [|exact Hel].
      rewrite lookup_zip_with, Hyi. cbn. rewrite Hui. reflexivity.
  - reflexivity.
  - cbn [rows columns]. apply Forall_lookup. intros i a Hi.
    rewrite lookup_zip_with in Hi.
    destruct (self_y self !! i); [|discriminate]. cbn in Hi.
    destruct (self_u self !! i); [|discriminate]. cbn in Hi.
    injection Hi as <-. reflexivity.
  - cbn [rows]. rewrite length_zip_with. lia.
Qed.
End ParamLines.


(** On [sample_trace], with whole numbers printed as such. *)
Lemma print_params_lines_witness :
  exists lines : list string,
    Paraxial.print_params format_whole (format_whole false None) sample_trace
      = (lines, None) /\
    length lines = 11%nat.
Proof.
  apply (print_params_lines format_whole (format_whole false None) sample_trace).
  unfold two_rows. simpl. lia.
Defined.

(** [one_row_trace] has a row 0 and no row -2. *)
Lemma print_params_short_witness :
  (exists line : string,
     Paraxial.print_params format_whole (format_whole false None) one_row_trace
       = ([line], Some "IndexError")) /\
  (ParaxialTrace.self_n one_row_trace = [] ->
   Paraxial.print_params format_whole (format_whole false None) one_row_trace
     = ([], Some "IndexError")).
Proof.
  destruct (print_params_short format_whole (format_whole false None) one_row_trace)
    as [Hone Hnone].
  - simpl. lia.
  - split; [|exact Hnone]. apply Hone; simpl; lia.
Defined.

(** The three surfaces of [sample_system] and fresh arrays full of 2. *)
Lemma print_trace_lines_witness :
  exists lines : list string,
    Paraxial.print_trace format_whole (format_whole false None)
      (sample_system false) (allocated 3 4 2%float) = Returns (lines, None) /\
    length lines = 4%nat /\
    lines !! 0%nat
      = Some (line "#" "T" (map field_s ["marg y"; "marg u"; "chief y"; "chief u"])) /\
    forall (i : nat) (el : Element float unit) (y u : float * float),
      elements (sample_system false) !! i = Some el ->
      ParaxialTrace.self_y (allocated 3 4 2%float) !! i = Some y ->
      ParaxialTrace.self_u (allocated 3 4 2%float) !! i = Some u ->
      lines !! S i
      = Some (line (py_str_int (Z.of_nat i)) (typ el)
                (map (field_g format_whole) [fst y; fst u; snd y; snd u])).
Proof.
  exact (print_trace_lines format_whole (format_whole false None)
           (sample_system false) (allocated 3 4 2%float) eq_refl eq_refl).
Defined.

(** The table of a fresh trace. *)
Example print_trace_sample :
  Paraxial.print_trace format_whole (format_whole false None)
    (sample_system false) (allocated 3 4 2%float)
  = Returns ([" # T    marg y    marg u   chief y   chief u";
              " 0 O         2         2         2         2";
              " 1 A         2         2         2         2";
              " 2 I         2         2         2         2"], None).
Proof. vm_compute. reflexivity. Qed.

(** ** FullTrace: construction, and the rays of a paraxial trace *)
Section FullConstruction.
Context {F T : Type} `{Arith F} `{Elementary F}.
Import FullTrace.





(** X24: [rays_like_paraxial] suits a trace of two rays only: called on
    a trace whose row 0 holds another number of rays, it raises
    [ValueError], the two rays of the paraxial trace fitting neither one
    place nor three or more. *)
Theorem rays_like_paraxial_wrong_count (system : System F T) (self : state F)
    (paraxial : ParaxialTrace.state F T) (row : @rays F) (y0 : F * F) :
  wavelengths (object system) <> [] ->
  self_y self !! 0%nat = Some row ->
  length row <> 2%nat ->
  ParaxialTrace.self_y paraxial !! 0%nat = Some y0 ->
  Full.rays_like_paraxial system self paraxial = Raises "ValueError".
Proof.
  intros Hw Hrow Hlen Hy0. unfold Full.rays_like_paraxial.
  destruct (wavelengths (object system)) as [|w ws]; [congruence|].
  rewrite py_getitem_head. cbn [bind].
  rewrite_index (py_getitem_nat _ 0 _ Hrow).
  rewrite_index (py_getitem_nat _ 0 _ Hy0).
  unfold Full.set_col0, broadcast, fill. rewrite length_map. cbn [length].
  destruct (Nat.eqb_spec 2 (length row)) as [E|_]; [congruence|].
  reflexivity.
Qed.
End FullConstruction.



(** [three_rays] has a ray too many. *)
Lemma rays_like_paraxial_wrong_count_witness :
  Full.rays_like_paraxial (sample_system false) three_rays sample_trace
  = Raises "ValueError".
Proof.
  refine (rays_like_paraxial_wrong_count (sample_system false) three_rays sample_trace
            (repeat (nan, nan, nan) 3) (0, 4)%float _ eq_refl _ eq_refl).
  - discriminate.
  - simpl. lia.
Defined.

(** ** FullTrace: the rays for a point of the object *)
Section RaysForPoint.
Context {T : Type}.
Variables sin cos : float -> float.
Variable random_rand : Z -> list float * list float.
Variable refractive_index : float -> float.
Variable infinity : Object float -> bool.
Import FullTrace.

Abbreviation get_rays := (get_rays sin cos random_rand).
Abbreviation rays_for_point := (Full.rays_for_point sin cos random_rand refractive_index).

(** The two coordinates [get_rays] returns are as many. *)
Lemma points_paired (distribution : string) (nrays : Z) (xs ys : list float) :
  get_rays distribution nrays = Returns (Points xs ys) ->
  length xs = length ys.
Proof.
  unfold FullTrace.get_rays, np.zeros, of_points.
  repeat match goal with
         | |- context [String.eqb distribution ?name] =>
             destruct (String.eqb distribution name)
         end;
    repeat match goal with
           | |- context [if ?b then _ else _] => destruct b; cbn [bind]
           | |- context [bind ?r _] => destruct r; cbn [bind]
           | |- context [let (_, _) := ?p in _] => destruct p
           end;
    try discriminate;
    intros E; apply (f_equal (fun r => match r with
                                       | Returns (Points a b) => (length a, length b)
                                       | _ => (0%nat, 0%nat)
                                       end)) in E;
    cbn in E;
    rewrite ?length_app, ?length_map, ?length_linspace, ?repeat_length in E;
    injection E as <- <-; reflexivity.
Qed.

(** X25: [get_rays] returns [None] for no name of the eight: when it
    returns for one of them, it returns points, with as many abscissas
    as ordinates; and it returns points for no other name. *)
Theorem get_rays_points (distribution : string) (nrays : Z) (s : sample) :
  get_rays distribution nrays = Returns s ->
  match s with
  | None_ => ~ In distribution distributions
  | Points xs ys => In distribution distributions /\ length xs = length ys
  end.
Proof.
  intros Hrun. destruct s as [|xs ys].
  - intros Hd. unfold distributions in Hd. cbn [In] in Hd.
    revert Hrun. unfold FullTrace.get_rays, of_points.
    repeat destruct Hd as [<- | Hd]; try contradiction; cbn [String.eqb Ascii.eqb Bool.eqb];
      repeat match goal with
             | |- context [bind ?r _] => destruct r; cbn [bind]
             | |- context [if ?b then _ else _] => destruct b; cbn [bind]
             | |- context [let (_, _) := ?p in _] => destruct p
             end;
      discriminate.
  - split; [|exact (points_paired distribution nrays xs ys Hrun)].
    revert Hrun. unfold FullTrace.get_rays, distributions. cbn [In].
    repeat match goal with
           | |- context [String.eqb distribution ?name] =>
               destruct (String.eqb_spec distribution name) as [->|_]; [tauto|]
           end.
    discriminate.
Qed.
End RaysForPoint.


(** Three points on the meridian. *)
Lemma get_rays_points_witness :
  In "meridional" distributions /\
  length (np.linspace (-1) 1 3) = length (repeat 0%float 3).
Proof.
  exact (get_rays_points poly_sin poly_cos fixed_draws "meridional" 3
           (FullTrace.Points (np.linspace (-1) 1 3) (repeat 0%float 3)) eq_refl).
Defined.

Section RaysForPointRuns.
Context {T : Type}.
Variables sin cos : float -> float.
Variable random_rand : Z -> list float * list float.
Variable refractive_index : float -> float.
Variable pow2 : float -> float.
Variable python_radius : Object float -> bool.
Import FullTrace.

Abbreviation get_rays := (get_rays sin cos random_rand).
Abbreviation rays_for_point :=
  (Full.rays_for_point sin cos random_rand refractive_index pow2 python_radius).
Abbreviation sinarctan_radius := (Full.sinarctan_radius pow2 python_radius).


Lemma zip_same_returns {A B : Type} (a : list A) (b : list B) :
  length a = length b -> zip_same a b = Returns (zip a b).
Proof. intros Hlen. unfold zip_same. now rewrite Hlen, Nat.eqb_refl. Qed.


(** X26: [rays_for_point] with a name that is none of the eight
    distributions raises [TypeError], whatever the other arguments:
    [get_rays] hands it [None], which it cannot unpack into [xp, yp]. *)
Theorem rays_for_point_unknown (mem : Full.uninitialised) (system : System float T)
    (paraxial : ParaxialTrace.state float T) (height : float * float)
    (wavelength : float) (nrays : Z) (distribution : string) :
  ~ In distribution distributions ->
  rays_for_point mem system paraxial height wavelength nrays distribution
  = Raises "TypeError".
Proof.
  intros Hd. unfold Full.rays_for_point, FullTrace.get_rays.
  repeat match goal with
         | |- context [String.eqb distribution ?name] =>
             destruct (String.eqb_spec distribution name) as [->|_];
             [exfalso; apply Hd; unfold distributions; simpl; tauto|]
         end.
  reflexivity.
Qed.



End RaysForPointRuns.

(** No distribution is called a spiral. *)
Lemma rays_for_point_unknown_witness :
  Full.rays_for_point poly_sin poly_cos fixed_draws (fun _ => 1%float)
    exact_square (fun _ => true)
    nan_rays (sample_system true) sample_trace (0, 1)%float 0.5%float 6 "spiral"
  = Raises "TypeError".
Proof.
  apply rays_for_point_unknown.
  unfold distributions. simpl. intuition discriminate.
Defined.


(** The square of 3 is in range. *)
Example sinarctan_radius_sample :
  exists s : float,
    Full.sinarctan_radius exact_square (fun _ => true) (object (sample_system false))
    = Returns s.
Proof. eexists. reflexivity. Qed.

(** A radius of 2^600 as a Python float: its square is out of range. *)
Example rays_for_point_overflow :
  Full.rays_for_point poly_sin poly_cos fixed_draws (fun _ => 1%float)
    exact_square (fun _ => true)
    nan_rays wide_system sample_trace (0, 1)%float 0.5%float 6 "tee"
  = Raises "OverflowError".
Proof. vm_compute. reflexivity. Qed.


(** ** FullTrace: the rays for the whole object *)
Section RaysForObject.
Context {T : Type}.
Variable refractive_index : float -> float.
Variable infinity : Object float -> option bool.
Variable pow2 : float -> float.
Variable python_radius : Object float -> bool.
Import FullTrace.

Abbreviation rays_for_object :=
  (Full.rays_for_object refractive_index infinity pow2 python_radius).

End RaysForObject.

(** Ten rays along the object of [sample_system]. *)
Example rays_for_object_sample :
  Full.rays_for_object (fun _ => 1%float) (fun o => Some (negb (finite o)))
    exact_square (fun _ => true)
    (sample_system false) three_rays sample_trace 0.5%float 10 0x1p-20%float
  = Raises "TypeError".
Proof. vm_compute. reflexivity. Qed.

(** An object that has no attribute [infinity]. *)
Example rays_for_object_no_attribute :
  Full.rays_for_object (fun _ => 1%float) (fun _ => None)
    exact_square (fun _ => true)
    (sample_system false) three_rays sample_trace 0.5%float 10 0x1p-20%float
  = Raises "AttributeError".
Proof. vm_compute. reflexivity. Qed.

(** ** FullTrace: the lines of [print_trace] *)
Section FullPrintTrace.
Context {F T : Type} `{Arith F} `{Elementary F}.
Variable format_g : bool -> option nat -> F -> string.
Variable str_float : F -> string.
Import FullTrace Trace.

Lemma column_returns {A : Type} (a : list (list A)) (i k : nat) :
  (i < k)%nat ->
  Forall (fun r => length r = k) a ->
  exists c : list A, Full.column a (Z.of_nat i) = Returns c /\ length c = length a.
Proof.
  intros Hi Ha. induction Ha as [|row a Hrow _ IH].
  - exists []. split; reflexivity.
  - destruct IH as (c & Hc & Hlen).
    destruct (lookup_lt_is_Some_2 row i) as [x Hx]; [lia|].
    exists (x :: c). cbn [Full.column].
    rewrite (py_getitem_nat _ _ _ Hx). cbn [bind]. rewrite Hc. cbn [bind length].
    split; [reflexivity | now rewrite Hlen].
Qed.

Lemma length_cumsum (a : list F) : length (Full.cumsum a) = length a.
Proof.
  destruct a as [|x a]; [reflexivity|]. cbn [Full.cumsum length]. f_equal.
  generalize x. induction a as [|y a IH]; intros acc; [reflexivity|].
  cbn [Full.cumsum_from length]. f_equal. apply IH.
Qed.

Lemma ray_table_returns (self : state F) (len k i : nat) :
  rectangular len k self ->
  (i < k)%nat ->
  exists c : list (list F),
    Full.ray_table self (Z.of_nat i) = Returns c /\
    length c = len /\
    Forall (fun r => length r = 9%nat) c.
Proof.
  intros (_ & _ & Hz & (Hn & Hnk) & (Ht & Htk) & (Hy & Hyk) & (Hu & Huk)) Hi.
  unfold Full.ray_table. unfold rays in Hy, Hyk, Hu, Huk. unfold rays.
  destruct (column_returns (self_n self) i k Hi Hnk) as (n & -> & Hnl).
  destruct (column_returns (self_t self) i k Hi Htk) as (t & -> & Htl).
  destruct (column_returns (self_y self) i k Hi Hyk) as (y & -> & Hyl).
  destruct (column_returns (self_u self) i k Hi Huk) as (u & -> & Hul).
  cbn [bind].
  rewrite (zip_same_returns n) by congruence. cbn [bind].
  rewrite zip_same_returns
    by (rewrite length_zip, length_cumsum; lia). cbn [bind].
  rewrite zip_same_returns
    by (rewrite !length_zip, length_cumsum; lia). cbn [bind].
  rewrite zip_same_returns
    by (rewrite !length_zip, length_cumsum; lia). cbn [bind].
  eexists. split; [reflexivity|]. split.
  - rewrite length_map, !length_zip, length_cumsum. lia.
  - apply Forall_lookup. intros j r Hr.
    rewrite list_lookup_fmap in Hr.
    destruct (_ !! j) as [[[[[? ?] ?] ?] ?]|]; [|discriminate].
    cbn in Hr. injection Hr as <-. reflexivity.
Qed.

(** The lines of one ray: its header, the table of [print_coeffs] with a
    line per surface, and an empty line. *)
Lemma print_ray_lines (system : System F T) (self : state F) (k i : nat)
    (rest : generated) :
  rectangular (length (elements system)) k self ->
  (i < k)%nat ->
  exists (li : F) (head : string) (table : list string),
    Full.print_ray format_g str_float system self (Z.of_nat i) rest
      = ((head :: table ++ [""]) ++ fst rest, snd rest) /\
    self_l self !! i = Some li /\
    py_format format_g str_float Full.ray_header
      [Int (Z.of_nat i); Num (li /. literal Full.nano)] = Returns head /\
    length table = S (length (elements system)) /\
    table !! 0%nat = Some (line "#" "T" (map field_s Full.ray_labels)).
Proof.
  intros Hshape Hi.
  destruct (ray_table_returns self _ k i Hshape Hi) as (c & Hc & Hlen & Hrows).
  destruct Hshape as (_ & Hl & _).
  destruct (lookup_lt_is_Some_2 (self_l self) i) as [li Hli]; [lia|].
  assert (exists head : string,
            py_format format_g str_float Full.ray_header
              [Int (Z.of_nat i); Num (li /. literal Full.nano)] = Returns head)
    as [head Hhead] by (eexists; reflexivity).
  exists li, head,
    (line "#" "T" (map field_s Full.ray_labels)
     :: data_lines format_g (elements system) 0 c).
  split; [|split; [exact Hli|split; [exact Hhead|]]].
  - unfold Full.print_ray.
    rewrite (py_getitem_nat _ _ _ Hli), Hc. cbn [bind Full.then_].
    rewrite Hhead.
    rewrite print_coeffs_yields; [| reflexivity | exact Hrows | cbn [rows]; lia].
    unfold Full.yield_from. cbn [fst snd yield rows].
    rewrite app_nil_r. f_equal. cbn [app]. f_equal. f_equal.
    now rewrite <- app_assoc.
  - split; [|reflexivity].
    cbn [length]. now rewrite length_data_lines, Hlen.
Qed.

(** X30: [FullTrace.print_trace] on arrays of the shape [allocate]
    gives them yields, for each ray in turn, the header of the ray at
    its wavelength in nm, the table of [print_coeffs] under the nine
    labels with one line per surface and no sums, and an empty line:
    [nrays * (length + 3)] lines, and no exception. *)
Theorem full_print_trace_lines (system : System F T) (self : state F) (k : nat) :
  rectangular (length (elements system)) k self ->
  exists blocks : list (list string),
    Full.print_trace format_g str_float system self = (concat blocks, None) /\
    length blocks = k /\
    length (concat blocks) = (k * (length (elements system) + 3))%nat /\
    forall (i : nat) (block : list string),
      blocks !! i = Some block ->
      exists (li : F) (head : string) (table : list string),
        block = head :: table ++ [""] /\
        self_l self !! i = Some li /\
        py_format format_g str_float Full.ray_header
          [Int (Z.of_nat i); Num (li /. literal Full.nano)] = Returns head /\
        length table = S (length (elements system)) /\
        table !! 0%nat = Some (line "#" "T" (map field_s Full.ray_labels)).
Proof.
  intros Hshape.
  assert (forall m s : nat, (s + m = k)%nat ->
            exists blocks : list (list string),
              fold_right (Full.print_ray format_g str_float system self) stop_iteration
                (map Z.of_nat (seq s m)) = (concat blocks, None) /\
              length blocks = m /\
              length (concat blocks) = (m * (length (elements system) + 3))%nat /\
              forall (j : nat) (block : list string),
                blocks !! j = Some block ->
                exists (li : F) (head : string) (table : list string),
                  block = head :: table ++ [""] /\
                  self_l self !! (s + j)%nat = Some li /\
                  py_format format_g str_float Full.ray_header
                    [Int (Z.of_nat (s + j)); Num (li /. literal Full.nano)]
                    = Returns head /\
                  length table = S (length (elements system)) /\
                  table !! 0%nat = Some (line "#" "T" (map field_s Full.ray_labels)))
    as Hloop.
  { induction m as [|m IH]; intros s Hs.
    - exists []. cbn. repeat split. intros j block Hj. discriminate Hj.
    - destruct (IH (S s)) as (blocks & Hrun & Hlen & Hcount & Hblocks); [lia|].
      cbn [seq map fold_right]. rewrite Hrun.
      destruct (print_ray_lines system self k s (concat blocks, None) Hshape)
        as (li & head & table & Hray & Hli & Hhead & Htable & Hfirst); [lia|].
      exists ((head :: table ++ [""]) :: blocks).
      split; [exact Hray|]. split; [cbn; now rewrite Hlen|]. split.
      + cbn [concat]. rewrite length_app, Hcount. cbn [length].
        rewrite length_app, Htable. cbn [length]. lia.
      + intros [|j] block Hj.
        * injection Hj as <-. exists li, head, table.
          rewrite Nat.add_0_r. auto.
        * change (blocks !! j = Some block) in Hj.
          replace (s + S j)%nat with (S s + j)%nat by lia.
          apply Hblocks, Hj. }
  destruct (Hloop k 0%nat) as (blocks & Hrun & Hrest); [lia|].
  exists blocks. split; [|exact Hrest].
  unfold Full.print_trace.
  destruct Hshape as (-> & _). rewrite py_range_0. exact Hrun.
Qed.
End FullPrintTrace.

(** The three rays of [three_rays] through the three surfaces of
    [sample_system]: three times six lines. *)
Lemma full_print_trace_lines_witness :
  exists blocks : list (list string),
    Full.print_trace format_whole (format_whole false None) (sample_system false)
      three_rays = (concat blocks, None) /\
    length blocks = 3%nat /\
    length (concat blocks) = (3 * (3 + 3))%nat /\
    forall (i : nat) (block : list string),
      blocks !! i = Some block ->
      exists (li : float) (head : string) (table : list string),
        block = head :: table ++ [""] /\
        FullTrace.self_l three_rays !! i = Some li /\
        Trace.py_format format_whole (format_whole false None) Full.ray_header
          [Trace.Int (Z.of_nat i); Trace.Num (li /. literal Full.nano)] = Returns head /\
        length table = 4%nat /\
        table !! 0%nat = Some (line "#" "T" (map field_s Full.ray_labels)).
Proof.
  refine (full_print_trace_lines format_whole (format_whole false None)
            (sample_system false) three_rays 3 _).
  unfold rectangular. simpl. repeat split; repeat constructor.
Defined.
